(** * appwrite-types-gen: the schema-to-declaration generation engine

    A shallow embedding of the generator classes of the repository
    (type-converters.ts, enum-generator.ts, interface-generator.ts,
    id-constants-generator.ts, generator/index.ts) and the properties of
    its specification.

    JavaScript strings are modelled as [string]: sequences of 8-bit code
    units, the code units U+0000 to U+00FF.  White space ([\s], [trim])
    is exact on these code units.  Letter case ([toUpperCase],
    [toLowerCase]) is modelled on the ASCII range only: code units above
    0x7F are carried through unchanged, where the engine cases some of
    them (U+00DF becomes SS, U+00E0 to U+00FE are cased); a property that
    depends on the case of such code units is stated for ASCII text.
    Thrown exceptions are modelled by an error monad. *)

From Stdlib Require Import String Ascii List Bool Arith ZArith Lia DecimalString.
Import ListNotations.
Open Scope string_scope.

Arguments String.eqb : simpl never.
Arguments String.append : simpl nomatch.

(* ================================================================== *)
(** ** Exceptions *)

(** A thrown JavaScript value, as far as the generators inspect it:
    [error instanceof GeneratorError], [error instanceof Error] and
    [error.message] / [String(error)]. *)
Inductive Thrown : Type :=
| GeneratorError (message : string)   (* a GeneratorError or one of its subclasses *)
| JsError (message : string)          (* any other Error: Error, TypeError, SyntaxError *)
| NonError (text : string).           (* a thrown value that is no Error; text = String(value) *)

Inductive Completion (A : Type) : Type :=
| Return (a : A)
| Throw (e : Thrown).
Arguments Return {A} a.
Arguments Throw {A} e.

Definition bind {A B : Type} (c : Completion A) (k : A -> Completion B) : Completion B :=
  match c with
  | Return a => k a
  | Throw e => Throw e
  end.

Notation "x <- c ;; k" := (bind c (fun x => k))
  (at level 61, c at next level, right associativity).
Notation "c ;;; k" := (bind c (fun _ => k))
  (at level 61, right associativity).

(** [try { body } catch (error) { handler(error) }] where the handler
    always throws. *)
Definition tryCatch {A : Type} (body : Completion A) (handler : Thrown -> Thrown) : Completion A :=
  match body with
  | Return a => Return a
  | Throw e => Throw (handler e)
  end.

(** [array.map(f)] where [f] may throw: the first exception aborts. *)
Fixpoint mapM {A B : Type} (f : A -> Completion B) (l : list A) : Completion (list B) :=
  match l with
  | [] => Return []
  | x :: r => y <- f x ;; ys <- mapM f r ;; Return (y :: ys)
  end.

(** [error instanceof Error ? error.message : String(error)] *)
Definition messageOf (e : Thrown) : string :=
  match e with
  | GeneratorError m => m
  | JsError m => m
  | NonError t => t
  end.

(* ================================================================== *)
(** ** String built-ins *)

Module JS.

Definition nl : string := String (ascii_of_nat 10) "".
Definition dq : string := String (ascii_of_nat 34) "".

Definition code (c : ascii) : nat := nat_of_ascii c.
Definition inRange (lo hi : nat) (c : ascii) : bool :=
  (lo <=? code c)%nat && (code c <=? hi)%nat.

(** [\d] *)
Definition isDigit (c : ascii) : bool := inRange 48 57 c.
Definition isUpper (c : ascii) : bool := inRange 65 90 c.
Definition isLower (c : ascii) : bool := inRange 97 122 c.
(** [[a-zA-Z0-9]] *)
Definition isAlnum (c : ascii) : bool := isLower c || isUpper c || isDigit c.
(** [[a-zA-Z0-9_]] *)
Definition isWord (c : ascii) : bool := isAlnum c || (code c =? 95)%nat.
(** [[-_]] *)
Definition isDashOrUnderscore (c : ascii) : bool :=
  (code c =? 45)%nat || (code c =? 95)%nat.
(** [\s], and the white space of [trim]: TAB, LF, VT, FF, CR, SPACE and
    NO-BREAK SPACE (U+00A0), the white space among the code units below
    0x100. *)
Definition isSpace (c : ascii) : bool :=
  inRange 9 13 c || (code c =? 32)%nat || (code c =? 160)%nat.
Definition isNewline (c : ascii) : bool := (code c =? 10)%nat.

Definition upperChar (c : ascii) : ascii :=
  if isLower c then ascii_of_nat (code c - 32) else c.
Definition lowerChar (c : ascii) : ascii :=
  if isUpper c then ascii_of_nat (code c + 32) else c.

Fixpoint mapChars (f : ascii -> ascii) (s : string) : string :=
  match s with
  | EmptyString => EmptyString
  | String c r => String (f c) (mapChars f r)
  end.

Fixpoint filterChars (p : ascii -> bool) (s : string) : string :=
  match s with
  | EmptyString => EmptyString
  | String c r => if p c then String c (filterChars p r) else filterChars p r
  end.

Fixpoint allChars (p : ascii -> bool) (s : string) : bool :=
  match s with
  | EmptyString => true
  | String c r => p c && allChars p r
  end.

Definition toUpperCase (s : string) : string := mapChars upperChar s.
Definition toLowerCase (s : string) : string := mapChars lowerChar s.

(** [s.charAt(0)] *)
Definition charAt0 (s : string) : string :=
  match s with
  | EmptyString => EmptyString
  | String c _ => String c EmptyString
  end.

(** [s.slice(1)] *)
Definition slice1 (s : string) : string :=
  match s with
  | EmptyString => EmptyString
  | String _ r => r
  end.

(** [s.split(/[sep]/)] for a one-character class: every separator ends a
    segment, empty segments are kept, and the empty string gives one
    empty segment. *)
Fixpoint split (sep : ascii -> bool) (s : string) : list string :=
  match s with
  | EmptyString => [EmptyString]
  | String c r =>
      if sep c then EmptyString :: split sep r
      else match split sep r with
           | seg :: segs => String c seg :: segs
           | [] => [String c EmptyString]
           end
  end.

(** [array.join(sep)] *)
Definition join (sep : string) (l : list string) : string := String.concat sep l.

(** [s.replace(/s$/, '')] *)
Fixpoint stripTrailingS (s : string) : string :=
  match s with
  | EmptyString => EmptyString
  | String c r =>
      match r with
      | EmptyString => if (code c =? 115)%nat then EmptyString else String c EmptyString
      | String _ _ => String c (stripTrailingS r)
      end
  end.

(** [s.replace(/[^class]/g, '_')] *)
Definition replaceOutside (class : ascii -> bool) (s : string) : string :=
  mapChars (fun c => if class c then c else ascii_of_nat 95) s.

(** [s.replace(/[^class]/g, '')] *)
Definition removeOutside (class : ascii -> bool) (s : string) : string :=
  filterChars class s.

(** [s.replace(/^(\d)/, '_$1')] *)
Definition guardLeadingDigit (s : string) : string :=
  match s with
  | EmptyString => EmptyString
  | String c r => if isDigit c then String (ascii_of_nat 95) (String c r) else String c r
  end.

(** [s.replace(/\s+/g, '_')]: every maximal run of white space becomes one
    underscore.  [inRun] tells that the previous character was white space. *)
Fixpoint replaceSpaceRunsFrom (inRun : bool) (s : string) : string :=
  match s with
  | EmptyString => EmptyString
  | String c r =>
      if isSpace c then
        if inRun then replaceSpaceRunsFrom true r
        else String (ascii_of_nat 95) (replaceSpaceRunsFrom true r)
      else String c (replaceSpaceRunsFrom false r)
  end.
Definition replaceSpaceRuns (s : string) : string := replaceSpaceRunsFrom false s.

(** [s.replace(/\n{3,}/g, '\n\n')]: the greedy match takes a whole maximal
    run of line feeds, so a run of three or more becomes two and shorter
    runs stay.  [run] counts the line feeds just before [s]. *)
Fixpoint collapseNewlinesFrom (run : nat) (s : string) : string :=
  match s with
  | EmptyString => EmptyString
  | String c r =>
      if isNewline c then
        if (run <? 2)%nat then String c (collapseNewlinesFrom (S run) r)
        else collapseNewlinesFrom (S run) r
      else String c (collapseNewlinesFrom 0 r)
  end.
Definition collapseNewlines (s : string) : string := collapseNewlinesFrom 0 s.

Fixpoint trimStart (s : string) : string :=
  match s with
  | EmptyString => EmptyString
  | String c r => if isSpace c then trimStart r else s
  end.

Fixpoint trimEnd (s : string) : string :=
  match s with
  | EmptyString => EmptyString
  | String c r =>
      match trimEnd r with
      | EmptyString => if isSpace c then EmptyString else String c EmptyString
      | t => String c t
      end
  end.

(** [s.trim()] *)
Definition trim (s : string) : string := trimEnd (trimStart s).

(** [hay.includes(needle)] *)
Fixpoint includes (needle hay : string) : bool :=
  String.prefix needle hay ||
  match hay with
  | EmptyString => false
  | String _ r => includes needle r
  end.

(** [s.startsWith] / [s.endsWith] on a character class *)
Definition startsWithClass (p : ascii -> bool) (s : string) : bool :=
  match s with
  | EmptyString => false
  | String c _ => p c
  end.

Fixpoint endsWithClass (p : ascii -> bool) (s : string) : bool :=
  match s with
  | EmptyString => false
  | String c EmptyString => p c
  | String _ r => endsWithClass p r
  end.

(** Template interpolation of a value that may be [undefined]. *)
Definition show (o : option string) : string :=
  match o with
  | Some s => s
  | None => "undefined"
  end.

(** [o === s] for a value that may be [undefined]. *)
Definition strictEq (o : option string) (s : string) : bool :=
  match o with
  | Some t => (t =? s)%string
  | None => false
  end.

(** Template interpolation of an integer (one a double holds exactly:
    the source's numbers are doubles). *)
Definition showZ (z : Z) : string := NilZero.string_of_int (Z.to_int z).

(** Template interpolation of a boolean. *)
Definition showBool (b : bool) : string := if b then "true" else "false".

(** [word.charAt(0).toUpperCase() + word.slice(1)] *)
Definition capitalize (word : string) : string :=
  toUpperCase (charAt0 word) ++ slice1 word.

(** [.split(/[-_]/).map(word => word.charAt(0).toUpperCase() + word.slice(1)).join('')],
    the idiom the three generators share. *)
Definition pascalCase (name : string) : string :=
  join "" (map capitalize (split isDashOrUnderscore name)).

(** [{ ...defaults, ...given }] on one optional field. *)
Definition orElse {A : Type} (given defaults : option A) : option A :=
  match given with
  | Some v => Some v
  | None => defaults
  end.

(** Truthiness of an optional boolean. *)
Definition truthy (o : option bool) : bool :=
  match o with
  | Some b => b
  | None => false
  end.

End JS.

(* ================================================================== *)
(** ** JavaScript values *)

Module Values.

(** A number, as far as [typeof] and [Number.isInteger] tell: an integer,
    or anything else (a fraction, NaN, an infinity). *)
Inductive JsNumber : Type :=
| Integral (z : Z)
| NonIntegral.

(** An [unknown] value.  An object is its own properties in insertion
    order. *)
#[warnings="-register-all"]
Inductive JsValue : Type :=
| VUndefined
| VNull
| VBoolean (b : bool)
| VNumber (n : JsNumber)
| VString (s : string)
| VArray (items : list JsValue)
| VObject (fields : list (string * JsValue))
| VFunction.

(** The names every object inherits from [Object.prototype]. *)
Definition objectPrototypeKeys : list string :=
  [ "constructor"; "toString"; "toLocaleString"; "valueOf"; "hasOwnProperty";
    "isPrototypeOf"; "propertyIsEnumerable"; "__proto__";
    "__defineGetter__"; "__defineSetter__"; "__lookupGetter__"; "__lookupSetter__" ].

End Values.

(* ================================================================== *)
(** ** type-converters.ts *)

Module TypeConverter.
Import JS.

(** [PRIMITIVE_TYPE_MAP] *)
Definition PRIMITIVE_TYPE_MAP : list (string * string) :=
  [ ("string", "string");
    ("integer", "number");
    ("float", "number");
    ("boolean", "boolean");
    ("datetime", "string") ].

(** [PRIMITIVE_TYPE_MAP[name]]; [None] is [undefined], which is also what
    [hasOwnProperty] tests. *)
Fixpoint lookup (name : string) (table : list (string * string)) : option string :=
  match table with
  | [] => None
  | (k, v) :: r => if (k =? name)%string then Some v else lookup name r
  end.

Definition hasOwnProperty (table : list (string * string)) (name : string) : bool :=
  match lookup name table with
  | Some _ => true
  | None => false
  end.

(** [AppwriteAttribute], with the fields [RelationshipAttribute] adds.
    The attribute is cast to [RelationshipAttribute] without a check, so
    the added fields may be missing ([None], or [false] for [twoWay]). *)
Record AppwriteAttribute : Type := {
  key : string;
  type : string;
  required : bool;
  array : bool;
  size : option Z;
  elements : option (list string);
  format : option string;
  relatedCollection : option string;
  relationType : option string;
  twoWay : bool;
  twoWayKey : option string;
  side : option string;
  onDelete : option string
}.

(** The optional [context] argument of [convertToTSType]. *)
Record Context : Type := {
  collectionName : option string;
  attributeName : option string
}.

(** [attribute.format === 'enum' && attribute.elements?.length] *)
Definition isEnumWithElements (attribute : AppwriteAttribute) : bool :=
  strictEq (format attribute) "enum" &&
  match elements attribute with
  | Some (_ :: _) => true
  | _ => false
  end.

(** The key and type checks, for an attribute that is an object.  The
    first check of the source, for what is no object, is in
    [validateAttributeInput] below. *)
Definition validateAttribute (attribute : AppwriteAttribute) : Completion unit :=
  if (key attribute =? "")%string then
    Throw (JsError "Attribute must have a valid string key")
  else if (type attribute =? "")%string then
    Throw (JsError "Attribute must have a valid string type")
  else Return tt.

(** [elements.map(e => `"${e}"`).join(' | ')] *)
Definition literalUnion (values : list string) : string :=
  join " | " (map (fun e => dq ++ e ++ dq) values).

Definition handleEnumType (attribute : AppwriteAttribute) : string :=
  let enumValues :=
    literalUnion (match elements attribute with Some l => l | None => [] end) in
  if array attribute then "(" ++ enumValues ++ ")[]" else enumValues.

Definition handleArrayType (attribute : AppwriteAttribute) (baseType : string) : string :=
  match elements attribute with
  | Some (e :: es) => "(" ++ literalUnion (e :: es) ++ ")[]"
  | _ => "Array<" ++ baseType ++ ">"
  end.

Definition unsupportedTypeMessage (attribute : AppwriteAttribute) (context : option Context) : string :=
  let errorContext :=
    match context with
    | Some ctx =>
        "in " ++ match collectionName ctx with Some n => n | None => "unknown" end
        ++ " collection, attribute "
        ++ match attributeName ctx with Some n => n | None => "unknown" end
    | None => ""
    end in
  "Unsupported attribute type: " ++ type attribute ++ " " ++ errorContext.

Definition handleUnsupportedType {A : Type} (attribute : AppwriteAttribute)
  (context : option Context) : Completion A :=
  Throw (JsError (unsupportedTypeMessage attribute context)).

(** The related interface name as [convertToTSType] computes it: split,
    capitalise, join, and only then [.replace(/s$/, '')]. *)
Definition relatedTypeName (relatedCollection : string) : string :=
  stripTrailingS (pascalCase relatedCollection).

(** The message of the TypeError for [undefined.split]; its text is the
    engine's. *)
Definition undefinedSplitMessage : string :=
  "Cannot read properties of undefined (reading 'split')".

Definition convertToTSType (attribute : AppwriteAttribute) (context : option Context)
  : Completion string :=
  validateAttribute attribute ;;;
  if isEnumWithElements attribute then Return (handleEnumType attribute)
  else if (type attribute =? "relationship")%string then
    match relatedCollection attribute with
    | None => Throw (JsError undefinedSplitMessage)
    | Some related =>
        let name := relatedTypeName related in
        if strictEq (relationType attribute) "oneToMany" then
          Return (if strictEq (side attribute) "parent"
                  then name ++ "[]" else name ++ " | null")
        else if strictEq (relationType attribute) "manyToOne" then
          Return (if strictEq (side attribute) "parent"
                  then name ++ " | null" else name ++ "[]")
        else if strictEq (relationType attribute) "oneToOne"
                || strictEq (relationType attribute) "manyToMany" then
          Return (name ++ "[]")
        else Return "string | RelationshipReference"
    end
  else
    match lookup (type attribute) PRIMITIVE_TYPE_MAP with
    | None => handleUnsupportedType attribute context
    | Some baseType =>
        if array attribute then Return (handleArrayType attribute baseType)
        else Return baseType
    end.

(** *** Inputs that are no attribute objects *)

(** What a schema can hold where an attribute is expected: an object, or
    something that is no object ([null], [undefined], a string, a number,
    a boolean, a function).  An object without a string [key] (an array,
    say) is the attribute with the empty key. *)
Inductive AttributeInput : Type :=
| NotAnObject
| AttributeObject (attribute : AppwriteAttribute).

(** [validateAttribute] with its first check,
    [!attribute || typeof attribute !== 'object']. *)
Definition validateAttributeInput (input : AttributeInput) : Completion unit :=
  match input with
  | NotAnObject => Throw (JsError "Invalid attribute: Must be a non-null object")
  | AttributeObject attribute => validateAttribute attribute
  end.

(** [convertToTSType] on any input: the validation comes first, and what
    is no object does not pass it. *)
Definition convertInputToTSType (input : AttributeInput) (context : option Context)
  : Completion string :=
  validateAttributeInput input ;;;
  match input with
  | NotAnObject => Throw (JsError "Invalid attribute: Must be a non-null object")
  | AttributeObject attribute => convertToTSType attribute context
  end.

(** *** Type guards *)

(** [typeof value === 'string'] and the like. *)
Definition isString (value : Values.JsValue) : bool :=
  match value with Values.VString _ => true | _ => false end.
Definition isNumber (value : Values.JsValue) : bool :=
  match value with Values.VNumber _ => true | _ => false end.
(** [typeof value === 'number' && Number.isInteger(value)] *)
Definition isIntegerNumber (value : Values.JsValue) : bool :=
  match value with Values.VNumber (Values.Integral _) => true | _ => false end.
Definition isBoolean (value : Values.JsValue) : bool :=
  match value with Values.VBoolean _ => true | _ => false end.

(** [primitiveTypeChecks] of [getPrimitiveTypeGuard] *)
Definition primitiveTypeChecks : list (string * (Values.JsValue -> bool)) :=
  [ ("string", isString);
    ("integer", isIntegerNumber);
    ("float", isNumber);
    ("boolean", isBoolean);
    ("datetime", isString) ].

Fixpoint lookupCheck (name : string) (table : list (string * (Values.JsValue -> bool)))
  : option (Values.JsValue -> bool) :=
  match table with
  | [] => None
  | (k, check) :: r => if (k =? name)%string then Some check else lookupCheck name r
  end.

(** [Array.isArray(value) && value.every(check)] *)
Definition every (check : Values.JsValue -> bool) (value : Values.JsValue) : bool :=
  match value with
  | Values.VArray items => forallb check items
  | _ => false
  end.

(** [new Set(elements).has(value)] *)
Definition setHas (validValues : list string) (value : Values.JsValue) : bool :=
  match value with
  | Values.VString s => existsb (String.eqb s) validValues
  | _ => false
  end.

(** [primitiveTypeChecks[attribute.type] ?? (() => true)], then the array
    wrapper.  The object lookup also finds what [Object.prototype]
    provides; for a type of such a name the guard is no predicate written
    in this file, and the model gives [None]. *)
Definition getPrimitiveTypeGuard (attribute : AppwriteAttribute)
  : option (Values.JsValue -> bool) :=
  let wrap := fun typeCheck : Values.JsValue -> bool =>
                if array attribute then every typeCheck else typeCheck in
  match lookupCheck (type attribute) primitiveTypeChecks with
  | Some typeCheck => Some (wrap typeCheck)
  | None =>
      if existsb (String.eqb (type attribute)) Values.objectPrototypeKeys then None
      else Some (wrap (fun _ => true))
  end.

(** The enum branch asks only that [elements] is present; an empty list
    is present. *)
Definition createTypeGuard (attribute : AppwriteAttribute)
  : option (Values.JsValue -> bool) :=
  match elements attribute with
  | Some validValues =>
      if strictEq (format attribute) "enum" then
        Some (if array attribute then every (setHas validValues) else setHas validValues)
      else getPrimitiveTypeGuard attribute
  | None => getPrimitiveTypeGuard attribute
  end.

End TypeConverter.

(* ================================================================== *)
(** ** The input schema *)

Module Schema.

(** [{ $id: string; name: string }] *)
Record Entity : Type := {
  id : string;
  name : string
}.

(** A collection of the input; a missing [attributes] is the empty list
    (both are skipped alike). *)
Record Collection : Type := {
  entity :> Entity;
  attributes : list TypeConverter.AppwriteAttribute
}.

(** A parsed schema object.  For [databases], [None] is an entry that is
    missing or falsy; a [databases] entry that is truthy and no array
    (on which [generateIDConstants] throws at [.map]) is not held by
    this type.  For [collections], [None] is an entry that is missing or
    falsy, and in a run of [generate] also one that is no array:
    [extractProcessableCollections] rejects these alike before anything
    else reads the entry.  Where [generateIDConstants] is called on its
    own, a [collections] entry that is truthy and no array is not held
    either. *)
Record InputConfig : Type := {
  databases : option (list Entity);
  collections : option (list Collection)
}.

(** What [JSON.parse] can return. *)
Inductive Parsed : Type :=
| ParsedNull
| ParsedPrimitive
| ParsedObject (o : InputConfig).

End Schema.

(* ================================================================== *)
(** ** enum-generator.ts *)

Module EnumGenerator.
Import JS.
Import Schema.

Inductive NamingStrategy : Type := pascal | camel | snake.

(** [None] is an absent key.  A key that is present with the value
    [undefined] is not held by this type; [EnumGenerationInput] below
    holds it. *)
Record EnumGenerationConfig : Type := {
  generateEnums : option bool;
  generateUnionTypes : option bool;
  namingStrategy : option NamingStrategy
}.

Definition DEFAULT_CONFIG : EnumGenerationConfig :=
  {| generateEnums := Some true;
     generateUnionTypes := Some true;
     namingStrategy := Some pascal |}.

(** [{ ...defaults, ...config }] *)
Definition merge (defaults config : EnumGenerationConfig) : EnumGenerationConfig :=
  {| generateEnums := orElse (generateEnums config) (generateEnums defaults);
     generateUnionTypes := orElse (generateUnionTypes config) (generateUnionTypes defaults);
     namingStrategy := orElse (namingStrategy config) (namingStrategy defaults) |}.

(** A [Map<string, V>]: the entries in insertion order. *)
Definition JsMap (V : Type) : Type := list (string * V).

(** [map.set(k, v)]: a present key keeps its place and takes the new
    value, a new key goes to the end. *)
Fixpoint mapSet {V : Type} (k : string) (v : V) (m : JsMap V) : JsMap V :=
  match m with
  | [] => [(k, v)]
  | (k', v') :: r =>
      if (k' =? k)%string then (k', v) :: r else (k', v') :: mapSet k v r
  end.

(** [map.get(k)] *)
Fixpoint mapGet {V : Type} (k : string) (m : JsMap V) : option V :=
  match m with
  | [] => None
  | (k', v') :: r => if (k' =? k)%string then Some v' else mapGet k r
  end.

Definition generateTypeName (collectionName attributeName : string) : string :=
  let formattedCollection := pascalCase (stripTrailingS collectionName) in
  let formattedAttribute := pascalCase attributeName in
  formattedCollection ++ formattedAttribute.

(** One step of the inner [forEach] of [extractEnumTypes]. *)
Definition extractFromAttribute (collection : Collection)
  (enumTypes : JsMap (list string)) (attr : TypeConverter.AppwriteAttribute)
  : JsMap (list string) :=
  match TypeConverter.elements attr with
  | Some (e :: es) =>
      if strictEq (TypeConverter.format attr) "enum" then
        mapSet (generateTypeName (name collection) (TypeConverter.key attr)) (e :: es) enumTypes
      else enumTypes
  | _ => enumTypes
  end.

Definition extractEnumTypes (collections : list Collection) : JsMap (list string) :=
  fold_left
    (fun enumTypes collection =>
       fold_left (extractFromAttribute collection) (attributes collection) enumTypes)
    collections [].

Definition formatEnumKey (value : string) (strategy : NamingStrategy) : string :=
  let sanitizedKey := toUpperCase (replaceOutside isAlnum value) in
  match strategy with
  | pascal => sanitizedKey
  | camel => toLowerCase (charAt0 sanitizedKey) ++ slice1 sanitizedKey
  | snake => toLowerCase sanitizedKey
  end.

Definition generateEnum (typeName : string) (elements : list string)
  (namingStrategy : option NamingStrategy) : string :=
  let strategy := match namingStrategy with Some s => s | None => pascal end in
  let enumValues :=
    join ("," ++ nl)
      (map (fun element =>
              "  /** Represents the " ++ element ++ " option */
  " ++ formatEnumKey element strategy ++ " = " ++ dq ++ element ++ dq)
           elements) in
  "
/**
 * Enum representing " ++ typeName ++ "
 * Provides type-safe representation of possible values
 */
export enum " ++ typeName ++ " {
" ++ enumValues ++ "
}
".

Definition generateUnionType (typeName : string) (elements : list string) : string :=
  let unionType := TypeConverter.literalUnion elements in
  "
/**
 * Union type representing " ++ typeName ++ "
 * Provides flexible type definition for possible values
 */
export type " ++ typeName ++ "Type = " ++ unionType ++ ";
".

Record Definitions : Type := {
  enumDefinitions : string;
  typeDefinitions : string
}.

Definition generateEnumDefinitions (collections : list Collection)
  (config : EnumGenerationConfig) : Definitions :=
  let fullConfig := merge DEFAULT_CONFIG config in
  let enumTypes := extractEnumTypes collections in
  fold_left
    (fun generated entry =>
       let '(typeName, elements) := entry in
       {| enumDefinitions :=
            if truthy (generateEnums fullConfig)
            then enumDefinitions generated
                 ++ generateEnum typeName elements (namingStrategy fullConfig)
            else enumDefinitions generated;
          typeDefinitions :=
            if truthy (generateUnionTypes fullConfig)
            then typeDefinitions generated ++ generateUnionType typeName elements
            else typeDefinitions generated |})
    enumTypes
    {| enumDefinitions := ""; typeDefinitions := "" |}.

(** *** Keys set to [undefined]

    One key of a configuration object as the caller passed it. *)
Inductive Setting (A : Type) : Type :=
| Absent
| Undefined
| Value (value : A).

Arguments Absent {A}.
Arguments Undefined {A}.
Arguments Value {A} value.

Record EnumGenerationInput : Type := {
  generateEnumsKey : Setting bool;
  generateUnionTypesKey : Setting bool;
  namingStrategyKey : Setting NamingStrategy
}.

(** One key of [{ ...defaults, ...config }], as it reads afterwards
    ([None] reads [undefined]): a key that is present overrides the
    default, also when its value is [undefined]. *)
Definition spreadKey {A : Type} (default : option A) (given : Setting A) : option A :=
  match given with
  | Absent => default
  | Undefined => None
  | Value v => Some v
  end.

Definition mergeInput (defaults : EnumGenerationConfig) (config : EnumGenerationInput)
  : EnumGenerationConfig :=
  {| generateEnums := spreadKey (generateEnums defaults) (generateEnumsKey config);
     generateUnionTypes :=
       spreadKey (generateUnionTypes defaults) (generateUnionTypesKey config);
     namingStrategy := spreadKey (namingStrategy defaults) (namingStrategyKey config) |}.

(** [generateEnumDefinitions] on such a configuration object. *)
Definition generateEnumDefinitionsOf (collections : list Collection)
  (config : EnumGenerationInput) : Definitions :=
  let fullConfig := mergeInput DEFAULT_CONFIG config in
  let enumTypes := extractEnumTypes collections in
  fold_left
    (fun generated entry =>
       let '(typeName, elements) := entry in
       {| enumDefinitions :=
            if truthy (generateEnums fullConfig)
            then enumDefinitions generated
                 ++ generateEnum typeName elements (namingStrategy fullConfig)
            else enumDefinitions generated;
          typeDefinitions :=
            if truthy (generateUnionTypes fullConfig)
            then typeDefinitions generated ++ generateUnionType typeName elements
            else typeDefinitions generated |})
    enumTypes
    {| enumDefinitions := ""; typeDefinitions := "" |}.

(** The configuration object that has the keys of a held configuration. *)
Definition settingOf {A : Type} (o : option A) : Setting A :=
  match o with
  | Some v => Value v
  | None => Absent
  end.

Definition inputOf (config : EnumGenerationConfig) : EnumGenerationInput :=
  {| generateEnumsKey := settingOf (generateEnums config);
     generateUnionTypesKey := settingOf (generateUnionTypes config);
     namingStrategyKey := settingOf (namingStrategy config) |}.

End EnumGenerator.

(* ================================================================== *)
(** ** interface-generator.ts *)

Module InterfaceGenerator.
Import JS.
Import Schema.
Import TypeConverter.

(** [None] is an absent key.  A key that is present with the value
    [undefined] is not held by this type. *)
Record InterfaceGenerationConfig : Type := {
  includeMetadata : option bool;
  optionalMetadata : option bool;
  interfacePrefix : option string;
  interfaceSuffix : option string
}.

Definition DEFAULT_CONFIG : InterfaceGenerationConfig :=
  {| includeMetadata := Some true;
     optionalMetadata := Some true;
     interfacePrefix := Some "";
     interfaceSuffix := Some "" |}.

(** [{ ...defaults, ...config }] *)
Definition merge (defaults config : InterfaceGenerationConfig) : InterfaceGenerationConfig :=
  {| includeMetadata := orElse (includeMetadata config) (includeMetadata defaults);
     optionalMetadata := orElse (optionalMetadata config) (optionalMetadata defaults);
     interfacePrefix := orElse (interfacePrefix config) (interfacePrefix defaults);
     interfaceSuffix := orElse (interfaceSuffix config) (interfaceSuffix defaults) |}.

Definition generateInterfaceName (collectionName : string)
  (prefix suffix : option string) : string :=
  let formattedName := pascalCase (stripTrailingS collectionName) in
  match prefix with Some p => p | None => "" end
  ++ formattedName
  ++ match suffix with Some s => s | None => "" end.

Definition generateAttributeComments (attribute : AppwriteAttribute) : string :=
  let sizeComment :=
    match size attribute with
    | Some n => if (n =? 0)%Z then []
                else ["/** Maximum size: " ++ showZ n ++ " characters */"]
    | None => []
    end in
  let enumComment :=
    match elements attribute with
    | Some values =>
        if strictEq (format attribute) "enum"
        then ["/** Possible values: " ++ join ", " values ++ " */"]
        else []
    | None => []
    end in
  let relationComments :=
    if (type attribute =? "relationship")%string then
      List.concat
        [ ["/** Relationship type: " ++ show (relationType attribute) ++ " */";
           "/** Related collection: " ++ show (relatedCollection attribute) ++ " */"];
          (if twoWay attribute
           then ["/** Two-way relationship with key: " ++ show (twoWayKey attribute) ++ " */"]
           else []);
          ["/** Deletion behavior: " ++ show (onDelete attribute) ++ " */"] ]
    else [] in
  let comments := List.concat [sizeComment; enumComment; relationComments] in
  join "" (map (fun comment => "  " ++ comment ++ nl) comments).

Definition generateAttributeDefinition (attribute : AppwriteAttribute) : Completion string :=
  let optional := if negb (required attribute) then "?" else "" in
  typeName <- convertToTSType attribute
                (Some {| collectionName := None; attributeName := Some (key attribute) |}) ;;
  let comments := generateAttributeComments attribute in
  Return (comments ++ "  " ++ key attribute ++ optional ++ ": " ++ typeName ++ ";").

Definition nonEmpty (s : string) : bool :=
  match s with
  | EmptyString => false
  | String _ _ => true
  end.

Definition generateAttributeDefinitions (attributes : list AppwriteAttribute)
  : Completion string :=
  definitions <- mapM generateAttributeDefinition attributes ;;
  Return (join nl (filter nonEmpty definitions)).

Definition addMetadataFields (attributes : string) (optional : bool) : string :=
  let optionalMarker := if optional then "?" else "" in
  let metadataFields := "
  /** Unique document identifier */
  $id" ++ optionalMarker ++ ": string;

  /** Document creation timestamp */
  $createdAt" ++ optionalMarker ++ ": string;

  /** Document last update timestamp */
  $updatedAt" ++ optionalMarker ++ ": string;

  /** Database identifier */
  $databaseId" ++ optionalMarker ++ ": string;

  /** Collection identifier */
  $collectionId" ++ optionalMarker ++ ": string;

  /** Document-level permissions */
  $permissions" ++ optionalMarker ++ ": string[];
" in
  metadataFields ++ (if nonEmpty attributes then nl ++ attributes else "").

Definition generateCollectionInterface (collection : Collection)
  (config : InterfaceGenerationConfig) : Completion string :=
  let interfaceName :=
    generateInterfaceName (name collection)
      (interfacePrefix config) (interfaceSuffix config) in
  attributeText <- generateAttributeDefinitions (attributes collection) ;;
  let interfaceContent :=
    if truthy (includeMetadata config)
    then addMetadataFields attributeText (truthy (optionalMetadata config))
    else attributeText in
  Return ("
/**
 * Represents a " ++ name collection ++ " document in the Appwrite database
 * @interface
 */
export interface " ++ interfaceName ++ " {
" ++ interfaceContent ++ "
}
").

Definition generateInterfaces (collections : list Collection)
  (config : InterfaceGenerationConfig) : Completion string :=
  let fullConfig := merge DEFAULT_CONFIG config in
  interfaces <- mapM (fun collection => generateCollectionInterface collection fullConfig)
                  collections ;;
  Return (join nl interfaces).

End InterfaceGenerator.

(* ================================================================== *)
(** ** id-constants-generator.ts *)

Module IDConstantsGenerator.
Import JS.
Import Schema.

(** An absent key is [None].  The two [generate...] flags are read with
    [??], which tells [null]/[undefined] from [false]: a key that is
    present with a nullish value is [Some None].  Of the other keys, one
    that is present with the value [undefined] is not held by this type,
    and a naming transform is a function that returns a string.  (The
    flags carry the suffix [Flag] here because the class has methods of
    the same names.) *)
Record IDConstantsGenerationConfig : Type := {
  generateDatabaseConstantsFlag : option (option bool);
  generateCollectionConstantsFlag : option (option bool);
  constantPrefix : option string;
  constantSuffix : option string;
  namingTransform : option (string -> string);
  includeComments : option bool
}.

Definition defaultNamingTransform (name : string) : string :=
  removeOutside isWord (replaceSpaceRuns (trim name)).

Definition DEFAULT_CONFIG : IDConstantsGenerationConfig :=
  {| generateDatabaseConstantsFlag := Some (Some true);
     generateCollectionConstantsFlag := Some (Some true);
     constantPrefix := Some "";
     constantSuffix := Some "";
     namingTransform := Some defaultNamingTransform;
     includeComments := Some true |}.

(** The configuration with no key set, [{}]. *)
Definition emptyConfig : IDConstantsGenerationConfig :=
  {| generateDatabaseConstantsFlag := None;
     generateCollectionConstantsFlag := None;
     constantPrefix := None;
     constantSuffix := None;
     namingTransform := None;
     includeComments := None |}.

(** [{ ...defaults, ...config }] *)
Definition merge (defaults config : IDConstantsGenerationConfig) : IDConstantsGenerationConfig :=
  {| generateDatabaseConstantsFlag :=
       orElse (generateDatabaseConstantsFlag config) (generateDatabaseConstantsFlag defaults);
     generateCollectionConstantsFlag :=
       orElse (generateCollectionConstantsFlag config) (generateCollectionConstantsFlag defaults);
     constantPrefix := orElse (constantPrefix config) (constantPrefix defaults);
     constantSuffix := orElse (constantSuffix config) (constantSuffix defaults);
     namingTransform := orElse (namingTransform config) (namingTransform defaults);
     includeComments := orElse (includeComments config) (includeComments defaults) |}.

Definition validateInputConfig (inputConfig : Parsed) : Completion InputConfig :=
  match inputConfig with
  | ParsedObject o => Return o
  | _ => Throw (JsError "Invalid input configuration: Must be a non-null object")
  end.

Definition formatConstantName (name prefix suffix : string)
  (transform : string -> string) : string :=
  let transformedName := transform name in
  let sanitizedName := guardLeadingDigit (replaceOutside isWord transformedName) in
  prefix ++ toUpperCase sanitizedName ++ suffix.

(** The naming transform of a merged configuration. *)
Definition transformOf (config : IDConstantsGenerationConfig) : string -> string :=
  match namingTransform config with
  | Some f => f
  | None => defaultNamingTransform
  end.

(** The body of the [map] callback of [generateDatabaseConstants] and
    [generateCollectionConstants]; [kind] is "Database" or "Collection". *)
Definition constantEntry (kind : string) (config : IDConstantsGenerationConfig)
  (e : Entity) : string :=
  let constantName :=
    formatConstantName (name e) (show (constantPrefix config))
      (show (constantSuffix config)) (transformOf config) in
  let comment :=
    if truthy (includeComments config)
    then "  /** " ++ kind ++ " ID for " ++ name e ++ " */" ++ nl
    else "" in
  comment ++ "  " ++ constantName ++ ": '" ++ id e ++ "',".

Definition generateDatabaseConstants (databases : list Entity)
  (config : IDConstantsGenerationConfig) : string :=
  join nl (map (constantEntry "Database" config) databases).

Definition generateCollectionConstants (collections : list Entity)
  (config : IDConstantsGenerationConfig) : string :=
  join nl (map (constantEntry "Collection" config) collections).

(** [flag ?? table]: the table is used only when the flag is nullish;
    otherwise the template prints the flag itself. *)
Definition nullishCoalesce (flag : option (option bool)) (table : string) : string :=
  match flag with
  | Some (Some b) => showBool b
  | _ => table
  end.

Definition generateIDConstants (inputConfig : Parsed)
  (config : IDConstantsGenerationConfig) : Completion string :=
  let fullConfig := merge DEFAULT_CONFIG config in
  o <- validateInputConfig inputConfig ;;
  let databaseConstants :=
    generateDatabaseConstants
      (match databases o with Some l => l | None => [] end) fullConfig in
  let collectionConstants :=
    generateCollectionConstants
      (map entity (match collections o with Some l => l | None => [] end)) fullConfig in
  Return ("
      " ++ nullishCoalesce (generateDatabaseConstantsFlag fullConfig)
             ("/** Database identifiers for the project */
      export const DATABASE_IDS = {
      " ++ databaseConstants ++ "
      };") ++ "

      " ++ nullishCoalesce (generateCollectionConstantsFlag fullConfig)
             ("/** Collection identifiers for the project */
      export const COLLECTION_IDS = {
      " ++ collectionConstants ++ "
      };") ++ "
    ").

End IDConstantsGenerator.

(* ================================================================== *)
(** ** generator/index.ts *)

Module TypesGenerator.
Import JS.
Import Schema.

(** The second argument of a transformer. *)
Record TransformContext : Type := {
  contextInputConfig : Parsed;
  contextCollections : list Collection
}.

Definition TypeTransformer : Type := string -> TransformContext -> Completion string.

Record TypeGeneratorConfig : Type := {
  inputPath : option string;
  outputPath : option string;
  enumConfig : option EnumGenerator.EnumGenerationConfig;
  interfaceConfig : option InterfaceGenerator.InterfaceGenerationConfig;
  transformers : option (list TypeTransformer);
  idConstantsConfig : option IDConstantsGenerator.IDConstantsGenerationConfig
}.

(** What a run takes from outside: the clock, and reading and parsing the
    file at a path ([FileSystemUtils.readFile] then [JSON.parse]). *)
Record Environment : Type := {
  now : string;
  load : string -> Completion Parsed
}.

Definition DEFAULT_ENUM_CONFIG : EnumGenerator.EnumGenerationConfig :=
  {| EnumGenerator.generateEnums := Some true;
     EnumGenerator.generateUnionTypes := Some true;
     EnumGenerator.namingStrategy := Some EnumGenerator.pascal |}.

Definition DEFAULT_INTERFACE_CONFIG : InterfaceGenerator.InterfaceGenerationConfig :=
  {| InterfaceGenerator.includeMetadata := Some true;
     InterfaceGenerator.optionalMetadata := Some true;
     InterfaceGenerator.interfacePrefix := Some "";
     InterfaceGenerator.interfaceSuffix := Some "" |}.

(** The literal the constructor spreads [config.idConstantsConfig] over. *)
Definition DEFAULT_ID_CONSTANTS_CONFIG : IDConstantsGenerator.IDConstantsGenerationConfig :=
  {| IDConstantsGenerator.generateDatabaseConstantsFlag := None;
     IDConstantsGenerator.generateCollectionConstantsFlag := None;
     IDConstantsGenerator.constantPrefix := Some "";
     IDConstantsGenerator.constantSuffix := Some "";
     IDConstantsGenerator.namingTransform := None;
     IDConstantsGenerator.includeComments := Some true |}.

(** [new TypesGenerator(config)]: the merged [this.config]. *)
Definition constructor (config : TypeGeneratorConfig) : TypeGeneratorConfig :=
  {| inputPath := inputPath config;
     outputPath := outputPath config;
     enumConfig :=
       Some match enumConfig config with
            | Some c => EnumGenerator.merge DEFAULT_ENUM_CONFIG c
            | None => DEFAULT_ENUM_CONFIG
            end;
     interfaceConfig :=
       Some match interfaceConfig config with
            | Some c => InterfaceGenerator.merge DEFAULT_INTERFACE_CONFIG c
            | None => DEFAULT_INTERFACE_CONFIG
            end;
     transformers :=
       Some match transformers config with Some l => l | None => [] end;
     idConstantsConfig :=
       Some match idConstantsConfig config with
            | Some c => IDConstantsGenerator.merge DEFAULT_ID_CONSTANTS_CONFIG c
            | None => DEFAULT_ID_CONSTANTS_CONFIG
            end |}.

(** [!path]: missing or empty. *)
Definition missing (path : option string) : bool :=
  match path with
  | Some (String _ _) => false
  | _ => true
  end.

Definition validateConfiguration (config : TypeGeneratorConfig) : Completion unit :=
  if missing (inputPath config) then
    Throw (GeneratorError "Input path is required for type generation")
  else if missing (outputPath config) then
    Throw (GeneratorError "Output path is required for type generation")
  else Return tt.

Definition readInputConfiguration (config : TypeGeneratorConfig) (env : Environment)
  : Completion Parsed :=
  match load env (show (inputPath config)) with
  | Return parsed => Return parsed
  | Throw error =>
      Throw (GeneratorError
               ("Failed to read or parse input configuration: " ++ messageOf error))
  end.

(** The message of the TypeError for [null.collections]; its text is the
    engine's. *)
Definition nullCollectionsMessage : string :=
  "Cannot read properties of null (reading 'collections')".

(** The collections with at least one attribute.  The source maps each
    to [{ name, attributes }]; the view is modelled by the collection
    itself, whose [$id] no generator reads through it. *)
Definition extractProcessableCollections (inputConfig : Parsed)
  : Completion (list Collection) :=
  match inputConfig with
  | ParsedNull => Throw (JsError nullCollectionsMessage)
  | ParsedPrimitive => Throw (GeneratorError "No collections found in input configuration")
  | ParsedObject o =>
      match Schema.collections o with
      | None => Throw (GeneratorError "No collections found in input configuration")
      | Some l =>
          Return (filter (fun collection =>
                            match attributes collection with
                            | [] => false
                            | _ :: _ => true
                            end) l)
      end
  end.

Definition header (env : Environment) : string :=
  "// Auto-generated Appwrite Types
// Generated on " ++ now env ++ "
// WARNING: This file is auto-generated. Do not modify manually.

".

Definition generateInitialTypes (config : TypeGeneratorConfig) (env : Environment)
  (collections : list Collection) (inputConfig : Parsed) : Completion string :=
  let generated :=
    EnumGenerator.generateEnumDefinitions collections
      (match enumConfig config with
       | Some c => c
       | None => EnumGenerator.DEFAULT_CONFIG
       end) in
  let generatedTypes :=
    header env
    ++ (EnumGenerator.typeDefinitions generated ++ nl)
    ++ (EnumGenerator.enumDefinitions generated ++ nl) in
  interfaces <- InterfaceGenerator.generateInterfaces collections
                  (match interfaceConfig config with
                   | Some c => c
                   | None => InterfaceGenerator.DEFAULT_CONFIG
                   end) ;;
  constants <- IDConstantsGenerator.generateIDConstants inputConfig
                 (match idConstantsConfig config with
                  | Some c => c
                  | None => IDConstantsGenerator.emptyConfig
                  end) ;;
  Return (generatedTypes ++ interfaces ++ (constants ++ nl)).

(** [transformers.reduce((types, t) => t(types, context), generatedTypes)] *)
Fixpoint reduce (l : list TypeTransformer) (context : TransformContext)
  (types : string) : Completion string :=
  match l with
  | [] => Return types
  | transformer :: r =>
      types' <- transformer types context ;;
      reduce r context types'
  end.

Definition applyCustomTransformations (config : TypeGeneratorConfig)
  (generatedTypes : string) (collections : list Collection) (inputConfig : Parsed)
  : Completion string :=
  reduce (match transformers config with Some l => l | None => [] end)
    {| contextInputConfig := inputConfig; contextCollections := collections |}
    generatedTypes.

Definition formatGeneratedTypes (generatedTypes : string) : string :=
  trim (collapseNewlines generatedTypes) ++ nl.

Definition handleGenerationError (error : Thrown) : Thrown :=
  match error with
  | GeneratorError m => GeneratorError m
  | _ => GeneratorError ("Unexpected error during type generation: " ++ messageOf error)
  end.

(** The [try] block of [generate]. *)
Definition generateBody (config : TypeGeneratorConfig) (env : Environment)
  : Completion string :=
  validateConfiguration config ;;;
  inputConfig <- readInputConfiguration config env ;;
  processableCollections <- extractProcessableCollections inputConfig ;;
  generatedTypes <- generateInitialTypes config env processableCollections inputConfig ;;
  transformed <- applyCustomTransformations config generatedTypes
                   processableCollections inputConfig ;;
  Return (formatGeneratedTypes transformed).

(** [generate()] on the generator constructed from [config]. *)
Definition generate (config : TypeGeneratorConfig) (env : Environment) : Completion string :=
  tryCatch (generateBody (constructor config) env) handleGenerationError.

End TypesGenerator.

(* ================================================================== *)
(** ** utils/errors.ts and utils/file-system.ts *)

Module FileSystemUtils.
Import JS.
Import Values.

(** [new FileSystemError(message)], a [GeneratorError]. *)
Definition FileSystemError (message : string) : Thrown :=
  GeneratorError ("File System Error: " ++ message).

(** [new ConfigurationError(message)], a [GeneratorError]. *)
Definition ConfigurationError (message : string) : Thrown :=
  GeneratorError ("Configuration Error: " ++ message).

(** What the utilities take from [fs/promises] and [path].  [fsStat]
    is [fs.stat] followed by [isDirectory()]. *)
Record FileSystem : Type := {
  pathResolve : string -> string;
  pathDirname : string -> string;
  fsAccess : string -> Completion unit;
  fsReadFile : string -> Completion string;
  fsMkdir : string -> Completion unit;
  fsWriteFile : string -> string -> Completion unit;
  fsStat : string -> Completion bool
}.

(** A call that changes the disk. *)
Inductive FsCall : Type :=
| Mkdir (path : string)
| WriteFile (path content : string).

Definition validateFileExists (fs : FileSystem) (filePath : string) : Completion unit :=
  match fsAccess fs (pathResolve fs filePath) with
  | Return _ => Return tt
  | Throw _ => Throw (FileSystemError ("File not found or not readable: " ++ filePath))
  end.

Definition readFile (fs : FileSystem) (filePath : string) : Completion string :=
  match fsReadFile fs (pathResolve fs filePath) with
  | Return content => Return content
  | Throw _ => Throw (FileSystemError ("Unable to read file: " ++ filePath))
  end.

(** The result, and the disk calls issued in order. *)
Definition writeFile (fs : FileSystem) (filePath content : string)
  : Completion unit * list FsCall :=
  let resolvedPath := pathResolve fs filePath in
  let failure := Throw (FileSystemError ("Unable to write file: " ++ filePath)) in
  match fsMkdir fs (pathDirname fs resolvedPath) with
  | Throw _ => (failure, [Mkdir (pathDirname fs resolvedPath)])
  | Return _ =>
      match fsWriteFile fs resolvedPath content with
      | Throw _ =>
          (failure, [Mkdir (pathDirname fs resolvedPath); WriteFile resolvedPath content])
      | Return _ =>
          (Return tt, [Mkdir (pathDirname fs resolvedPath); WriteFile resolvedPath content])
      end
  end.

Definition ensureDirectory (fs : FileSystem) (dirPath : string)
  : Completion unit * list FsCall :=
  let resolvedPath := pathResolve fs dirPath in
  match fsMkdir fs resolvedPath with
  | Return _ => (Return tt, [Mkdir resolvedPath])
  | Throw _ =>
      (Throw (FileSystemError ("Unable to create directory: " ++ dirPath)),
       [Mkdir resolvedPath])
  end.

Definition isDirectory (fs : FileSystem) (dirPath : string) : bool :=
  match fsStat fs (pathResolve fs dirPath) with
  | Return b => b
  | Throw _ => false
  end.

(** *** deepMerge *)

(** The own properties of an object.  The order in which the list holds
    them plays no part in what is proved of [deepMerge], which is stated
    through [getProperty] and the set of keys. *)
Definition Fields : Type := list (string * JsValue).

(** [object[key]] on own properties. *)
Fixpoint getProperty (key : string) (object : Fields) : option JsValue :=
  match object with
  | [] => None
  | (k, v) :: r => if (k =? key)%string then Some v else getProperty key r
  end.

(** [object[key] = value]: a present key keeps its place. *)
Fixpoint setProperty (key : string) (value : JsValue) (object : Fields) : Fields :=
  match object with
  | [] => [(key, value)]
  | (k, v) :: r =>
      if (k =? key)%string then (k, value) :: r else (k, v) :: setProperty key value r
  end.

Definition isObject (item : JsValue) : bool :=
  match item with
  | VObject _ => true
  | _ => false
  end.

(** [deepMerge(target, source)] for an object [target].  Reading and
    writing the key "__proto__" goes through the accessor of
    [Object.prototype], not through own properties; a source that holds
    this key where the merge visits it is outside the model ([None]). *)
Fixpoint deepMerge (target : Fields) (source : JsValue) {struct source} : option Fields :=
  match source with
  | VObject sourceFields =>
      (fix forEach (entries : list (string * JsValue)) (output : Fields) {struct entries}
         : option Fields :=
         match entries with
         | [] => Some output
         | (key, sourceValue) :: rest =>
             if (key =? "__proto__")%string then None
             else
               match sourceValue, getProperty key target with
               | VObject _, Some (VObject targetFields) =>
                   match deepMerge targetFields sourceValue with
                   | Some merged => forEach rest (setProperty key (VObject merged) output)
                   | None => None
                   end
               | _, _ => forEach rest (setProperty key sourceValue output)
               end
         end) sourceFields target
  | _ => Some target
  end.

(** No key "__proto__" in [value], nor in the objects nested in it as
    property values (arrays are not looked into, and neither does
    [deepMerge]). *)
Fixpoint noProtoKey (value : JsValue) : bool :=
  match value with
  | VObject fields =>
      (fix all (entries : list (string * JsValue)) : bool :=
         match entries with
         | [] => true
         | (key, v) :: rest =>
             negb (key =? "__proto__")%string && noProtoKey v && all rest
         end) fields
  | _ => true
  end.

End FileSystemUtils.

(* ================================================================== *)
(** ** src/index.ts *)

Module Index.
Import JS.
Import Schema.

(** What a call of [generateTypes] takes from outside. *)
Record Runtime : Type := {
  fileSystem : FileSystemUtils.FileSystem;
  jsonParse : string -> Completion Parsed;
  clock : string
}.

(** The environment of a run of the generator: [readInputConfiguration]
    is [FileSystemUtils.readFile] followed by [JSON.parse]. *)
Definition environmentOf (runtime : Runtime) : TypesGenerator.Environment :=
  {| TypesGenerator.now := clock runtime;
     TypesGenerator.load := fun path =>
       configContent <- FileSystemUtils.readFile (fileSystem runtime) path ;;
       jsonParse runtime configContent |}.

(** [{}] *)
Definition emptyConfig : TypesGenerator.TypeGeneratorConfig :=
  {| TypesGenerator.inputPath := None;
     TypesGenerator.outputPath := None;
     TypesGenerator.enumConfig := None;
     TypesGenerator.interfaceConfig := None;
     TypesGenerator.transformers := None;
     TypesGenerator.idConstantsConfig := None |}.

(** The [catch] block of [generateTypes]. *)
Definition wrapError (error : Thrown) : Thrown :=
  match error with
  | GeneratorError m => GeneratorError m
  | _ => GeneratorError ("Type generation failed: " ++ messageOf error)
  end.

(** [generateTypes(config)]: the result, and the disk calls issued. *)
Definition generateTypes (config : option TypesGenerator.TypeGeneratorConfig)
  (runtime : Runtime) : Completion string * list FileSystemUtils.FsCall :=
  let given := match config with Some c => c | None => emptyConfig end in
  match TypesGenerator.generate given (environmentOf runtime) with
  | Throw error => (Throw (wrapError error), [])
  | Return generatedTypes =>
      match config with
      | Some c =>
          if TypesGenerator.missing (TypesGenerator.outputPath c)
          then (Return generatedTypes, [])
          else
            match FileSystemUtils.writeFile (fileSystem runtime)
                    (show (TypesGenerator.outputPath c)) generatedTypes with
            | (Return _, calls) => (Return generatedTypes, calls)
            | (Throw error, calls) => (Throw (wrapError error), calls)
            end
      | None => (Return generatedTypes, [])
      end
  end.

End Index.

(* ================================================================== *)
(** ** Sample inputs *)

Module Samples.
Import JS.
Import Schema.
Import TypeConverter.

(** An attribute with only the four mandatory fields set. *)
Definition attribute (k t : string) (req arr : bool) : AppwriteAttribute :=
  {| key := k; type := t; required := req; array := arr;
     size := None; elements := None; format := None;
     relatedCollection := None; relationType := None; twoWay := false;
     twoWayKey := None; side := None; onDelete := None |}.

(** An enum attribute. *)
Definition enumAttribute (k t : string) (req arr : bool) (values : list string)
  : AppwriteAttribute :=
  {| key := k; type := t; required := req; array := arr;
     size := None; elements := Some values; format := Some "enum";
     relatedCollection := None; relationType := None; twoWay := false;
     twoWayKey := None; side := None; onDelete := None |}.

(** A relationship attribute. *)
Definition relationship (k related : string) (cardinality whichSide : option string)
  : AppwriteAttribute :=
  {| key := k; type := "relationship"; required := false; array := false;
     size := None; elements := None; format := None;
     relatedCollection := Some related; relationType := cardinality; twoWay := false;
     twoWayKey := None; side := whichSide; onDelete := Some "cascade" |}.

(** [{key: "role", type: "string", format: "enum",
      elements: ["admin", "member"], required: true}] *)
Definition role : AppwriteAttribute :=
  enumAttribute "role" "string" true false ["admin"; "member"].

Definition users : Collection :=
  {| entity := {| id := "users"; name := "Users" |}; attributes := [role] |}.

(** [{$id: "db1", name: "Main DB"}] *)
Definition mainDb : Entity := {| id := "db1"; name := "Main DB" |}.

Definition schema : Parsed :=
  ParsedObject {| databases := Some [mainDb]; collections := Some [users] |}.

(** The configuration that sets only the two required paths. *)
Definition defaultConfig : TypesGenerator.TypeGeneratorConfig :=
  {| TypesGenerator.inputPath := Some "appwrite.json";
     TypesGenerator.outputPath := Some "types.ts";
     TypesGenerator.enumConfig := None;
     TypesGenerator.interfaceConfig := None;
     TypesGenerator.transformers := None;
     TypesGenerator.idConstantsConfig := None |}.

(** A run that loads [doc]. *)
Definition environment (doc : Parsed) : TypesGenerator.Environment :=
  {| TypesGenerator.now := "2024-01-01T00:00:00.000Z";
     TypesGenerator.load := fun _ => Return doc |}.

(** A relationship attribute that also carries an enum format. *)
Definition enumRelationship : AppwriteAttribute :=
  {| key := "owner"; type := "relationship"; required := false; array := false;
     size := None; elements := Some ["a"]; format := Some "enum";
     relatedCollection := Some "users"; relationType := Some "oneToMany"; twoWay := false;
     twoWayKey := None; side := Some "parent"; onDelete := Some "cascade" |}.

(** A transformer that throws [new Error("boom")]. *)
Definition failingTransformer : TypesGenerator.TypeTransformer :=
  fun _ _ => Throw (JsError "boom").

Definition configWithFailingTransformer : TypesGenerator.TypeGeneratorConfig :=
  {| TypesGenerator.inputPath := Some "appwrite.json";
     TypesGenerator.outputPath := Some "types.ts";
     TypesGenerator.enumConfig := None;
     TypesGenerator.interfaceConfig := None;
     TypesGenerator.transformers := Some [failingTransformer];
     TypesGenerator.idConstantsConfig := None |}.

(** A second collection whose enum attribute derives the type name of
    [users]'s: "User" + "Role". *)
Definition user : Collection :=
  {| entity := {| id := "user"; name := "User" |};
     attributes := [enumAttribute "role" "string" true false ["guest"]] |}.

(** Two entities whose names derive the constant key [BLOG_POSTS]. *)
Definition blogPosts : Entity := {| id := "c1"; name := "Blog Posts" |}.
Definition blog_posts : Entity := {| id := "c2"; name := "Blog_Posts" |}.

End Samples.

(* ================================================================== *)
(** ** Vocabulary of the properties *)

(** The error [handleUnsupportedType] throws, naming the type [t]. *)
Definition UnsupportedTypeError (t : string) (e : Thrown) : Prop :=
  exists rest, e = JsError ("Unsupported attribute type: " ++ t ++ rest).

(** The five entries of the primitive table. *)
Definition inPrimitiveTable (t : string) : Prop :=
  In t ["string"; "integer"; "float"; "boolean"; "datetime"].

(** The related type name in the order the specification words it: strip
    a trailing "s" from the collection name first, then split on "-" and
    "_", capitalise each segment and concatenate. *)
Definition specRelatedTypeName (relatedCollection : string) : string :=
  JS.join "" (map JS.capitalize (JS.split JS.isDashOrUnderscore (JS.stripTrailingS relatedCollection))).

(** [[A-Z0-9_]] *)
Definition isConstantChar (c : ascii) : bool :=
  JS.isUpper c || JS.isDigit c || (JS.code c =? 95)%nat.

(** No three line feeds follow one another in [s], [run] line feeds
    standing just before it: no two consecutive empty lines. *)
Fixpoint noTripleNewline (run : nat) (s : string) : bool :=
  match s with
  | EmptyString => true
  | String c r =>
      if JS.isNewline c then (run <? 2)%nat && noTripleNewline (S run) r
      else noTripleNewline 0 r
  end.

(** The enum attributes of the collections as (type name, values), in
    the order [extractEnumTypes] visits them. *)
Definition enumEntry (collection : Schema.Collection)
  (attr : TypeConverter.AppwriteAttribute) : list (string * list string) :=
  if TypeConverter.isEnumWithElements attr
  then [(EnumGenerator.generateTypeName (Schema.name (Schema.entity collection))
          (TypeConverter.key attr),
         match TypeConverter.elements attr with Some l => l | None => [] end)]
  else [].

Definition enumEntries (collections : list Schema.Collection)
  : list (string * list string) :=
  flat_map (fun collection => flat_map (enumEntry collection) (Schema.attributes collection))
    collections.

(** The keys of a [Map], in order. *)
Definition keys {V : Type} (m : EnumGenerator.JsMap V) : list string := map fst m.

(** [entries.forEach(([k, v]) => map.set(k, v))] *)
Definition setAll {V : Type} (entries : list (string * V)) (m : EnumGenerator.JsMap V)
  : EnumGenerator.JsMap V :=
  fold_left (fun acc entry => EnumGenerator.mapSet (fst entry) (snd entry) acc) entries m.

(** The run returned a text. *)
Definition returns (c : Completion string) : bool :=
  match c with
  | Return _ => true
  | Throw _ => false
  end.

(** The run returned a text that includes [needle]. *)
Definition outputIncludes (needle : string) (c : Completion string) : bool :=
  match c with
  | Return out => JS.includes needle out
  | Throw _ => false
  end.

(** [hay] has [needle] as a substring. *)
Definition Includes (needle hay : string) : Prop :=
  exists before after, hay = before ++ needle ++ after.

(** The type guard of [a] exists in the model and accepts [v]. *)
Definition accepts (a : TypeConverter.AppwriteAttribute) (v : Values.JsValue) : Prop :=
  exists guard, TypeConverter.createTypeGuard a = Some guard /\ guard v = true.

(** The type guard of [a] exists in the model and rejects [v]. *)
Definition rejects (a : TypeConverter.AppwriteAttribute) (v : Values.JsValue) : Prop :=
  exists guard, TypeConverter.createTypeGuard a = Some guard /\ guard v = false.

(** [v] is a string among [values]. *)
Definition isMember (values : list string) (v : Values.JsValue) : Prop :=
  exists s, v = Values.VString s /\ In s values.

(** [f] applied to the last element of a list. *)
Fixpoint mapLast {A : Type} (f : A -> A) (l : list A) : list A :=
  match l with
  | [] => []
  | [x] => [f x]
  | x :: r => x :: mapLast f r
  end.

(** [[a-z0-9_]] *)
Definition isSnakeChar (c : ascii) : bool :=
  JS.isLower c || JS.isDigit c || (JS.code c =? 95)%nat.

(** The context [generateAttributeDefinition] converts [a] with. *)
Definition definitionContext (a : TypeConverter.AppwriteAttribute)
  : option TypeConverter.Context :=
  Some {| TypeConverter.collectionName := None;
          TypeConverter.attributeName := Some (TypeConverter.key a) |}.

(** Every attribute of every collection converts. *)
Definition allConvert (collections : list Schema.Collection) : Prop :=
  Forall (fun collection =>
            Forall (fun a => exists t,
                      TypeConverter.convertToTSType a (definitionContext a) = Return t)
                   (Schema.attributes collection))
         collections.


(** Neither constant flag of the merged configuration is nullish. *)
Definition flagsAreBooleans (config : IDConstantsGenerator.IDConstantsGenerationConfig)
  : Prop :=
  (exists b, IDConstantsGenerator.generateDatabaseConstantsFlag
               (IDConstantsGenerator.merge IDConstantsGenerator.DEFAULT_CONFIG config)
             = Some (Some b))
  /\ (exists b, IDConstantsGenerator.generateCollectionConstantsFlag
                  (IDConstantsGenerator.merge IDConstantsGenerator.DEFAULT_CONFIG config)
                = Some (Some b)).



(** One turn of the [forEach] of [deepMerge] over the keys of the
    source. *)
Definition mergeEntry (target : FileSystemUtils.Fields) (entry : string * Values.JsValue)
  (output : FileSystemUtils.Fields) : option FileSystemUtils.Fields :=
  let '(key, sourceValue) := entry in
  if (key =? "__proto__")%string then None
  else
    match sourceValue, FileSystemUtils.getProperty key target with
    | Values.VObject _, Some (Values.VObject targetFields) =>
        match FileSystemUtils.deepMerge targetFields sourceValue with
        | Some merged =>
            Some (FileSystemUtils.setProperty key (Values.VObject merged) output)
        | None => None
        end
    | _, _ => Some (FileSystemUtils.setProperty key sourceValue output)
    end.

(** The [forEach] of [deepMerge]. *)
Fixpoint mergeEntries (target : FileSystemUtils.Fields)
  (entries : list (string * Values.JsValue)) (output : FileSystemUtils.Fields)
  : option FileSystemUtils.Fields :=
  match entries with
  | [] => Some output
  | entry :: rest =>
      match mergeEntry target entry output with
      | Some output' => mergeEntries target rest output'
      | None => None
      end
  end.

(** Both values are objects: the case in which [deepMerge] recurses. *)
Definition bothObjects (sourceValue : Values.JsValue) (targetValue : option Values.JsValue)
  : bool :=
  match sourceValue, targetValue with
  | Values.VObject _, Some (Values.VObject _) => true
  | _, _ => false
  end.

(** Every line followed by a line feed, and every line preceded by one. *)
Fixpoint followedByNewline (lines : list string) : string :=
  match lines with
  | [] => ""
  | line :: rest => line ++ JS.nl ++ followedByNewline rest
  end.

Fixpoint precededByNewline (lines : list string) : string :=
  match lines with
  | [] => ""
  | line :: rest => JS.nl ++ line ++ precededByNewline rest
  end.

(** A code unit of the ASCII range. *)
Definition isAscii (c : ascii) : bool := (JS.code c <? 128)%nat.

(* ================================================================== *)
(** ** More sample inputs *)

Module Fixtures.
Import JS.
Import Schema.
Import TypeConverter.

(** An array attribute with an element list but no enum format. *)
Definition tags : AppwriteAttribute :=
  {| key := "tags"; type := "string"; required := false; array := true;
     size := None; elements := Some ["red"; "green"]; format := None;
     relatedCollection := None; relationType := None; twoWay := false;
     twoWayKey := None; side := None; onDelete := None |}.

(** A relationship attribute without [relatedCollection]. *)
Definition dangling : AppwriteAttribute :=
  {| key := "owner"; type := "relationship"; required := false; array := false;
     size := None; elements := None; format := None;
     relatedCollection := None; relationType := Some "sideways"; twoWay := false;
     twoWayKey := None; side := None; onDelete := None |}.

(** An enum attribute whose element list is empty. *)
Definition emptyEnum : AppwriteAttribute :=
  Samples.enumAttribute "state" "string" true false [].

Definition posts : Collection :=
  {| entity := {| id := "posts"; name := "Posts" |};
     attributes := [Samples.attribute "title" "string" true false;
                    Samples.attribute "body" "json" false false] |}.


(** A file system with one readable file and a writable disk. *)
Definition disk (content : string) : FileSystemUtils.FileSystem :=
  {| FileSystemUtils.pathResolve := fun p => "/work/" ++ p;
     FileSystemUtils.pathDirname := fun _ => "/work";
     FileSystemUtils.fsAccess := fun _ => Return tt;
     FileSystemUtils.fsReadFile := fun _ => Return content;
     FileSystemUtils.fsMkdir := fun _ => Return tt;
     FileSystemUtils.fsWriteFile := fun _ _ => Return tt;
     FileSystemUtils.fsStat := fun _ => Return false |}.

(** A file system on which nothing can be read. *)
Definition unreadable : FileSystemUtils.FileSystem :=
  {| FileSystemUtils.pathResolve := fun p => "/work/" ++ p;
     FileSystemUtils.pathDirname := fun _ => "/work";
     FileSystemUtils.fsAccess := fun _ => Throw (JsError "ENOENT");
     FileSystemUtils.fsReadFile := fun _ => Throw (JsError "ENOENT: no such file");
     FileSystemUtils.fsMkdir := fun _ => Return tt;
     FileSystemUtils.fsWriteFile := fun _ _ => Return tt;
     FileSystemUtils.fsStat := fun _ => Throw (JsError "ENOENT") |}.

(** A runtime whose parser returns [doc] for every text. *)
Definition runtime (fs : FileSystemUtils.FileSystem) (doc : Parsed) : Index.Runtime :=
  {| Index.fileSystem := fs;
     Index.jsonParse := fun _ => Return doc;
     Index.clock := "2024-01-01T00:00:00.000Z" |}.

(** The text of the default run on [Samples.schema]. *)
Definition generatedText : string :=
  match TypesGenerator.generate Samples.defaultConfig
          (Index.environmentOf (runtime (disk "{}") Samples.schema)) with
  | Return text => text
  | Throw _ => ""
  end.

(** A transformer that appends a line. *)
Definition footer : TypesGenerator.TypeTransformer :=
  fun types _ => Return (types ++ "// end").

(** [{ theme: { color: "red", size: 1 }, debug: false }] *)
Definition baseOptions : FileSystemUtils.Fields :=
  [ ("theme", Values.VObject [ ("color", Values.VString "red");
                               ("size", Values.VNumber (Values.Integral 1)) ]);
    ("debug", Values.VBoolean false) ].

(** [{ theme: { color: "blue" }, list: [] }] *)
Definition overrides : Values.JsValue :=
  Values.VObject [ ("theme", Values.VObject [ ("color", Values.VString "blue") ]);
                   ("list", Values.VArray []) ].

End Fixtures.

(* ================================================================== *)
(** ** Properties of the type converter *)

Section ConverterProperties.
Import JS.
Import TypeConverter.

Lemma lookup_primitive_some (t : string) :
  inPrimitiveTable t -> exists base, lookup t PRIMITIVE_TYPE_MAP = Some base.
Proof.
  unfold inPrimitiveTable; simpl.
  intros [H | [H | [H | [H | [H | []]]]]]; subst t; eexists; reflexivity.
Qed.

Lemma lookup_primitive_none (t : string) :
  ~ inPrimitiveTable t -> lookup t PRIMITIVE_TYPE_MAP = None.
Proof.
  unfold inPrimitiveTable; intros H; cbn [In] in H.
  unfold PRIMITIVE_TYPE_MAP; cbn [lookup].
  repeat match goal with
  | |- context [(?k =? t)%string] =>
      destruct (String.eqb_spec k t); [exfalso; apply H; tauto | ]
  end.
  reflexivity.
Qed.

Lemma primitive_not_special (t : string) :
  inPrimitiveTable t -> t <> "" /\ t <> "relationship".
Proof.
  unfold inPrimitiveTable; simpl.
  intros [H | [H | [H | [H | [H | []]]]]]; subst t; split; discriminate.
Qed.

Lemma validate_ok (a : AppwriteAttribute) :
  key a <> "" -> type a <> "" -> validateAttribute a = Return tt.
Proof.
  intros Hk Ht. unfold validateAttribute.
  destruct (String.eqb_spec (key a) ""); [contradiction | ].
  destruct (String.eqb_spec (type a) ""); [contradiction | reflexivity].
Qed.

Lemma convert_enum (a : AppwriteAttribute) (ctx : option Context) :
  key a <> "" -> type a <> "" -> isEnumWithElements a = true ->
  convertToTSType a ctx = Return (handleEnumType a).
Proof.
  intros Hk Ht He. unfold convertToTSType.
  rewrite (validate_ok a Hk Ht). cbn [bind]. rewrite He. reflexivity.
Qed.

Lemma convert_relationship (a : AppwriteAttribute) (ctx : option Context) (related : string) :
  key a <> "" -> type a = "relationship" -> isEnumWithElements a = false ->
  relatedCollection a = Some related ->
  convertToTSType a ctx =
    let name := relatedTypeName related in
    if strictEq (relationType a) "oneToMany" then
      Return (if strictEq (side a) "parent" then name ++ "[]" else name ++ " | null")
    else if strictEq (relationType a) "manyToOne" then
      Return (if strictEq (side a) "parent" then name ++ " | null" else name ++ "[]")
    else if strictEq (relationType a) "oneToOne" || strictEq (relationType a) "manyToMany" then
      Return (name ++ "[]")
    else Return "string | RelationshipReference".
Proof.
  intros Hk Ht He Hr. unfold convertToTSType.
  rewrite (validate_ok a Hk) by (rewrite Ht; discriminate).
  cbn [bind]. rewrite He, Ht, Hr. reflexivity.
Qed.

Lemma convert_primitive (a : AppwriteAttribute) (ctx : option Context) :
  key a <> "" -> type a <> "" -> type a <> "relationship" ->
  isEnumWithElements a = false ->
  convertToTSType a ctx =
    match lookup (type a) PRIMITIVE_TYPE_MAP with
    | None => Throw (JsError (unsupportedTypeMessage a ctx))
    | Some baseType =>
        Return (if array a then handleArrayType a baseType else baseType)
    end.
Proof.
  intros Hk Ht Hr He. unfold convertToTSType.
  rewrite (validate_ok a Hk Ht). cbn [bind]. rewrite He.
  destruct (String.eqb_spec (type a) "relationship"); [contradiction | ].
  destruct (lookup (type a) PRIMITIVE_TYPE_MAP); [ | reflexivity].
  destruct (array a); reflexivity.
Qed.

Lemma strictEq_some (s : string) : strictEq (Some s) s = true.
Proof. simpl. apply String.eqb_refl. Qed.

End ConverterProperties.

Section ConverterTheorems.
Import JS.
Import TypeConverter.

(** C3 (as amended).  For an attribute with a non-empty key: if its type is
    one of the five entries of the primitive table, [convertToTSType]
    returns (the enum union when the enum rule applies, else the table's
    type, array-wrapped for an array); if its type is non-empty, is not in
    the table, is not "relationship", and the enum rule does not apply,
    [convertToTSType] throws the unsupported-type error whose message names
    that type. *)
Theorem convert_primitive_table_total_else_unsupported :
  forall (a : AppwriteAttribute) (ctx : option Context),
    key a <> "" ->
    (inPrimitiveTable (type a) ->
       exists base,
         lookup (type a) PRIMITIVE_TYPE_MAP = Some base /\
         convertToTSType a ctx =
           Return (if isEnumWithElements a then handleEnumType a
                   else if array a then handleArrayType a base else base))
    /\
    (~ inPrimitiveTable (type a) ->
       type a <> "" -> type a <> "relationship" -> isEnumWithElements a = false ->
       exists e, convertToTSType a ctx = Throw e /\ UnsupportedTypeError (type a) e).
Proof.
  intros a ctx Hk. split.
  - intros Hin.
    destruct (lookup_primitive_some _ Hin) as [base Hbase].
    destruct (primitive_not_special _ Hin) as [Hne Hnr].
    exists base. split; [exact Hbase | ].
    destruct (isEnumWithElements a) eqn:He.
    + apply convert_enum; assumption.
    + rewrite (convert_primitive a ctx Hk Hne Hnr He), Hbase. reflexivity.
  - intros Hout Hne Hnr He.
    rewrite (convert_primitive a ctx Hk Hne Hnr He), (lookup_primitive_none _ Hout).
    eexists. split; [reflexivity | ].
    unfold UnsupportedTypeError, unsupportedTypeMessage. eexists. reflexivity.
Qed.

Lemma convert_primitive_table_total_else_unsupported_witness :
  (exists base,
     lookup "integer" PRIMITIVE_TYPE_MAP = Some base /\
     convertToTSType (Samples.attribute "age" "integer" true false) None = Return base)
  /\
  (exists e,
     convertToTSType (Samples.attribute "blob" "json" true false) None = Throw e /\
     UnsupportedTypeError "json" e).
Proof.
  split.
  - apply (proj1 (convert_primitive_table_total_else_unsupported
                    (Samples.attribute "age" "integer" true false) None
                    ltac:(discriminate))).
    right. left. reflexivity.
  - apply (proj2 (convert_primitive_table_total_else_unsupported
                    (Samples.attribute "blob" "json" true false) None
                    ltac:(discriminate))).
    + unfold inPrimitiveTable. simpl.
      intros [H | [H | [H | [H | [H | []]]]]]; discriminate H.
    + discriminate.
    + discriminate.
    + reflexivity.
Defined.

(** C3 as stated fails: "relationship" is not in the primitive table, yet
    the conversion of a relationship attribute returns a type. *)
Lemma convert_relationship_not_in_table_returns :
  ~ inPrimitiveTable (type (Samples.relationship "owner" "users" (Some "oneToMany") (Some "parent")))
  /\ convertToTSType (Samples.relationship "owner" "users" (Some "oneToMany") (Some "parent")) None
     = Return "User[]".
Proof.
  split.
  - unfold inPrimitiveTable. simpl.
    intros [H | [H | [H | [H | [H | []]]]]]; discriminate H.
  - reflexivity.
Qed.

(** C4 (as amended).  For a relationship attribute with a non-empty key
    and a related collection, to which the enum rule (format "enum" with a
    non-empty element list, checked first) does not apply, the converted
    type is: the array of the related type for oneToMany+parent,
    manyToOne+child, oneToOne and manyToMany; the nullable related type
    for oneToMany+child and manyToOne+parent; and the generic reference
    fallback, returned without an error, for any other cardinality. *)
Theorem convert_relationship_shapes :
  forall (a : AppwriteAttribute) (ctx : option Context) (related : string),
    key a <> "" ->
    type a = "relationship" ->
    relatedCollection a = Some related ->
    isEnumWithElements a = false ->
    let name := relatedTypeName related in
    (relationType a = Some "oneToMany" -> side a = Some "parent" ->
       convertToTSType a ctx = Return (name ++ "[]")) /\
    (relationType a = Some "oneToMany" -> side a = Some "child" ->
       convertToTSType a ctx = Return (name ++ " | null")) /\
    (relationType a = Some "manyToOne" -> side a = Some "parent" ->
       convertToTSType a ctx = Return (name ++ " | null")) /\
    (relationType a = Some "manyToOne" -> side a = Some "child" ->
       convertToTSType a ctx = Return (name ++ "[]")) /\
    (relationType a = Some "oneToOne" ->
       convertToTSType a ctx = Return (name ++ "[]")) /\
    (relationType a = Some "manyToMany" ->
       convertToTSType a ctx = Return (name ++ "[]")) /\
    (relationType a <> Some "oneToMany" -> relationType a <> Some "manyToOne" ->
     relationType a <> Some "oneToOne" -> relationType a <> Some "manyToMany" ->
       convertToTSType a ctx = Return "string | RelationshipReference").
Proof.
  intros a ctx related Hk Ht Hr He name.
  pose proof (convert_relationship a ctx related Hk Ht He Hr) as Hc.
  cbv zeta in Hc. fold name in Hc.
  repeat split.
  - intros Hc1 Hs. rewrite Hc, Hc1, Hs. reflexivity.
  - intros Hc1 Hs. rewrite Hc, Hc1, Hs. reflexivity.
  - intros Hc1 Hs. rewrite Hc, Hc1, Hs. reflexivity.
  - intros Hc1 Hs. rewrite Hc, Hc1, Hs. reflexivity.
  - intros Hc1. rewrite Hc, Hc1. reflexivity.
  - intros Hc1. rewrite Hc, Hc1. reflexivity.
  - intros H1 H2 H3 H4. rewrite Hc.
    assert (Hn : forall s, relationType a <> Some s -> strictEq (relationType a) s = false).
    { intros s Hs. destruct (relationType a) as [t | ]; [ | reflexivity].
      simpl. destruct (String.eqb_spec t s); [subst; contradiction | reflexivity]. }
    rewrite (Hn _ H1), (Hn _ H2), (Hn _ H3), (Hn _ H4). reflexivity.
Qed.

Lemma convert_relationship_shapes_witness :
  convertToTSType (Samples.relationship "owner" "users" (Some "oneToMany") (Some "parent")) None
    = Return "User[]"
  /\ convertToTSType (Samples.relationship "owner" "users" (Some "manyToOne") (Some "parent")) None
    = Return "User | null"
  /\ convertToTSType (Samples.relationship "owner" "users" (Some "sideways") None) None
    = Return "string | RelationshipReference".
Proof.
  split; [ | split].
  - refine (proj1 (convert_relationship_shapes
                     (Samples.relationship "owner" "users" (Some "oneToMany") (Some "parent"))
                     None "users" _ _ _ _) _ _);
      solve [discriminate | reflexivity].
  - refine (proj1 (proj2 (proj2 (convert_relationship_shapes
                     (Samples.relationship "owner" "users" (Some "manyToOne") (Some "parent"))
                     None "users" _ _ _ _))) _ _);
      solve [discriminate | reflexivity].
  - refine (proj2 (proj2 (proj2 (proj2 (proj2 (proj2 (convert_relationship_shapes
                     (Samples.relationship "owner" "users" (Some "sideways") None)
                     None "users" _ _ _ _)))))) _ _ _ _);
      solve [discriminate | reflexivity].
Defined.

(** C4 as stated fails: a relationship attribute (oneToMany, parent) that
    also carries format "enum" with elements converts to the literal
    union, which is none of the three relationship forms. *)
Lemma convert_enum_relationship_is_union :
  type Samples.enumRelationship = "relationship"
  /\ relationType Samples.enumRelationship = Some "oneToMany"
  /\ side Samples.enumRelationship = Some "parent"
  /\ convertToTSType Samples.enumRelationship None = Return (dq ++ "a" ++ dq)
  /\ convertToTSType Samples.enumRelationship None <> Return "User[]"
  /\ convertToTSType Samples.enumRelationship None <> Return "User | null"
  /\ convertToTSType Samples.enumRelationship None <> Return "string | RelationshipReference".
Proof.
  repeat split; try reflexivity; discriminate.
Qed.

(** C10 (as amended).  For an attribute with format "enum", a non-empty
    element list, a non-empty key and a non-empty type string,
    [convertToTSType] returns the literal union of the elements (wrapped
    as [(...)[]] for an array), whatever the type string is: the enum rule
    is checked before the relationship rule and the primitive table, so
    no unsupported-type error is raised. *)
Theorem convert_enum_before_primitive_lookup :
  forall (a : AppwriteAttribute) (ctx : option Context) (e : string) (es : list string),
    key a <> "" ->
    type a <> "" ->
    format a = Some "enum" ->
    elements a = Some (e :: es) ->
    convertToTSType a ctx =
      Return (if array a then "(" ++ literalUnion (e :: es) ++ ")[]"
              else literalUnion (e :: es)).
Proof.
  intros a ctx e es Hk Ht Hf Hel.
  assert (He : isEnumWithElements a = true).
  { unfold isEnumWithElements. rewrite Hf, Hel. reflexivity. }
  rewrite (convert_enum a ctx Hk Ht He).
  unfold handleEnumType. rewrite Hel. reflexivity.
Qed.

Lemma convert_enum_before_primitive_lookup_witness :
  convertToTSType (Samples.enumAttribute "state" "json" true true ["on"; "off"]) None
    = Return ("(" ++ dq ++ "on" ++ dq ++ " | " ++ dq ++ "off" ++ dq ++ ")[]").
Proof.
  apply (convert_enum_before_primitive_lookup
           (Samples.enumAttribute "state" "json" true true ["on"; "off"]) None "on" ["off"]);
    solve [discriminate | reflexivity].
Defined.

(** C10 as stated fails: with an empty type string the attribute is
    rejected by [validateAttribute] before the enum rule is reached. *)
Lemma convert_enum_empty_type_throws :
  format (Samples.enumAttribute "state" "" true false ["on"; "off"]) = Some "enum"
  /\ elements (Samples.enumAttribute "state" "" true false ["on"; "off"]) = Some ["on"; "off"]
  /\ key (Samples.enumAttribute "state" "" true false ["on"; "off"]) = "state"
  /\ convertToTSType (Samples.enumAttribute "state" "" true false ["on"; "off"]) None
     = Throw (JsError "Attribute must have a valid string type").
Proof.
  repeat split.
Qed.

End ConverterTheorems.

(* ================================================================== *)
(** ** The two examples of the specification, and the related type name *)

Section Examples.
Import JS.
Import Schema.

(** C1.  The schema with database [{$id: "db1", name: "Main DB"}] under
    the default configuration: the table body computed for the database
    holds the entry [MAIN_DB: 'db1'], but the constants section of the
    output is the two flags printed as [true], and the output of the run
    holds neither the entry nor the table.  The entry appears only when the
    flag is present and nullish.  The section is the same for every
    schema object. *)
Theorem default_run_prints_flags_for_constant_tables :
  IDConstantsGenerator.generateDatabaseConstants [Samples.mainDb]
      (IDConstantsGenerator.merge IDConstantsGenerator.DEFAULT_CONFIG
         TypesGenerator.DEFAULT_ID_CONSTANTS_CONFIG)
    = "  /** Database ID for Main DB */" ++ nl ++ "  MAIN_DB: 'db1',"
  /\ IDConstantsGenerator.generateIDConstants Samples.schema
       TypesGenerator.DEFAULT_ID_CONSTANTS_CONFIG
     = Return (nl ++ "      true" ++ nl ++ nl ++ "      true" ++ nl ++ "    ")
  /\ (forall o : InputConfig,
        IDConstantsGenerator.generateIDConstants (ParsedObject o)
          TypesGenerator.DEFAULT_ID_CONSTANTS_CONFIG
        = Return (nl ++ "      true" ++ nl ++ nl ++ "      true" ++ nl ++ "    "))
  /\ returns (TypesGenerator.generate Samples.defaultConfig
                (Samples.environment Samples.schema)) = true
  /\ outputIncludes "MAIN_DB: 'db1'"
       (TypesGenerator.generate Samples.defaultConfig
          (Samples.environment Samples.schema)) = false
  /\ outputIncludes "DATABASE_IDS"
       (TypesGenerator.generate Samples.defaultConfig
          (Samples.environment Samples.schema)) = false
  /\ outputIncludes "MAIN_DB: 'db1'"
       (IDConstantsGenerator.generateIDConstants Samples.schema
          {| IDConstantsGenerator.generateDatabaseConstantsFlag := Some None;
             IDConstantsGenerator.generateCollectionConstantsFlag := None;
             IDConstantsGenerator.constantPrefix := None;
             IDConstantsGenerator.constantSuffix := None;
             IDConstantsGenerator.namingTransform := None;
             IDConstantsGenerator.includeComments := None |}) = true.
Proof.
  repeat split; try (vm_compute; reflexivity).
Qed.

(** C2 (as amended).  For the collection "Users" with the required enum
    attribute "role" over "admin" and "member": the attribute's interface
    field is [role: "admin" | "member";] with no optionality marker, and
    whenever enum generation is enabled (with the pascal key naming, which
    is the default), the enum section is the declaration of an enum named
    [UserRole] (the collection name loses its plural "s") with members
    [ADMIN = "admin"] and [MEMBER = "member"].  The default run's output
    holds both. *)
Theorem users_role_field_and_enum :
  forall config : EnumGenerator.EnumGenerationConfig,
    truthy (EnumGenerator.generateEnums
              (EnumGenerator.merge EnumGenerator.DEFAULT_CONFIG config)) = true ->
    EnumGenerator.namingStrategy
      (EnumGenerator.merge EnumGenerator.DEFAULT_CONFIG config) = Some EnumGenerator.pascal ->
    InterfaceGenerator.generateAttributeDefinition Samples.role
      = Return ("  /** Possible values: admin, member */" ++ nl
                ++ "  role: " ++ dq ++ "admin" ++ dq ++ " | " ++ dq ++ "member" ++ dq ++ ";")
    /\ EnumGenerator.enumDefinitions
         (EnumGenerator.generateEnumDefinitions [Samples.users] config)
       = nl ++ "/**" ++ nl
         ++ " * Enum representing UserRole" ++ nl
         ++ " * Provides type-safe representation of possible values" ++ nl
         ++ " */" ++ nl
         ++ "export enum UserRole {" ++ nl
         ++ "  /** Represents the admin option */" ++ nl
         ++ "  ADMIN = " ++ dq ++ "admin" ++ dq ++ "," ++ nl
         ++ "  /** Represents the member option */" ++ nl
         ++ "  MEMBER = " ++ dq ++ "member" ++ dq ++ nl
         ++ "}" ++ nl
    /\ outputIncludes ("  role: " ++ dq ++ "admin" ++ dq ++ " | " ++ dq ++ "member" ++ dq ++ ";")
         (TypesGenerator.generate Samples.defaultConfig
            (Samples.environment Samples.schema)) = true
    /\ outputIncludes "role?"
         (TypesGenerator.generate Samples.defaultConfig
            (Samples.environment Samples.schema)) = false
    /\ outputIncludes ("export enum UserRole {")
         (TypesGenerator.generate Samples.defaultConfig
            (Samples.environment Samples.schema)) = true.
Proof.
  intros [[[ | ] | ] union [[ | | ] | ]] He Hn;
    try discriminate He; try discriminate Hn;
    repeat split; destruct union as [[ | ] | ]; vm_compute; reflexivity.
Qed.

Lemma users_role_field_and_enum_witness :
  EnumGenerator.enumDefinitions
    (EnumGenerator.generateEnumDefinitions [Samples.users] EnumGenerator.DEFAULT_CONFIG)
  = nl ++ "/**" ++ nl
    ++ " * Enum representing UserRole" ++ nl
    ++ " * Provides type-safe representation of possible values" ++ nl
    ++ " */" ++ nl
    ++ "export enum UserRole {" ++ nl
    ++ "  /** Represents the admin option */" ++ nl
    ++ "  ADMIN = " ++ dq ++ "admin" ++ dq ++ "," ++ nl
    ++ "  /** Represents the member option */" ++ nl
    ++ "  MEMBER = " ++ dq ++ "member" ++ dq ++ nl
    ++ "}" ++ nl.
Proof.
  apply (users_role_field_and_enum EnumGenerator.DEFAULT_CONFIG); reflexivity.
Defined.

(** C2 as stated fails: no enum named [UsersRole] is generated. *)
Lemma users_role_enum_is_not_UsersRole :
  includes "UsersRole"
    (EnumGenerator.enumDefinitions
       (EnumGenerator.generateEnumDefinitions [Samples.users] EnumGenerator.DEFAULT_CONFIG))
    = false
  /\ outputIncludes "UsersRole"
       (TypesGenerator.generate Samples.defaultConfig
          (Samples.environment Samples.schema)) = false.
Proof.
  split; vm_compute; reflexivity.
Qed.

(** C8.  [convertToTSType] strips the trailing "s" after the segments are
    capitalised and joined, not before the split.  For most names the two
    orders agree; for "users_" and "s" they do not: the converter names
    [User] and [S] where the order of the claim, which is also the order of
    [generateInterfaceName], gives [Users] and the empty name. *)
Theorem related_type_name_strips_after_join :
  TypeConverter.relatedTypeName "users_" = "User"
  /\ specRelatedTypeName "users_" = "Users"
  /\ InterfaceGenerator.generateInterfaceName "users_" None None = "Users"
  /\ TypeConverter.convertToTSType
       (Samples.relationship "owner" "users_" (Some "oneToMany") (Some "parent")) None
     = Return "User[]"
  /\ TypeConverter.relatedTypeName "s" = "S"
  /\ specRelatedTypeName "s" = ""
  /\ InterfaceGenerator.generateInterfaceName "s" None None = ""
  /\ TypeConverter.relatedTypeName "users" = specRelatedTypeName "users".
Proof.
  repeat split.
Qed.

End Examples.

(* ================================================================== *)
(** ** Errors of the pipeline *)

Section PipelineErrors.
Import JS.
Import Schema.
Import TypesGenerator.

Lemma handleGenerationError_carries_message (cause : Thrown) :
  exists prefix,
    handleGenerationError cause = GeneratorError (prefix ++ messageOf cause).
Proof.
  destruct cause as [m | m | t].
  - exists "". reflexivity.
  - eexists. reflexivity.
  - eexists. reflexivity.
Qed.

Lemma generate_catches (config : TypeGeneratorConfig) (env : Environment) (cause : Thrown) :
  generateBody (constructor config) env = Throw cause ->
  generate config env = Throw (handleGenerationError cause).
Proof.
  intros H. unfold generate, tryCatch. rewrite H. reflexivity.
Qed.

Lemma reduce_stops_at_throw (before after : list TypeTransformer) (t : TypeTransformer)
  (context : TransformContext) (cause : Thrown) :
  forall types types',
    reduce before context types = Return types' ->
    t types' context = Throw cause ->
    reduce (before ++ t :: after)%list context types = Throw cause.
Proof.
  induction before as [ | t0 before IH]; intros types types' Hb Ht; simpl in *.
  - injection Hb as <-. rewrite Ht. reflexivity.
  - destruct (t0 types context) as [types0 | e]; simpl in *.
    + eapply IH; eassumption.
    + discriminate Hb.
Qed.

(** C5 (as amended).  Every error of a run surfaces as a [GeneratorError]
    that carries the cause's message, in all three stages.  A failure to
    load surfaces as [GeneratorError] "Failed to read or parse input
    configuration: <cause>".  An error thrown while generating surfaces
    through [handleGenerationError].  An error thrown by a user-supplied
    transformer is inside the same [try] block: it too surfaces through
    [handleGenerationError], unchanged if it is a [GeneratorError] and
    otherwise wrapped as [GeneratorError] "Unexpected error during type
    generation: <cause>". *)
Theorem generate_wraps_errors_of_every_stage :
  forall (config : TypeGeneratorConfig) (env : Environment),
    (forall cause,
       generateBody (constructor config) env = Throw cause ->
       exists prefix,
         generate config env = Throw (GeneratorError (prefix ++ messageOf cause)))
    /\
    (forall cause,
       validateConfiguration (constructor config) = Return tt ->
       load env (show (inputPath (constructor config))) = Throw cause ->
       generate config env =
         Throw (GeneratorError
                  ("Failed to read or parse input configuration: " ++ messageOf cause)))
    /\
    (forall parsed collections cause,
       validateConfiguration (constructor config) = Return tt ->
       load env (show (inputPath (constructor config))) = Return parsed ->
       extractProcessableCollections parsed = Return collections ->
       generateInitialTypes (constructor config) env collections parsed = Throw cause ->
       generate config env = Throw (handleGenerationError cause))
    /\
    (forall parsed collections types (before after : list TypeTransformer) t types' cause,
       validateConfiguration (constructor config) = Return tt ->
       load env (show (inputPath (constructor config))) = Return parsed ->
       extractProcessableCollections parsed = Return collections ->
       generateInitialTypes (constructor config) env collections parsed = Return types ->
       transformers (constructor config) = Some (before ++ t :: after)%list ->
       reduce before
         {| contextInputConfig := parsed; contextCollections := collections |} types
         = Return types' ->
       t types' {| contextInputConfig := parsed; contextCollections := collections |}
         = Throw cause ->
       generate config env = Throw (handleGenerationError cause)
       /\ exists prefix,
            handleGenerationError cause = GeneratorError (prefix ++ messageOf cause)).
Proof.
  intros config env. split; [ | split; [ | split]].
  - intros cause H. rewrite (generate_catches _ _ _ H).
    destruct (handleGenerationError_carries_message cause) as [prefix ->].
    exists prefix. reflexivity.
  - intros cause Hv Hl.
    apply (generate_catches config env
             (GeneratorError
                ("Failed to read or parse input configuration: " ++ messageOf cause))).
    unfold generateBody, readInputConfiguration. rewrite Hv, Hl. reflexivity.
  - intros parsed collections cause Hv Hl Hx Hg.
    apply generate_catches.
    unfold generateBody, readInputConfiguration. rewrite Hv, Hl. cbn [bind].
    rewrite Hx. cbn [bind]. rewrite Hg. reflexivity.
  - intros parsed collections types before after t types' cause Hv Hl Hx Hg Ht Hb Hc.
    split; [ | apply handleGenerationError_carries_message].
    apply generate_catches.
    unfold generateBody, readInputConfiguration. rewrite Hv, Hl. cbn [bind].
    rewrite Hx. cbn [bind]. rewrite Hg. cbn [bind].
    unfold applyCustomTransformations. rewrite Ht.
    rewrite (reduce_stops_at_throw before after t _ cause types types' Hb Hc).
    reflexivity.
Qed.

Lemma generate_wraps_errors_of_every_stage_witness :
  generate Samples.configWithFailingTransformer (Samples.environment Samples.schema)
    = Throw (handleGenerationError (JsError "boom")).
Proof.
  refine (proj1 (proj2 (proj2 (proj2
            (generate_wraps_errors_of_every_stage
               Samples.configWithFailingTransformer (Samples.environment Samples.schema))))
            Samples.schema [Samples.users] _ [] [] Samples.failingTransformer _
            (JsError "boom") _ _ _ _ _ _ _));
    reflexivity.
Defined.

(** C5 as stated fails: the [Error] "boom" thrown by a transformer does
    not reach the caller as thrown; the caller gets a [GeneratorError]. *)
Lemma transformer_error_is_wrapped :
  generate Samples.configWithFailingTransformer (Samples.environment Samples.schema)
    = Throw (GeneratorError "Unexpected error during type generation: boom")
  /\ generate Samples.configWithFailingTransformer (Samples.environment Samples.schema)
     <> Throw (JsError "boom").
Proof.
  split; [vm_compute; reflexivity | vm_compute; discriminate].
Qed.

End PipelineErrors.

(* ================================================================== *)
(** ** Characters and strings *)

Section StringLemmas.
Import JS.

Ltac by_cases_on_char c :=
  destruct c as [[ | ] [ | ] [ | ] [ | ] [ | ] [ | ] [ | ] [ | ]];
  vm_compute; intuition congruence.

Lemma upperChar_word (c : ascii) :
  isWord c = true -> isConstantChar (upperChar c) = true.
Proof. by_cases_on_char c. Qed.

Lemma upperChar_digit (c : ascii) : isDigit (upperChar c) = isDigit c.
Proof. by_cases_on_char c. Qed.

Lemma digit_is_word (c : ascii) : isDigit c = true -> isWord c = true.
Proof. by_cases_on_char c. Qed.

Lemma underscore_is_word : isWord (ascii_of_nat 95) = true.
Proof. reflexivity. Qed.

Lemma underscore_no_digit : isDigit (ascii_of_nat 95) = false.
Proof. reflexivity. Qed.

Lemma newline_char (c : ascii) : isNewline c = true <-> c = ascii_of_nat 10.
Proof. by_cases_on_char c. Qed.

Lemma newline_is_space (c : ascii) : isNewline c = true -> isSpace c = true.
Proof. by_cases_on_char c. Qed.

Lemma append_empty (s : string) : s ++ "" = s.
Proof. induction s as [ | c r IH]; simpl; [reflexivity | now rewrite IH]. Qed.

Lemma append_assoc (a b c : string) : (a ++ b) ++ c = a ++ (b ++ c).
Proof. induction a as [ | x a IH]; simpl; [reflexivity | now rewrite IH]. Qed.

Lemma allChars_filter (p : ascii -> bool) (s : string) :
  allChars p (filterChars p s) = true.
Proof.
  induction s as [ | c r IH]; simpl; [reflexivity | ].
  destruct (p c) eqn:E; simpl; [rewrite E | ]; exact IH.
Qed.

Lemma allChars_replaceOutside (s : string) :
  allChars isWord (replaceOutside isWord s) = true.
Proof.
  unfold replaceOutside.
  induction s as [ | c r IH]; simpl; [reflexivity | ].
  rewrite IH, andb_true_r.
  destruct (isWord c) eqn:E; [exact E | reflexivity].
Qed.

Lemma allChars_guardLeadingDigit (s : string) :
  allChars isWord s = true -> allChars isWord (guardLeadingDigit s) = true.
Proof.
  destruct s as [ | c r]; simpl; [reflexivity | ].
  intros H. destruct (isDigit c); [simpl; exact H | exact H].
Qed.

Lemma guardLeadingDigit_no_digit (s : string) :
  startsWithClass isDigit (guardLeadingDigit s) = false.
Proof.
  destruct s as [ | c r]; simpl; [reflexivity | ].
  destruct (isDigit c) eqn:E; simpl; [reflexivity | exact E].
Qed.

Lemma allChars_toUpperCase (s : string) :
  allChars isWord s = true -> allChars isConstantChar (toUpperCase s) = true.
Proof.
  unfold toUpperCase.
  induction s as [ | c r IH]; simpl; [reflexivity | ].
  intros H. apply andb_true_iff in H as [Hc Hr].
  rewrite (upperChar_word c Hc), (IH Hr). reflexivity.
Qed.

Lemma toUpperCase_leading_digit (s : string) :
  startsWithClass isDigit (toUpperCase s) = startsWithClass isDigit s.
Proof.
  destruct s as [ | c r]; simpl; [reflexivity | apply upperChar_digit].
Qed.

(** *** trim *)

Lemma trimStart_no_leading_space (s : string) :
  startsWithClass isSpace (trimStart s) = false.
Proof.
  induction s as [ | c r IH]; simpl; [reflexivity | ].
  destruct (isSpace c) eqn:E; [exact IH | simpl; exact E].
Qed.

Lemma trimEnd_no_trailing_space (s : string) :
  endsWithClass isSpace (trimEnd s) = false.
Proof.
  induction s as [ | c r IH]; [reflexivity | ].
  cbn [trimEnd]. destruct (trimEnd r) as [ | c' t] eqn:E.
  - destruct (isSpace c) eqn:Ec; simpl; [reflexivity | exact Ec].
  - exact IH.
Qed.

Lemma trimEnd_keeps_leading (s : string) :
  startsWithClass isSpace s = false -> startsWithClass isSpace (trimEnd s) = false.
Proof.
  destruct s as [ | c r]; [reflexivity | ].
  cbn [trimEnd startsWithClass]. intros Hc.
  destruct (trimEnd r) as [ | c' t]; [rewrite Hc | ]; simpl; exact Hc.
Qed.

(** *** runs of line feeds *)

Lemma noTriple_weaken (s : string) :
  forall k k', (k' <= k)%nat ->
    noTripleNewline k s = true -> noTripleNewline k' s = true.
Proof.
  induction s as [ | c r IH]; intros k k' Hle; simpl; [reflexivity | ].
  destruct (isNewline c); [ | trivial].
  intros H. apply andb_true_iff in H as [Hk Hr].
  apply Nat.ltb_lt in Hk.
  apply andb_true_iff. split.
  - apply Nat.ltb_lt. lia.
  - apply (IH (S k) (S k')); [lia | exact Hr].
Qed.

Lemma noTriple_collapse (s : string) :
  forall run, noTripleNewline (Nat.min run 2) (collapseNewlinesFrom run s) = true.
Proof.
  induction s as [ | c r IH]; intros run; simpl; [reflexivity | ].
  destruct (isNewline c) eqn:Ec.
  - destruct (run <? 2)%nat eqn:Er.
    + simpl. rewrite Ec. apply Nat.ltb_lt in Er.
      replace (Nat.min run 2) with run by lia.
      apply andb_true_iff. split; [apply Nat.ltb_lt; exact Er | ].
      specialize (IH (S run)).
      replace (Nat.min (S run) 2) with (S run) in IH by lia. exact IH.
    + apply Nat.ltb_ge in Er. specialize (IH (S run)).
      replace (Nat.min (S run) 2) with 2%nat in IH by lia.
      replace (Nat.min run 2) with 2%nat by lia. exact IH.
  - simpl. rewrite Ec. exact (IH 0%nat).
Qed.

Lemma noTriple_trimStart (s : string) :
  noTripleNewline 0 s = true -> noTripleNewline 0 (trimStart s) = true.
Proof.
  induction s as [ | c r IH]; simpl; [reflexivity | ].
  destruct (isSpace c).
  - destruct (isNewline c); intros H; apply IH; [ | exact H].
    apply (noTriple_weaken r 1 0); [lia | exact H].
  - simpl. trivial.
Qed.

Lemma noTriple_trimEnd (s : string) :
  forall k, noTripleNewline k s = true -> noTripleNewline k (trimEnd s) = true.
Proof.
  induction s as [ | c r IH]; intros k H; [reflexivity | ].
  cbn [trimEnd]. simpl in H.
  destruct (trimEnd r) as [ | c' t] eqn:E.
  - destruct (isSpace c); [reflexivity | ].
    simpl. destruct (isNewline c); [ | reflexivity].
    apply andb_true_iff in H as [Hk _]. rewrite Hk. reflexivity.
  - simpl. destruct (isNewline c).
    + apply andb_true_iff in H as [Hk Hr]. rewrite Hk. simpl.
      exact (IH (S k) Hr).
    + exact (IH 0%nat H).
Qed.

Lemma noTriple_append_newline (s : string) :
  forall k, s <> "" -> endsWithClass isNewline s = false ->
    noTripleNewline k s = true -> noTripleNewline k (s ++ nl) = true.
Proof.
  induction s as [ | c r IH]; intros k Hne He H; [contradiction | ].
  destruct r as [ | c' r'].
  - simpl in He. simpl. rewrite He. reflexivity.
  - assert (Hr : String c' r' <> "") by discriminate.
    change (endsWithClass isNewline (String c (String c' r')))
      with (endsWithClass isNewline (String c' r')) in He.
    change (String c (String c' r') ++ nl) with (String c (String c' r' ++ nl)).
    cbn [noTripleNewline] in H |- *.
    destruct (isNewline c).
    + apply andb_true_iff in H as [Hk Hrest]. rewrite Hk. simpl andb.
      apply (IH (S k) Hr He Hrest).
    + apply (IH 0%nat Hr He H).
Qed.

Lemma prefix_split (a : string) :
  forall s, String.prefix a s = true -> exists rest, s = a ++ rest.
Proof.
  induction a as [ | x a IH]; intros s H.
  - exists s. reflexivity.
  - destruct s as [ | y s]; [discriminate H | ].
    cbn [String.prefix] in H.
    destruct (ascii_dec x y) as [<- | ]; [ | discriminate H].
    destruct (IH s H) as [rest ->]. exists rest. reflexivity.
Qed.

Lemma prefix_append (a rest : string) : String.prefix a (a ++ rest) = true.
Proof.
  induction a as [ | x a IH]; [destruct rest; reflexivity | ].
  cbn [String.append String.prefix].
  destruct (ascii_dec x x) as [_ | N]; [exact IH | contradiction].
Qed.

Lemma noTriple_no_prefix (s : string) (k : nat) :
  noTripleNewline k s = true -> String.prefix (nl ++ nl ++ nl) s = false.
Proof.
  intros H.
  destruct (String.prefix (nl ++ nl ++ nl) s) eqn:P; [ | reflexivity].
  exfalso.
  destruct (prefix_split _ _ P) as [rest ->].
  change ((nl ++ nl ++ nl) ++ rest)
    with (String (ascii_of_nat 10)
            (String (ascii_of_nat 10) (String (ascii_of_nat 10) rest))) in H.
  cbn [noTripleNewline] in H.
  change (isNewline (ascii_of_nat 10)) with true in H. cbv iota in H.
  apply andb_true_iff in H as [_ H].
  apply andb_true_iff in H as [_ H].
  apply andb_true_iff in H as [H _].
  apply Nat.ltb_lt in H. lia.
Qed.

Lemma noTriple_not_included (s : string) :
  forall k, noTripleNewline k s = true -> includes (nl ++ nl ++ nl) s = false.
Proof.
  induction s as [ | c r IH]; intros k H.
  - reflexivity.
  - cbn [includes]. rewrite (noTriple_no_prefix _ k H). simpl orb.
    simpl in H. destruct (isNewline c).
    + apply andb_true_iff in H as [_ H]. exact (IH _ H).
    + exact (IH _ H).
Qed.

End StringLemmas.

(* ================================================================== *)
(** ** Constant keys and the final formatting *)

Section NamingAndFormatting.
Import JS.
Import IDConstantsGenerator.

Lemma defaultNamingTransform_word (name : string) :
  allChars isWord (defaultNamingTransform name) = true.
Proof. unfold defaultNamingTransform, removeOutside. apply allChars_filter. Qed.

Lemma formatConstantName_default (name : string) :
  formatConstantName name "" "" defaultNamingTransform
  = toUpperCase (guardLeadingDigit (replaceOutside isWord (defaultNamingTransform name))).
Proof.
  unfold formatConstantName. cbn [String.append]. apply append_empty.
Qed.

(** C9.  For every non-empty name, the constant key derived with the
    default naming transform and empty prefix and suffix holds only
    characters of [[A-Z0-9_]] and does not start with a digit. *)
Theorem default_constant_key_shape :
  forall name : string,
    name <> "" ->
    allChars isConstantChar (formatConstantName name "" "" defaultNamingTransform) = true
    /\ startsWithClass isDigit (formatConstantName name "" "" defaultNamingTransform) = false.
Proof.
  intros name _. rewrite formatConstantName_default. split.
  - apply allChars_toUpperCase, allChars_guardLeadingDigit, allChars_replaceOutside.
  - rewrite toUpperCase_leading_digit. apply guardLeadingDigit_no_digit.
Qed.

Lemma default_constant_key_shape_witness :
  allChars isConstantChar (formatConstantName "2nd main-db" "" "" defaultNamingTransform) = true
  /\ startsWithClass isDigit (formatConstantName "2nd main-db" "" "" defaultNamingTransform) = false.
Proof.
  apply (default_constant_key_shape "2nd main-db"). discriminate.
Defined.

(** C7.  For every text, the formatted output is a body followed by one
    line feed, where the body neither starts nor ends with white space
    (so it does not end with a line feed), and the output holds no three
    consecutive line feeds, that is, no two consecutive empty lines. *)
Theorem formatGeneratedTypes_normalizes :
  forall generatedTypes : string,
    exists body,
      TypesGenerator.formatGeneratedTypes generatedTypes = body ++ nl
      /\ startsWithClass isSpace body = false
      /\ endsWithClass isSpace body = false
      /\ endsWithClass isNewline body = false
      /\ includes (nl ++ nl ++ nl) (TypesGenerator.formatGeneratedTypes generatedTypes) = false.
Proof.
  intros text. unfold TypesGenerator.formatGeneratedTypes.
  set (body := trim (collapseNewlines text)).
  assert (Hend : endsWithClass isSpace body = false)
    by apply trimEnd_no_trailing_space.
  assert (Hnl : endsWithClass isNewline body = false).
  { clear - Hend. induction body as [ | c r IH]; [reflexivity | ].
    destruct r as [ | c' r'].
    - simpl in *. destruct (isNewline c) eqn:E; [ | reflexivity].
      rewrite (newline_is_space c E) in Hend. discriminate Hend.
    - apply IH. exact Hend. }
  assert (Hfree : noTripleNewline 0 body = true).
  { apply noTriple_trimEnd, noTriple_trimStart. exact (noTriple_collapse text 0). }
  exists body. repeat split.
  - apply trimEnd_keeps_leading, trimStart_no_leading_space.
  - exact Hend.
  - exact Hnl.
  - apply (noTriple_not_included _ 0).
    destruct body as [ | c r] eqn:Eb; [reflexivity | ].
    apply noTriple_append_newline; [discriminate | exact Hnl | exact Hfree].
Qed.

End NamingAndFormatting.

(* ================================================================== *)
(** ** Collisions of names *)

Section Collisions.
Import JS.
Import Schema.
Import EnumGenerator.

Lemma mapSet_keys_In {V : Type} (k : string) (v : V) (m : JsMap V) (k' : string) :
  In k' (keys (mapSet k v m)) <-> k' = k \/ In k' (keys m).
Proof.
  induction m as [ | [k0 v0] r IH]; simpl.
  - intuition.
  - destruct (String.eqb_spec k0 k) as [-> | N]; simpl.
    + intuition.
    + unfold keys in IH. rewrite IH. intuition.
Qed.

Lemma mapSet_NoDup {V : Type} (k : string) (v : V) (m : JsMap V) :
  NoDup (keys m) -> NoDup (keys (mapSet k v m)).
Proof.
  induction m as [ | [k0 v0] r IH]; simpl; intros H.
  - constructor; [intros [] | constructor].
  - inversion H as [ | ? ? Hnot Hr]; subst.
    destruct (String.eqb_spec k0 k) as [-> | N]; simpl.
    + constructor; assumption.
    + constructor; [ | apply IH; exact Hr].
      intros Hin. apply (mapSet_keys_In k v r k0) in Hin as [E | Hin].
      * exact (N E).
      * exact (Hnot Hin).
Qed.

Lemma mapGet_mapSet_same {V : Type} (k : string) (v : V) (m : JsMap V) :
  mapGet k (mapSet k v m) = Some v.
Proof.
  induction m as [ | [k0 v0] r IH]; simpl.
  - rewrite String.eqb_refl. reflexivity.
  - destruct (String.eqb_spec k0 k) as [-> | N]; simpl.
    + rewrite String.eqb_refl. reflexivity.
    + destruct (String.eqb_spec k0 k); [contradiction | exact IH].
Qed.

Lemma mapGet_mapSet_other {V : Type} (k k' : string) (v : V) (m : JsMap V) :
  k' <> k -> mapGet k' (mapSet k v m) = mapGet k' m.
Proof.
  intros N. induction m as [ | [k0 v0] r IH]; simpl.
  - destruct (String.eqb_spec k k'); [subst; contradiction | reflexivity].
  - destruct (String.eqb_spec k0 k) as [-> | N0]; simpl.
    + destruct (String.eqb_spec k k'); [subst; contradiction | reflexivity].
    + destruct (String.eqb_spec k0 k'); [reflexivity | exact IH].
Qed.

Lemma setAll_NoDup {V : Type} (entries : list (string * V)) :
  forall m, NoDup (keys m) -> NoDup (keys (setAll entries m)).
Proof.
  induction entries as [ | [k v] r IH]; intros m H; simpl; [exact H | ].
  apply IH, mapSet_NoDup, H.
Qed.

Lemma setAll_untouched {V : Type} (entries : list (string * V)) (k : string) :
  ~ In k (map fst entries) ->
  forall m, mapGet k (setAll entries m) = mapGet k m.
Proof.
  induction entries as [ | [k0 v0] r IH]; intros Hnot m; simpl; [reflexivity | ].
  simpl in Hnot.
  rewrite IH by tauto.
  apply mapGet_mapSet_other. intros E. apply Hnot. left. symmetry. exact E.
Qed.

Lemma setAll_last_wins {V : Type} (before after : list (string * V)) (k : string) (v : V) :
  ~ In k (map fst after) ->
  forall m, mapGet k (setAll (before ++ (k, v) :: after)%list m) = Some v.
Proof.
  intros Hnot m. unfold setAll. rewrite fold_left_app. simpl.
  fold (setAll before m).
  fold (setAll after (mapSet k v (setAll before m))).
  rewrite (setAll_untouched after k Hnot). apply mapGet_mapSet_same.
Qed.

Lemma extractFromAttribute_setAll (collection : Collection)
  (m : JsMap (list string)) (attr : TypeConverter.AppwriteAttribute) :
  extractFromAttribute collection m attr = setAll (enumEntry collection attr) m.
Proof.
  unfold extractFromAttribute, enumEntry, TypeConverter.isEnumWithElements.
  destruct (TypeConverter.elements attr) as [[ | e es] | ];
    destruct (strictEq (TypeConverter.format attr) "enum"); reflexivity.
Qed.

Lemma setAll_app {V : Type} (a b : list (string * V)) (m : JsMap V) :
  setAll (a ++ b)%list m = setAll b (setAll a m).
Proof. unfold setAll. apply fold_left_app. Qed.

Lemma extract_collection_setAll (collection : Collection)
  (attrs : list TypeConverter.AppwriteAttribute) :
  forall m,
    fold_left (extractFromAttribute collection) attrs m
    = setAll (flat_map (enumEntry collection) attrs) m.
Proof.
  induction attrs as [ | a r IH]; intros m; simpl; [reflexivity | ].
  rewrite IH, setAll_app, extractFromAttribute_setAll. reflexivity.
Qed.

Lemma extractEnumTypes_setAll (collections : list Collection) :
  extractEnumTypes collections = setAll (enumEntries collections) [].
Proof.
  unfold extractEnumTypes, enumEntries.
  generalize (@nil (string * list string)) as m.
  induction collections as [ | c r IH]; intros m; simpl; [reflexivity | ].
  rewrite IH, setAll_app, extract_collection_setAll. reflexivity.
Qed.

Lemma join_empty_cons (x : string) (l : list string) :
  join "" (x :: l) = x ++ join "" l.
Proof.
  unfold join. destruct l as [ | y l]; simpl.
  - symmetry. apply append_empty.
  - reflexivity.
Qed.

Lemma enumDefinitions_fold (strategy : option NamingStrategy) (union : bool)
  (entries : JsMap (list string)) :
  forall generated : Definitions,
    enumDefinitions
      (fold_left
         (fun generated entry =>
            let '(typeName, elements) := entry in
            {| enumDefinitions :=
                 enumDefinitions generated ++ generateEnum typeName elements strategy;
               typeDefinitions :=
                 if union
                 then typeDefinitions generated ++ generateUnionType typeName elements
                 else typeDefinitions generated |})
         entries generated)
    = enumDefinitions generated
      ++ join "" (map (fun entry => generateEnum (fst entry) (snd entry) strategy) entries).
Proof.
  induction entries as [ | [n v] r IH]; intros generated.
  - simpl. symmetry. apply append_empty.
  - cbn [fold_left map]. rewrite IH, join_empty_cons. cbn [enumDefinitions fst snd].
    apply append_assoc.
Qed.

Lemma includes_in_join (sep : string) (l : list string) (x : string) :
  In x l -> Includes x (join sep l).
Proof.
  unfold Includes, join.
  induction l as [ | y r IH]; intros Hin; [contradiction | ].
  destruct r as [ | z r'].
  - destruct Hin as [-> | []]. exists "", "". simpl. symmetry. apply append_empty.
  - destruct Hin as [-> | Hin].
    + exists "", (sep ++ String.concat sep (z :: r')). reflexivity.
    + destruct (IH Hin) as (before & after & E).
      exists (y ++ sep ++ before), after.
      change (String.concat sep (y :: z :: r'))
        with (y ++ sep ++ String.concat sep (z :: r')).
      rewrite E, !append_assoc. reflexivity.
Qed.

Lemma includes_spec (needle hay : string) :
  includes needle hay = true <-> Includes needle hay.
Proof.
  unfold Includes. split.
  - induction hay as [ | c r IH]; cbn [includes]; intros H.
    + rewrite orb_false_r in H.
      destruct (prefix_split _ _ H) as [rest E]. exists "", rest. exact E.
    + apply orb_true_iff in H as [H | H].
      * destruct (prefix_split _ _ H) as [rest E]. exists "", rest. exact E.
      * destruct (IH H) as (before & after & E).
        exists (String c before), after. rewrite E. reflexivity.
  - intros (before & after & ->).
    induction before as [ | c b IH].
    + cbn [String.append].
      destruct (needle ++ after) as [ | x y] eqn:E.
      * cbn [includes]. rewrite <- E, prefix_append. reflexivity.
      * cbn [includes]. rewrite <- E, prefix_append. reflexivity.
    + cbn [String.append includes]. rewrite IH. apply orb_true_r.
Qed.

Lemma join_cons_nonempty (sep x y : string) (l : list string) :
  join sep (x :: y :: l) = x ++ sep ++ join sep (y :: l).
Proof. reflexivity. Qed.

Lemma join_head (x : string) (after : list string) :
  join nl (x :: after) = x ++ precededByNewline after.
Proof.
  revert x. induction after as [ | y r IH]; intros x.
  - cbn. symmetry. apply append_empty.
  - rewrite join_cons_nonempty, IH. reflexivity.
Qed.

Lemma join_around (before : list string) (x : string) (after : list string) :
  join nl (before ++ x :: after)%list
  = followedByNewline before ++ x ++ precededByNewline after.
Proof.
  induction before as [ | y r IH].
  - apply join_head.
  - cbn [app followedByNewline].
    destruct (r ++ x :: after)%list as [ | z l] eqn:E.
    + destruct r; discriminate E.
    + rewrite join_cons_nonempty, IH, !append_assoc. reflexivity.
Qed.

Lemma precededByNewline_around (before : list string) (x : string) (after : list string) :
  precededByNewline (before ++ x :: after)%list
  = precededByNewline before ++ nl ++ x ++ precededByNewline after.
Proof.
  induction before as [ | y r IH]; [reflexivity | ].
  cbn [app precededByNewline]. rewrite IH, !append_assoc. reflexivity.
Qed.

(** The text of a table around two of its entries. *)
Lemma table_around_two {A : Type} (entry : A -> string)
  (before : list A) (x : A) (between : list A) (y : A) (after : list A) :
  join nl (map entry (before ++ x :: between ++ y :: after)%list)
  = followedByNewline (map entry before)
    ++ entry x
    ++ precededByNewline (map entry between)
    ++ nl ++ entry y
    ++ precededByNewline (map entry after).
Proof.
  rewrite map_app. cbn [map]. rewrite map_app. cbn [map].
  rewrite join_around, precededByNewline_around. reflexivity.
Qed.

End Collisions.

Section CollisionTheorems.
Import JS.
Import Schema.

(** C6 (as amended).  Enum type names: the extracted map holds every
    type name once; when several enum attributes derive one name, the map
    holds the values of the last of them, and the enum section is one
    declaration per map entry, so only the later attribute's declaration
    is emitted under that name.  Constant keys: nothing is removed; the
    table text holds the entry of every database and of every collection,
    whether or not two of them derive the same key, and in schema order:
    around any two entities of the schema the table is the lines of the
    entities before them, the entry of the earlier one, the lines of
    those between, the entry of the later one on a line of its own, and
    the lines of those after. *)
Theorem enum_collision_later_wins_constant_collision_keeps_both :
  (forall collections, NoDup (keys (EnumGenerator.extractEnumTypes collections)))
  /\
  (forall collections before typeName values after,
     enumEntries collections = (before ++ (typeName, values) :: after)%list ->
     ~ In typeName (map fst after) ->
     EnumGenerator.mapGet typeName (EnumGenerator.extractEnumTypes collections)
       = Some values)
  /\
  (forall collections config,
     truthy (EnumGenerator.generateEnums
               (EnumGenerator.merge EnumGenerator.DEFAULT_CONFIG config)) = true ->
     EnumGenerator.enumDefinitions
       (EnumGenerator.generateEnumDefinitions collections config)
     = join ""
         (map (fun entry =>
                 EnumGenerator.generateEnum (fst entry) (snd entry)
                   (EnumGenerator.namingStrategy
                      (EnumGenerator.merge EnumGenerator.DEFAULT_CONFIG config)))
              (EnumGenerator.extractEnumTypes collections)))
  /\
  (forall config databases d,
     In d databases ->
     includes (IDConstantsGenerator.constantEntry "Database" config d)
       (IDConstantsGenerator.generateDatabaseConstants databases config) = true)
  /\
  (forall config collections c,
     In c collections ->
     includes (IDConstantsGenerator.constantEntry "Collection" config c)
       (IDConstantsGenerator.generateCollectionConstants collections config) = true)
  /\
  (forall config before earlier between later after,
     IDConstantsGenerator.generateDatabaseConstants
       (before ++ earlier :: between ++ later :: after)%list config
     = followedByNewline (map (IDConstantsGenerator.constantEntry "Database" config) before)
       ++ IDConstantsGenerator.constantEntry "Database" config earlier
       ++ precededByNewline
            (map (IDConstantsGenerator.constantEntry "Database" config) between)
       ++ nl ++ IDConstantsGenerator.constantEntry "Database" config later
       ++ precededByNewline
            (map (IDConstantsGenerator.constantEntry "Database" config) after))
  /\
  (forall config before earlier between later after,
     IDConstantsGenerator.generateCollectionConstants
       (before ++ earlier :: between ++ later :: after)%list config
     = followedByNewline (map (IDConstantsGenerator.constantEntry "Collection" config) before)
       ++ IDConstantsGenerator.constantEntry "Collection" config earlier
       ++ precededByNewline
            (map (IDConstantsGenerator.constantEntry "Collection" config) between)
       ++ nl ++ IDConstantsGenerator.constantEntry "Collection" config later
       ++ precededByNewline
            (map (IDConstantsGenerator.constantEntry "Collection" config) after)).
Proof.
  split; [ | split; [ | split; [ | split; [ | split; [ | split]]]]].
  - intros collections. rewrite extractEnumTypes_setAll.
    apply setAll_NoDup. constructor.
  - intros collections before typeName values after E Hnot.
    rewrite extractEnumTypes_setAll, E. apply setAll_last_wins. exact Hnot.
  - intros collections config H.
    unfold EnumGenerator.generateEnumDefinitions. cbv zeta. rewrite H.
    exact (enumDefinitions_fold _ _ _ _).
  - intros config databases d Hin.
    unfold IDConstantsGenerator.generateDatabaseConstants.
    apply includes_spec, includes_in_join, in_map, Hin.
  - intros config collections c Hin.
    unfold IDConstantsGenerator.generateCollectionConstants.
    apply includes_spec, includes_in_join, in_map, Hin.
  - intros config before earlier between later after.
    unfold IDConstantsGenerator.generateDatabaseConstants. apply table_around_two.
  - intros config before earlier between later after.
    unfold IDConstantsGenerator.generateCollectionConstants. apply table_around_two.
Qed.

Lemma enum_collision_later_wins_constant_collision_keeps_both_witness :
  EnumGenerator.mapGet "UserRole"
    (EnumGenerator.extractEnumTypes [Samples.users; Samples.user]) = Some ["guest"]
  /\ includes
       (IDConstantsGenerator.constantEntry "Collection"
          IDConstantsGenerator.DEFAULT_CONFIG Samples.blogPosts)
       (IDConstantsGenerator.generateCollectionConstants
          [Samples.blogPosts; Samples.blog_posts] IDConstantsGenerator.DEFAULT_CONFIG) = true
  /\ IDConstantsGenerator.generateCollectionConstants
       [Samples.blogPosts; Samples.blog_posts] IDConstantsGenerator.DEFAULT_CONFIG
     = "  /** Collection ID for Blog Posts */" ++ nl ++ "  BLOG_POSTS: 'c1'," ++ nl
       ++ "  /** Collection ID for Blog_Posts */" ++ nl ++ "  BLOG_POSTS: 'c2',".
Proof.
  split; [ | split].
  - refine (proj1 (proj2 enum_collision_later_wins_constant_collision_keeps_both)
              [Samples.users; Samples.user]
              [("UserRole", ["admin"; "member"])] "UserRole" ["guest"] [] _ _).
    + reflexivity.
    + intros [].
  - refine (proj1 (proj2 (proj2 (proj2 (proj2
              enum_collision_later_wins_constant_collision_keeps_both))))
              IDConstantsGenerator.DEFAULT_CONFIG
              [Samples.blogPosts; Samples.blog_posts] Samples.blogPosts _).
    left. reflexivity.
  - exact (proj2 (proj2 (proj2 (proj2 (proj2 (proj2
             enum_collision_later_wins_constant_collision_keeps_both)))))
             IDConstantsGenerator.DEFAULT_CONFIG
             [] Samples.blogPosts [] Samples.blog_posts []).
Defined.

(** C6 as stated fails for constant keys: "Blog Posts" and "Blog_Posts"
    derive the same key [BLOG_POSTS], and the table holds the earlier
    entry as well as the later one. *)
Lemma colliding_constant_keys_are_both_emitted :
  IDConstantsGenerator.formatConstantName (name Samples.blogPosts) "" ""
    IDConstantsGenerator.defaultNamingTransform = "BLOG_POSTS"
  /\ IDConstantsGenerator.formatConstantName (name Samples.blog_posts) "" ""
       IDConstantsGenerator.defaultNamingTransform = "BLOG_POSTS"
  /\ includes "BLOG_POSTS: 'c1',"
       (IDConstantsGenerator.generateCollectionConstants
          [Samples.blogPosts; Samples.blog_posts] IDConstantsGenerator.DEFAULT_CONFIG) = true
  /\ includes "BLOG_POSTS: 'c2',"
       (IDConstantsGenerator.generateCollectionConstants
          [Samples.blogPosts; Samples.blog_posts] IDConstantsGenerator.DEFAULT_CONFIG) = true
  /\ outputIncludes "BLOG_POSTS: 'c1',"
       (IDConstantsGenerator.generateIDConstants
          (ParsedObject {| databases := Some [Samples.blogPosts; Samples.blog_posts];
                           collections := None |})
          {| IDConstantsGenerator.generateDatabaseConstantsFlag := Some None;
             IDConstantsGenerator.generateCollectionConstantsFlag := Some None;
             IDConstantsGenerator.constantPrefix := None;
             IDConstantsGenerator.constantSuffix := None;
             IDConstantsGenerator.namingTransform := None;
             IDConstantsGenerator.includeComments := None |}) = true.
Proof.
  repeat split; vm_compute; reflexivity.
Qed.

End CollisionTheorems.

(* ================================================================== *)
(** ** Further properties of the type converter *)

Section ConverterEdges.
Import JS.
Import Values.
Import TypeConverter.

Lemma lookup_none_not_in_table (t : string) :
  lookup t PRIMITIVE_TYPE_MAP = None -> ~ inPrimitiveTable t.
Proof.
  intros H Hin. destruct (lookup_primitive_some t Hin) as [base E].
  rewrite E in H. discriminate H.
Qed.

Lemma convert_object_errors (a : AppwriteAttribute) (ctx : option Context) (e : Thrown) :
  convertToTSType a ctx = Throw e ->
  (key a = "" /\ e = JsError "Attribute must have a valid string key")
  \/ (key a <> "" /\ type a = ""
      /\ e = JsError "Attribute must have a valid string type")
  \/ (type a = "relationship" /\ relatedCollection a = None
      /\ e = JsError undefinedSplitMessage)
  \/ (~ inPrimitiveTable (type a) /\ type a <> "relationship"
      /\ e = JsError (unsupportedTypeMessage a ctx)).
Proof.
  unfold convertToTSType, validateAttribute.
  destruct (String.eqb_spec (key a) "") as [Hk | Hk].
  { cbn [bind]. intros H. injection H as <-. left. split; [exact Hk | reflexivity]. }
  destruct (String.eqb_spec (type a) "") as [Ht | Ht].
  { cbn [bind]. intros H. injection H as <-. right. left. repeat split; assumption. }
  cbn [bind].
  destruct (isEnumWithElements a); [discriminate | ].
  destruct (String.eqb_spec (type a) "relationship") as [Hr | Hr].
  - destruct (relatedCollection a) as [related | ] eqn:Hrel.
    + repeat match goal with
             | |- context [if ?b then _ else _] => destruct b
             end; discriminate.
    + intros H. injection H as <-. right. right. left. repeat split; assumption.
  - destruct (lookup (type a) PRIMITIVE_TYPE_MAP) eqn:Hl.
    + destruct (array a); discriminate.
    + unfold handleUnsupportedType. intros H. injection H as <-.
      right. right. right. repeat split; [ | exact Hr].
      apply lookup_none_not_in_table, Hl.
Qed.

(** Called with what is no object, or with an object whose fields have
    the types of the [AppwriteAttribute] interface, [convertToTSType]
    throws nothing but five errors, each a plain [Error] or [TypeError]
    and none a [GeneratorError]: for what is no object (a primitive,
    [null], [undefined]), "Invalid attribute: Must be a non-null
    object"; for an object, the empty (or missing) key, the empty type,
    the missing related collection of a relationship, and the type
    outside the primitive table. *)
Theorem convert_throws_only_five_errors :
  forall (input : AttributeInput) (ctx : option Context) (e : Thrown),
    convertInputToTSType input ctx = Throw e ->
    (input = NotAnObject
     /\ e = JsError "Invalid attribute: Must be a non-null object")
    \/ exists a,
         input = AttributeObject a
         /\ ((key a = "" /\ e = JsError "Attribute must have a valid string key")
             \/ (key a <> "" /\ type a = ""
                 /\ e = JsError "Attribute must have a valid string type")
             \/ (type a = "relationship" /\ relatedCollection a = None
                 /\ e = JsError undefinedSplitMessage)
             \/ (~ inPrimitiveTable (type a) /\ type a <> "relationship"
                 /\ e = JsError (unsupportedTypeMessage a ctx))).
Proof.
  intros [ | a] ctx e; unfold convertInputToTSType; cbn [validateAttributeInput].
  - cbn [bind]. intros H. injection H as <-. left. split; reflexivity.
  - intros H. right. exists a. split; [reflexivity | ].
    apply convert_object_errors.
    destruct (validateAttribute a) as [[] | e'] eqn:Ev; cbn [bind] in H; [exact H | ].
    unfold convertToTSType. rewrite Ev. exact H.
Qed.

Lemma convert_throws_only_five_errors_witness :
  (AttributeObject (Samples.attribute "blob" "json" true false) = NotAnObject
   /\ JsError "Unsupported attribute type: json "
      = JsError "Invalid attribute: Must be a non-null object")
  \/ exists a,
       AttributeObject (Samples.attribute "blob" "json" true false) = AttributeObject a
       /\ ((key a = ""
            /\ JsError "Unsupported attribute type: json "
               = JsError "Attribute must have a valid string key")
           \/ (key a <> "" /\ type a = ""
               /\ JsError "Unsupported attribute type: json "
                  = JsError "Attribute must have a valid string type")
           \/ (type a = "relationship" /\ relatedCollection a = None
               /\ JsError "Unsupported attribute type: json "
                  = JsError undefinedSplitMessage)
           \/ (~ inPrimitiveTable (type a) /\ type a <> "relationship"
               /\ JsError "Unsupported attribute type: json "
                  = JsError (unsupportedTypeMessage a None))).
Proof.
  apply (convert_throws_only_five_errors
           (AttributeObject (Samples.attribute "blob" "json" true false)) None).
  reflexivity.
Defined.

(** A relationship attribute without [relatedCollection] makes
    [convertToTSType] throw the TypeError of [undefined.split], whatever
    its cardinality and side: the related name is computed before the
    cardinality is looked at, so also an unknown cardinality, whose
    fallback type would not use the name, fails. *)
Theorem relationship_without_related_collection_throws :
  forall (a : AppwriteAttribute) (ctx : option Context),
    key a <> "" ->
    type a = "relationship" ->
    isEnumWithElements a = false ->
    relatedCollection a = None ->
    convertToTSType a ctx = Throw (JsError undefinedSplitMessage).
Proof.
  intros a ctx Hk Ht He Hr. unfold convertToTSType.
  rewrite (validate_ok a Hk) by (rewrite Ht; discriminate).
  cbn [bind]. rewrite He, Ht, Hr. reflexivity.
Qed.

Lemma relationship_without_related_collection_throws_witness :
  convertToTSType Fixtures.dangling None = Throw (JsError undefinedSplitMessage).
Proof.
  apply (relationship_without_related_collection_throws Fixtures.dangling None);
    solve [discriminate | reflexivity].
Defined.

(** An array attribute of a primitive type that carries a non-empty
    element list without the enum format converts to the array of the
    literal union of its elements; the primitive type does not show in the
    result.  Without elements it converts to [Array<base>]. *)
Theorem array_with_elements_is_literal_union_array :
  forall (a : AppwriteAttribute) (ctx : option Context) (base : string),
    key a <> "" ->
    lookup (type a) PRIMITIVE_TYPE_MAP = Some base ->
    isEnumWithElements a = false ->
    array a = true ->
    (forall e es, elements a = Some (e :: es) ->
       convertToTSType a ctx = Return ("(" ++ literalUnion (e :: es) ++ ")[]"))
    /\ (elements a = None \/ elements a = Some [] ->
          convertToTSType a ctx = Return ("Array<" ++ base ++ ">")).
Proof.
  intros a ctx base Hk Hl He Ha.
  assert (Hin : inPrimitiveTable (type a)).
  { destruct (lookup (type a) PRIMITIVE_TYPE_MAP) eqn:E; [ | discriminate Hl].
    unfold inPrimitiveTable. cbn [In].
    unfold PRIMITIVE_TYPE_MAP in E. cbn [lookup] in E.
    repeat match type of E with
           | context [(?k =? type a)%string] =>
               destruct (String.eqb_spec k (type a)); [tauto | ]
           end.
    discriminate E. }
  destruct (primitive_not_special _ Hin) as [Hne Hnr].
  rewrite (convert_primitive a ctx Hk Hne Hnr He), Hl, Ha.
  unfold handleArrayType. split.
  - intros e es E. rewrite E. reflexivity.
  - intros [E | E]; rewrite E; reflexivity.
Qed.

Lemma array_with_elements_is_literal_union_array_witness :
  convertToTSType Fixtures.tags None
    = Return ("(" ++ dq ++ "red" ++ dq ++ " | " ++ dq ++ "green" ++ dq ++ ")[]").
Proof.
  refine (proj1 (array_with_elements_is_literal_union_array
                   Fixtures.tags None "string" _ _ _ _) "red" ["green"] _);
    solve [discriminate | reflexivity].
Defined.

End ConverterEdges.

(* ================================================================== *)
(** ** Where the related type name and the interface name agree *)

Section RelatedNames.
Import JS.

Lemma stripTrailingS_append (a b : string) :
  b <> "" -> stripTrailingS (a ++ b) = a ++ stripTrailingS b.
Proof.
  intros Hb. induction a as [ | c a IH]; [reflexivity | ].
  cbn [String.append stripTrailingS].
  destruct (a ++ b) as [ | x y] eqn:E.
  - destruct a; [cbn in E; contradiction | discriminate E].
  - rewrite <- IH. reflexivity.
Qed.

Lemma split_not_nil (sep : ascii -> bool) (s : string) : split sep s <> [].
Proof.
  destruct s as [ | c r]; cbn [split]; [discriminate | ].
  destruct (sep c); [discriminate | ].
  destruct (split sep r); discriminate.
Qed.

Lemma split_single_empty (sep : ascii -> bool) (s : string) :
  split sep s = [""] -> s = "".
Proof.
  destruct s as [ | c r]; [reflexivity | ]. cbn [split].
  destruct (sep c).
  - intros H. injection H as H. exfalso. exact (split_not_nil sep r H).
  - destruct (split sep r); discriminate.
Qed.

Lemma stripTrailingS_cons (c : ascii) (s : string) :
  s <> "" -> stripTrailingS (String c s) = String c (stripTrailingS s).
Proof. destruct s; [contradiction | reflexivity]. Qed.

Lemma mapLast_cons {A : Type} (f : A -> A) (x : A) (l : list A) :
  l <> [] -> mapLast f (x :: l) = x :: mapLast f l.
Proof. destruct l; [contradiction | reflexivity]. Qed.

(** The trailing "s" is in the last segment. *)
Lemma split_stripTrailingS (sep : ascii -> bool) (s : string) :
  sep (ascii_of_nat 115) = false ->
  split sep (stripTrailingS s) = mapLast stripTrailingS (split sep s).
Proof.
  intros Hs. induction s as [ | c r IH]; [reflexivity | ].
  destruct r as [ | c' r'].
  - cbn [stripTrailingS split].
    destruct (code c =? 115)%nat eqn:Ec.
    + apply Nat.eqb_eq in Ec.
      assert (c = ascii_of_nat 115) as -> by (rewrite <- Ec; unfold code; now rewrite ascii_nat_embedding).
      rewrite Hs. reflexivity.
    + cbn [split]. destruct (sep c); cbn [mapLast stripTrailingS]; [reflexivity | ].
      rewrite Ec. reflexivity.
  - rewrite stripTrailingS_cons by discriminate.
    remember (String c' r') as r eqn:Er.
    cbn [split]. rewrite IH.
    pose proof (split_not_nil sep r) as Hne.
    destruct (sep c).
    + rewrite mapLast_cons by exact Hne. reflexivity.
    + destruct (split sep r) as [ | seg segs] eqn:E; [contradiction | ].
      destruct segs as [ | seg' segs'].
      * cbn [mapLast].
        assert (seg <> "").
        { intros ->. apply split_single_empty in E. subst r. discriminate E. }
        rewrite stripTrailingS_cons by assumption. reflexivity.
      * reflexivity.
Qed.

Lemma capitalize_length (w : string) : String.length (capitalize w) = String.length w.
Proof. destruct w; reflexivity. Qed.

Lemma append_length (a b : string) :
  String.length (a ++ b) = (String.length a + String.length b)%nat.
Proof. induction a as [ | c a IH]; simpl; [reflexivity | now rewrite IH]. Qed.

Lemma joined_length_last (segs : list string) :
  (String.length (last segs "")
   <= String.length (join "" (map capitalize segs)))%nat.
Proof.
  induction segs as [ | x r IH]; [simpl; lia | ].
  cbn [map]. rewrite join_empty_cons, append_length, capitalize_length.
  destruct r as [ | y r']; [simpl; lia | ].
  change (last (x :: y :: r') "") with (last (y :: r') ""). lia.
Qed.

Lemma stripTrailingS_capitalize (w : string) :
  (2 <= String.length w)%nat ->
  stripTrailingS (capitalize w) = capitalize (stripTrailingS w).
Proof.
  destruct w as [ | c [ | c' r]]; simpl String.length; try lia. intros _.
  unfold capitalize. cbn [charAt0 slice1 toUpperCase mapChars String.append].
  rewrite !stripTrailingS_cons by discriminate.
  reflexivity.
Qed.

Lemma stripTrailingS_joined (segs : list string) :
  (2 <= String.length (last segs ""))%nat ->
  stripTrailingS (join "" (map capitalize segs))
  = join "" (map capitalize (mapLast stripTrailingS segs)).
Proof.
  induction segs as [ | x r IH]; [simpl; lia | ].
  destruct r as [ | y r'].
  - cbn [last map mapLast]. intros H.
    rewrite !join_empty_cons. cbn [join String.concat].
    rewrite !append_empty. apply stripTrailingS_capitalize, H.
  - change (last (x :: y :: r') "") with (last (y :: r') ""). intros H.
    rewrite mapLast_cons by discriminate.
    cbn [map].
    change (capitalize y :: map capitalize r') with (map capitalize (y :: r')).
    rewrite (join_empty_cons (capitalize x) (map capitalize (y :: r'))).
    rewrite (join_empty_cons (capitalize x)
               (map capitalize (mapLast stripTrailingS (y :: r')))).
    rewrite stripTrailingS_append.
    + rewrite (IH H). reflexivity.
    + pose proof (joined_length_last (y :: r')) as Hl.
      intros E. rewrite E in Hl. change (String.length "") with 0%nat in Hl. lia.
Qed.

(** When the last "-"/"_" segment of the related collection's name has
    at least two characters, the related type name [convertToTSType] uses
    is the interface name [generateInterfaceName] gives that collection
    (without prefix and suffix): the two orders of stripping the plural
    "s" agree. *)
Theorem related_type_name_is_interface_name :
  forall relatedCollection : string,
    (2 <= String.length (last (split isDashOrUnderscore relatedCollection) ""))%nat ->
    TypeConverter.relatedTypeName relatedCollection
    = InterfaceGenerator.generateInterfaceName relatedCollection None None.
Proof.
  intros w H.
  unfold TypeConverter.relatedTypeName, InterfaceGenerator.generateInterfaceName, pascalCase.
  rewrite (stripTrailingS_joined _ H).
  rewrite <- split_stripTrailingS by reflexivity.
  cbn [String.append]. symmetry. apply append_empty.
Qed.

Lemma related_type_name_is_interface_name_witness :
  TypeConverter.relatedTypeName "blog-posts"
  = InterfaceGenerator.generateInterfaceName "blog-posts" None None.
Proof.
  apply (related_type_name_is_interface_name "blog-posts"). simpl. lia.
Defined.

End RelatedNames.

(* ================================================================== *)
(** ** Type guards *)

Section TypeGuards.
Import JS.
Import Values.
Import TypeConverter.

Lemma setHas_member (values : list string) (v : JsValue) :
  setHas values v = true <-> isMember values v.
Proof.
  unfold isMember. split.
  - destruct v; simpl; try discriminate. intros H.
    apply existsb_exists in H as (x & Hin & E).
    apply String.eqb_eq in E. subst x. exists s. split; [reflexivity | exact Hin].
  - intros (s & -> & Hin). simpl.
    apply existsb_exists. exists s. split; [exact Hin | apply String.eqb_refl].
Qed.

Lemma every_array (check : JsValue -> bool) (v : JsValue) :
  every check v = true
  <-> exists items, v = VArray items /\ Forall (fun x => check x = true) items.
Proof.
  split.
  - destruct v; simpl; try discriminate. intros H.
    exists items. split; [reflexivity | ].
    apply Forall_forall. apply forallb_forall. exact H.
  - intros (items & -> & H). simpl.
    apply forallb_forall. apply Forall_forall. exact H.
Qed.

Lemma lookupCheck_outside_table (t : string) :
  ~ inPrimitiveTable t -> lookupCheck t primitiveTypeChecks = None.
Proof.
  unfold inPrimitiveTable; intros H; cbn [In] in H.
  unfold primitiveTypeChecks; cbn [lookupCheck].
  repeat match goal with
  | |- context [(?k =? t)%string] =>
      destruct (String.eqb_spec k t); [exfalso; apply H; tauto | ]
  end.
  reflexivity.
Qed.

Lemma strictEq_false (o : option string) (s : string) :
  o <> Some s -> strictEq o s = false.
Proof.
  destruct o as [t | ]; [ | reflexivity]. intros H. simpl.
  destruct (String.eqb_spec t s); [subst; contradiction | reflexivity].
Qed.

(** For an attribute with format "enum" and an element list, the type
    guard accepts exactly the strings of the list; for an array attribute
    it accepts exactly the arrays all of whose items are such strings
    (the empty array among them). *)
Theorem enum_guard_accepts_exactly_members :
  forall (a : AppwriteAttribute) (values : list string),
    format a = Some "enum" ->
    elements a = Some values ->
    forall v : JsValue,
      accepts a v <->
      (if array a
       then exists items, v = VArray items /\ Forall (isMember values) items
       else isMember values v).
Proof.
  intros a values Hf He v. unfold accepts, createTypeGuard.
  rewrite He, Hf, strictEq_some.
  destruct (array a); split.
  - intros (g & Hg & Hv). injection Hg as <-.
    apply every_array in Hv as (items & -> & H). exists items. split; [reflexivity | ].
    eapply Forall_impl; [ | exact H]. intros x. apply setHas_member.
  - intros (items & -> & H). eexists. split; [reflexivity | ].
    apply every_array. exists items. split; [reflexivity | ].
    eapply Forall_impl; [ | exact H]. intros x. apply setHas_member.
  - intros (g & Hg & Hv). injection Hg as <-. apply setHas_member, Hv.
  - intros H. eexists. split; [reflexivity | ]. apply setHas_member, H.
Qed.

Lemma enum_guard_accepts_exactly_members_witness :
  accepts Samples.role (VString "member") <-> isMember ["admin"; "member"] (VString "member").
Proof.
  apply (enum_guard_accepts_exactly_members Samples.role ["admin"; "member"]);
    reflexivity.
Defined.

(** For an attribute outside the enum branch whose type is not in the
    primitive table (and is no name inherited from [Object.prototype]),
    the type guard accepts every value, and for an array attribute every
    array: the type [convertToTSType] rejects as unsupported is not
    checked at all, and neither is "relationship". *)
Theorem unknown_type_guard_accepts_everything :
  forall a : AppwriteAttribute,
    (elements a = None \/ format a <> Some "enum") ->
    ~ inPrimitiveTable (type a) ->
    ~ In (type a) objectPrototypeKeys ->
    forall v : JsValue,
      accepts a v <-> (if array a then exists items, v = VArray items else True).
Proof.
  intros a Hne Hout Hproto v.
  assert (Hg : createTypeGuard a = getPrimitiveTypeGuard a).
  { unfold createTypeGuard. destruct Hne as [-> | Hf]; [reflexivity | ].
    destruct (elements a); [ | reflexivity].
    rewrite (strictEq_false _ _ Hf). reflexivity. }
  assert (Hp : existsb (String.eqb (type a)) objectPrototypeKeys = false).
  { destruct (existsb (String.eqb (type a)) objectPrototypeKeys) eqn:E; [ | reflexivity].
    exfalso. apply existsb_exists in E as (x & Hin & E).
    apply String.eqb_eq in E. subst x. exact (Hproto Hin). }
  unfold accepts. rewrite Hg. unfold getPrimitiveTypeGuard.
  rewrite (lookupCheck_outside_table _ Hout), Hp.
  destruct (array a); split.
  - intros (g & E & Hv). injection E as <-.
    apply every_array in Hv as (items & -> & _). exists items. reflexivity.
  - intros (items & ->). eexists. split; [reflexivity | ].
    apply every_array. exists items. split; [reflexivity | ].
    apply Forall_forall. reflexivity.
  - trivial.
  - intros _. eexists. split; reflexivity.
Qed.

Lemma unknown_type_guard_accepts_everything_witness :
  accepts (Samples.attribute "blob" "json" true false) VNull <-> True.
Proof.
  apply (unknown_type_guard_accepts_everything (Samples.attribute "blob" "json" true false)).
  - left. reflexivity.
  - unfold inPrimitiveTable. cbn [In Samples.attribute type].
    intros [H | [H | [H | [H | [H | []]]]]]; discriminate H.
  - cbn [In Samples.attribute type objectPrototypeKeys].
    intuition discriminate.
Defined.

(** An enum attribute whose element list is empty is typed by
    [convertToTSType] with its primitive type, as if it were no enum,
    while its type guard accepts no value at all: the two read "has
    elements" differently. *)
Theorem empty_enum_is_typed_but_guard_rejects_all :
  forall (a : AppwriteAttribute) (ctx : option Context) (base : string),
    key a <> "" ->
    lookup (type a) PRIMITIVE_TYPE_MAP = Some base ->
    format a = Some "enum" ->
    elements a = Some [] ->
    array a = false ->
    convertToTSType a ctx = Return base
    /\ forall v : JsValue, rejects a v.
Proof.
  intros a ctx base Hk Hl Hf He Ha. split.
  - assert (Hn : isEnumWithElements a = false).
    { unfold isEnumWithElements. rewrite He. apply andb_false_r. }
    assert (Hne : type a <> "") by (intros E; rewrite E in Hl; discriminate Hl).
    assert (Hnr : type a <> "relationship")
      by (intros E; rewrite E in Hl; discriminate Hl).
    rewrite (convert_primitive a ctx Hk Hne Hnr Hn), Hl, Ha. reflexivity.
  - intros v. unfold rejects, createTypeGuard.
    rewrite He, Hf, strictEq_some, Ha.
    eexists. split; [reflexivity | ]. destruct v; reflexivity.
Qed.

Lemma empty_enum_is_typed_but_guard_rejects_all_witness :
  convertToTSType Fixtures.emptyEnum None = Return "string"
  /\ forall v : JsValue, rejects Fixtures.emptyEnum v.
Proof.
  apply (empty_enum_is_typed_but_guard_rejects_all Fixtures.emptyEnum None "string");
    solve [discriminate | reflexivity].
Defined.

End TypeGuards.

(* ================================================================== *)
(** ** Further properties of the enum generator *)

Section EnumProperties.
Import JS.
Import Schema.
Import EnumGenerator.

Ltac char_cases c :=
  destruct c as [[ | ] [ | ] [ | ] [ | ] [ | ] [ | ] [ | ] [ | ]];
  vm_compute; intuition congruence.

Lemma mapSet_In {V : Type} (k : string) (v : V) (m : JsMap V) (entry : string * V) :
  In entry (mapSet k v m) -> entry = (k, v) \/ In entry m.
Proof.
  induction m as [ | [k0 v0] r IH]; simpl.
  - intros [<- | []]. left. reflexivity.
  - destruct (String.eqb_spec k0 k) as [-> | N]; simpl.
    + intros [<- | H]; [left; reflexivity | right; right; exact H].
    + intros [<- | H]; [right; left; reflexivity | ].
      destruct (IH H) as [E | Hin]; [left; exact E | right; right; exact Hin].
Qed.

Lemma setAll_In {V : Type} (entries : list (string * V)) :
  forall (m : JsMap V) (entry : string * V),
    In entry (setAll entries m) -> In entry entries \/ In entry m.
Proof.
  induction entries as [ | [k v] r IH]; intros m entry; simpl.
  - intros H. right. exact H.
  - intros H. destruct (IH _ _ H) as [Hin | Hin]; [left; right; exact Hin | ].
    destruct (mapSet_In _ _ _ _ Hin) as [E | Hm]; [left; left; symmetry; exact E | ].
    right. exact Hm.
Qed.

Lemma setAll_keys_In {V : Type} (entries : list (string * V)) :
  forall (m : JsMap V) (k : string),
    In k (keys (setAll entries m)) <-> In k (map fst entries) \/ In k (keys m).
Proof.
  induction entries as [ | [k0 v0] r IH]; intros m k; simpl.
  - tauto.
  - rewrite IH, mapSet_keys_In. intuition.
Qed.

Lemma enumEntries_In (collections : list Collection) (entry : string * list string) :
  In entry (enumEntries collections) <->
  exists c a, In c collections /\ In a (attributes c)
              /\ TypeConverter.isEnumWithElements a = true
              /\ entry = (generateTypeName (name c) (TypeConverter.key a),
                          match TypeConverter.elements a with Some l => l | None => [] end).
Proof.
  unfold enumEntries. rewrite in_flat_map. split.
  - intros (c & Hc & H). apply in_flat_map in H as (a & Ha & H).
    unfold enumEntry in H.
    destruct (TypeConverter.isEnumWithElements a) eqn:E; [ | contradiction].
    destruct H as [<- | []]. exists c, a. repeat split; assumption.
  - intros (c & a & Hc & Ha & E & ->). exists c. split; [exact Hc | ].
    apply in_flat_map. exists a. split; [exact Ha | ].
    unfold enumEntry. rewrite E. left. reflexivity.
Qed.

(** The extracted map holds a type name for every attribute with format
    "enum" and a non-empty element list, and nothing else: each of its
    entries is the type name and the (non-empty) element list of such an
    attribute of the collections. *)
Theorem extracted_enum_types_are_the_enum_attributes :
  forall collections : list Collection,
    (forall c a,
       In c collections -> In a (attributes c) ->
       TypeConverter.isEnumWithElements a = true ->
       In (generateTypeName (name c) (TypeConverter.key a))
          (keys (extractEnumTypes collections)))
    /\
    (forall typeName values,
       In (typeName, values) (extractEnumTypes collections) ->
       values <> []
       /\ exists c a,
            In c collections /\ In a (attributes c)
            /\ TypeConverter.format a = Some "enum"
            /\ TypeConverter.elements a = Some values
            /\ typeName = generateTypeName (name c) (TypeConverter.key a)).
Proof.
  intros collections. rewrite extractEnumTypes_setAll. split.
  - intros c a Hc Ha E. apply setAll_keys_In. left.
    apply in_map_iff.
    exists (generateTypeName (name c) (TypeConverter.key a),
            match TypeConverter.elements a with Some l => l | None => [] end).
    split; [reflexivity | ].
    apply enumEntries_In. exists c, a. repeat split; assumption.
  - intros typeName values H.
    apply setAll_In in H as [H | []].
    apply enumEntries_In in H as (c & a & Hc & Ha & E & Heq).
    injection Heq as -> ->.
    unfold TypeConverter.isEnumWithElements in E.
    apply andb_true_iff in E as [Ef Ee].
    destruct (TypeConverter.elements a) as [[ | e es] | ] eqn:El; try discriminate Ee.
    split; [discriminate | ].
    exists c, a. repeat split; try assumption.
    destruct (TypeConverter.format a) as [f | ]; [ | discriminate Ef].
    simpl in Ef. apply String.eqb_eq in Ef. subst f. reflexivity.
Qed.

Lemma extracted_enum_types_are_the_enum_attributes_witness :
  In "UserRole" (keys (extractEnumTypes [Samples.users])).
Proof.
  refine (proj1 (extracted_enum_types_are_the_enum_attributes [Samples.users])
            Samples.users Samples.role _ _ _).
  - left. reflexivity.
  - left. reflexivity.
  - reflexivity.
Defined.

Lemma definitions_fold (enums union : bool) (strategy : option NamingStrategy)
  (entries : JsMap (list string)) :
  forall generated : Definitions,
    fold_left
      (fun generated entry =>
         let '(typeName, elements) := entry in
         {| enumDefinitions :=
              if enums
              then enumDefinitions generated ++ generateEnum typeName elements strategy
              else enumDefinitions generated;
            typeDefinitions :=
              if union
              then typeDefinitions generated ++ generateUnionType typeName elements
              else typeDefinitions generated |})
      entries generated
    = {| enumDefinitions :=
           enumDefinitions generated
           ++ (if enums
               then join "" (map (fun entry => generateEnum (fst entry) (snd entry) strategy)
                               entries)
               else "");
         typeDefinitions :=
           typeDefinitions generated
           ++ (if union
               then join "" (map (fun entry => generateUnionType (fst entry) (snd entry))
                               entries)
               else "") |}.
Proof.
  induction entries as [ | [n v] r IH]; intros [e t].
  - cbn [fold_left map enumDefinitions typeDefinitions].
    destruct enums, union; cbn [join String.concat]; rewrite !append_empty; reflexivity.
  - cbn [fold_left map]. rewrite IH. cbn [enumDefinitions typeDefinitions fst snd].
    destruct enums, union; rewrite ?join_empty_cons, ?append_assoc; reflexivity.
Qed.

(** The enum section and the union-type section are switched
    independently, by their own key alone: a section is empty when its
    flag is [false] or its key is set to [undefined] (the spread lets the
    [undefined] override the default), and when its flag is [true] or
    its key is absent it holds one declaration per extracted type name,
    in the order of the map.  The member names follow the strategy that
    is set and are pascal when the strategy key is absent or
    [undefined].  On a configuration without a key set to [undefined]
    this is [generateEnumDefinitions] as the other properties use it. *)
Theorem enum_and_union_sections_toggle_independently :
  forall (collections : list Collection) (config : EnumGenerationInput),
    enumDefinitions (generateEnumDefinitionsOf collections config)
    = match generateEnumsKey config with
      | Value false | Undefined => ""
      | Value true | Absent =>
          join ""
            (map (fun entry =>
                    generateEnum (fst entry) (snd entry)
                      (match namingStrategyKey config with
                       | Value strategy => Some strategy
                       | Absent | Undefined => Some pascal
                       end))
               (extractEnumTypes collections))
      end
    /\
    typeDefinitions (generateEnumDefinitionsOf collections config)
    = match generateUnionTypesKey config with
      | Value false | Undefined => ""
      | Value true | Absent =>
          join ""
            (map (fun entry => generateUnionType (fst entry) (snd entry))
               (extractEnumTypes collections))
      end
    /\
    forall held : EnumGenerationConfig,
      generateEnumDefinitionsOf collections (inputOf held)
      = generateEnumDefinitions collections held.
Proof.
  intros collections config. repeat split.
  - unfold generateEnumDefinitionsOf. cbv zeta.
    rewrite (definitions_fold
               (truthy (generateEnums (mergeInput DEFAULT_CONFIG config)))
               (truthy (generateUnionTypes (mergeInput DEFAULT_CONFIG config)))).
    cbn [enumDefinitions mergeInput generateEnums namingStrategy DEFAULT_CONFIG].
    destruct (generateEnumsKey config) as [ | | [ | ]]; cbn [spreadKey truthy];
      try reflexivity;
      destruct (namingStrategyKey config); reflexivity.
  - unfold generateEnumDefinitionsOf. cbv zeta.
    rewrite (definitions_fold
               (truthy (generateEnums (mergeInput DEFAULT_CONFIG config)))
               (truthy (generateUnionTypes (mergeInput DEFAULT_CONFIG config)))).
    cbn [typeDefinitions mergeInput generateUnionTypes DEFAULT_CONFIG].
    destruct (generateUnionTypesKey config) as [ | | [ | ]]; reflexivity.
  - intros [enums union strategy].
    unfold generateEnumDefinitionsOf, generateEnumDefinitions, mergeInput, merge, inputOf.
    cbn [generateEnums generateUnionTypes namingStrategy generateEnumsKey
         generateUnionTypesKey namingStrategyKey DEFAULT_CONFIG].
    destruct enums, union, strategy; reflexivity.
Qed.

(** *** Member names *)

Lemma mapChars_length (f : ascii -> ascii) (s : string) :
  String.length (mapChars f s) = String.length s.
Proof. induction s as [ | c r IH]; simpl; [reflexivity | now rewrite IH]. Qed.

Lemma mapChars_compose (f g : ascii -> ascii) (s : string) :
  mapChars f (mapChars g s) = mapChars (fun c => f (g c)) s.
Proof. induction s as [ | c r IH]; simpl; [reflexivity | now rewrite IH]. Qed.

Lemma mapChars_ext (f g : ascii -> ascii) (s : string) :
  (forall c, f c = g c) -> mapChars f s = mapChars g s.
Proof.
  intros H. induction s as [ | c r IH]; simpl; [reflexivity | now rewrite IH, H].
Qed.

Lemma allChars_mapChars (p : ascii -> bool) (f : ascii -> ascii) (s : string) :
  (forall c, p (f c) = true) -> allChars p (mapChars f s) = true.
Proof.
  intros H. induction s as [ | c r IH]; simpl; [reflexivity | now rewrite H, IH].
Qed.

Lemma sanitized_upper (c : ascii) :
  isConstantChar (upperChar (if isAlnum c then c else ascii_of_nat 95)) = true.
Proof. char_cases c. Qed.

Lemma sanitized_lower (c : ascii) :
  isSnakeChar (lowerChar (upperChar (if isAlnum c then c else ascii_of_nat 95))) = true.
Proof. char_cases c. Qed.

Lemma sanitized_digit (c : ascii) :
  isDigit (upperChar (if isAlnum c then c else ascii_of_nat 95)) = isDigit c.
Proof. char_cases c. Qed.

Lemma lowerChar_digit (c : ascii) : isDigit (lowerChar c) = isDigit c.
Proof. char_cases c. Qed.

Lemma sanitized_ignores_case (c : ascii) :
  upperChar (if isAlnum (upperChar c) then upperChar c else ascii_of_nat 95)
  = upperChar (if isAlnum c then c else ascii_of_nat 95)
  /\ upperChar (if isAlnum (lowerChar c) then lowerChar c else ascii_of_nat 95)
     = upperChar (if isAlnum c then c else ascii_of_nat 95).
Proof. char_cases c. Qed.

(** A member name is made character by character: it has the length of
    the enum value (so the empty value gives the empty name), it starts
    with a digit exactly when the value does (no underscore is put in
    front, unlike for constant keys), and its characters are in
    [[A-Z0-9_]] under the pascal strategy and in [[a-z0-9_]] under the
    snake strategy. *)
Theorem enum_key_is_characterwise :
  forall (value : string) (strategy : NamingStrategy),
    String.length (formatEnumKey value strategy) = String.length value
    /\ startsWithClass isDigit (formatEnumKey value strategy)
       = startsWithClass isDigit value
    /\ allChars isConstantChar (formatEnumKey value pascal) = true
    /\ allChars isSnakeChar (formatEnumKey value snake) = true.
Proof.
  intros value strategy. unfold formatEnumKey, toUpperCase, toLowerCase, replaceOutside.
  rewrite !mapChars_compose. repeat split.
  - destruct strategy; rewrite ?mapChars_compose, ?mapChars_length; try reflexivity.
    destruct value as [ | c r]; [reflexivity | ].
    cbn [mapChars charAt0 slice1 String.append String.length].
    rewrite mapChars_length. reflexivity.
  - destruct strategy; rewrite ?mapChars_compose;
      destruct value as [ | c r]; try reflexivity;
      cbn [mapChars charAt0 slice1 String.append startsWithClass];
      rewrite ?lowerChar_digit; apply sanitized_digit.
  - apply allChars_mapChars. intros c. apply sanitized_upper.
  - apply allChars_mapChars. intros c. apply sanitized_lower.
Qed.

(** ASCII enum values that differ only in letter case get the same
    member name, under every strategy: upper- or lower-casing a value of
    ASCII characters does not change its key. *)
Theorem enum_key_ignores_case :
  forall (value : string) (strategy : NamingStrategy),
    allChars isAscii value = true ->
    formatEnumKey (toUpperCase value) strategy = formatEnumKey value strategy
    /\ formatEnumKey (toLowerCase value) strategy = formatEnumKey value strategy.
Proof.
  intros value strategy _.
  assert (Hu : toUpperCase (replaceOutside isAlnum (toUpperCase value))
               = toUpperCase (replaceOutside isAlnum value)).
  { unfold toUpperCase, replaceOutside. rewrite !mapChars_compose.
    apply mapChars_ext. intros c. apply sanitized_ignores_case. }
  assert (Hl : toUpperCase (replaceOutside isAlnum (toLowerCase value))
               = toUpperCase (replaceOutside isAlnum value)).
  { unfold toUpperCase, toLowerCase, replaceOutside. rewrite !mapChars_compose.
    apply mapChars_ext. intros c. apply sanitized_ignores_case. }
  unfold formatEnumKey. rewrite Hu, Hl. split; reflexivity.
Qed.

Lemma enum_key_ignores_case_witness :
  formatEnumKey (toUpperCase "in-Progress") camel = formatEnumKey "in-Progress" camel
  /\ formatEnumKey (toLowerCase "in-Progress") camel = formatEnumKey "in-Progress" camel.
Proof.
  apply (enum_key_ignores_case "in-Progress" camel). reflexivity.
Defined.

End EnumProperties.

(* ================================================================== *)
(** ** Failure of the interface generator *)

Section InterfaceFailures.
Import JS.
Import Schema.
Import TypeConverter.
Import InterfaceGenerator.

Lemma mapM_returns_iff {A B : Type} (f : A -> Completion B) (l : list A) :
  (exists ys, mapM f l = Return ys) <-> Forall (fun x => exists y, f x = Return y) l.
Proof.
  induction l as [ | x r IH]; simpl.
  - split; [constructor | intros _; eexists; reflexivity].
  - split.
    + intros [ys H]. destruct (f x) as [y | e] eqn:E; [ | discriminate H].
      cbn [bind] in H. destruct (mapM f r) as [ys' | e] eqn:Er; [ | discriminate H].
      constructor; [exists y; exact E | ]. apply IH. exists ys'. reflexivity.
    + intros H. inversion H as [ | ? ? [y Hy] Hr]; subst.
      apply IH in Hr as [ys Hys]. rewrite Hy, Hys. eexists. reflexivity.
Qed.

Lemma mapM_throws_from_element {A B : Type} (f : A -> Completion B) (l : list A)
  (e : Thrown) :
  mapM f l = Throw e -> exists x, In x l /\ f x = Throw e.
Proof.
  induction l as [ | x r IH]; simpl; [discriminate | ].
  destruct (f x) as [y | e'] eqn:E; cbn [bind].
  - destruct (mapM f r) as [ys | e'] eqn:Er; cbn [bind]; [discriminate | ].
    intros H. injection H as ->.
    destruct (IH eq_refl) as (x' & Hin & Hx). exists x'. split; [right; exact Hin | exact Hx].
  - intros H. injection H as ->. exists x. split; [left; reflexivity | exact E].
Qed.

Lemma Forall_equiv {A : Type} (P Q : A -> Prop) (l : list A) :
  (forall x, P x <-> Q x) -> (Forall P l <-> Forall Q l).
Proof.
  intros H. split; intros HF; eapply Forall_impl; try exact HF; intros x; apply H.
Qed.

Lemma definition_returns_iff (a : AppwriteAttribute) :
  (exists text, generateAttributeDefinition a = Return text)
  <-> (exists t, convertToTSType a (definitionContext a) = Return t).
Proof.
  unfold generateAttributeDefinition, definitionContext.
  destruct (convertToTSType a _) as [t | e]; cbn [bind]; split;
    intros [x H]; try discriminate H; eexists; reflexivity.
Qed.

Lemma definition_throws (a : AppwriteAttribute) (e : Thrown) :
  generateAttributeDefinition a = Throw e <->
  convertToTSType a (definitionContext a) = Throw e.
Proof.
  unfold generateAttributeDefinition, definitionContext.
  destruct (convertToTSType a _) as [t | e']; cbn [bind]; split; intros H;
    try discriminate H; exact H.
Qed.

Lemma collection_interface_returns_iff (c : Collection) (config : InterfaceGenerationConfig) :
  (exists text, generateCollectionInterface c config = Return text)
  <-> Forall (fun a => exists t, convertToTSType a (definitionContext a) = Return t)
        (attributes c).
Proof.
  etransitivity; [ | apply (Forall_equiv _ _ _ definition_returns_iff)].
  etransitivity; [ | apply mapM_returns_iff].
  unfold generateCollectionInterface, generateAttributeDefinitions.
  destruct (mapM generateAttributeDefinition (attributes c)) as [ds | e]; cbn [bind]; split;
    intros [x H]; try discriminate H; eexists; reflexivity.
Qed.

Lemma collection_interface_throws (c : Collection) (config : InterfaceGenerationConfig)
  (e : Thrown) :
  generateCollectionInterface c config = Throw e ->
  exists a, In a (attributes c) /\ convertToTSType a (definitionContext a) = Throw e.
Proof.
  unfold generateCollectionInterface, generateAttributeDefinitions.
  destruct (mapM generateAttributeDefinition (attributes c)) as [ds | e'] eqn:E;
    cbn [bind]; [discriminate | ].
  intros H. injection H as ->.
  destruct (mapM_throws_from_element _ _ _ E) as (a & Hin & Ha).
  exists a. split; [exact Hin | apply definition_throws, Ha].
Qed.

(** The interface section is generated exactly when every attribute of
    every collection converts: one attribute that does not convert fails
    the whole section.  When the section fails, the error is the one
    [convertToTSType] throws for an attribute of the collections,
    unchanged. *)
Theorem interfaces_returned_iff_every_attribute_converts :
  forall (collections : list Collection) (config : InterfaceGenerationConfig),
    ((exists text, generateInterfaces collections config = Return text)
     <-> allConvert collections)
    /\
    (forall e,
       generateInterfaces collections config = Throw e ->
       exists c a,
         In c collections /\ In a (attributes c)
         /\ convertToTSType a (definitionContext a) = Throw e).
Proof.
  intros collections config. unfold generateInterfaces, allConvert. cbv zeta. split.
  - etransitivity;
      [ | apply (Forall_equiv _ _ _
                   (fun c => collection_interface_returns_iff c
                               (merge DEFAULT_CONFIG config)))].
    etransitivity; [ | apply mapM_returns_iff].
    destruct (mapM _ collections) as [texts | e]; cbn [bind]; split;
      intros [x H]; try discriminate H; eexists; reflexivity.
  - intros e.
    destruct (mapM _ collections) as [texts | e'] eqn:E; cbn [bind]; [discriminate | ].
    intros H. injection H as ->.
    destruct (mapM_throws_from_element _ _ _ E) as (c & Hin & Hc).
    destruct (collection_interface_throws _ _ _ Hc) as (a & Ha & Hconv).
    exists c, a. repeat split; assumption.
Qed.

Lemma interfaces_returned_iff_every_attribute_converts_witness :
  exists c a,
    In c [Samples.users; Fixtures.posts] /\ In a (attributes c)
    /\ convertToTSType a (definitionContext a)
       = Throw (JsError "Unsupported attribute type: json in unknown collection, attribute body").
Proof.
  refine (proj2 (interfaces_returned_iff_every_attribute_converts
                   [Samples.users; Fixtures.posts] DEFAULT_CONFIG) _ _).
  vm_compute. reflexivity.
Defined.

End InterfaceFailures.

(* ================================================================== *)
(** ** Further properties of the constant generator *)

Section ConstantProperties.
Import JS.
Import Schema.
Import IDConstantsGenerator.

Ltac char_cases c :=
  destruct c as [[ | ] [ | ] [ | ] [ | ] [ | ] [ | ] [ | ] [ | ]];
  vm_compute; intuition congruence.

(** A constant name is the prefix, a sanitized core and the suffix: for
    every naming transform, custom ones included, the core holds only
    characters of [[A-Z0-9_]] and does not start with a digit.  The
    prefix and the suffix are put around it as they are. *)
Theorem constant_name_core_is_sanitized :
  forall (name prefix suffix : string) (transform : string -> string),
    exists core,
      formatConstantName name prefix suffix transform = prefix ++ core ++ suffix
      /\ allChars isConstantChar core = true
      /\ startsWithClass isDigit core = false.
Proof.
  intros name prefix suffix transform.
  exists (toUpperCase (guardLeadingDigit (replaceOutside isWord (transform name)))).
  split; [reflexivity | split].
  - apply allChars_toUpperCase, allChars_guardLeadingDigit, allChars_replaceOutside.
  - rewrite toUpperCase_leading_digit. apply guardLeadingDigit_no_digit.
Qed.

Lemma word_not_space (c : ascii) : isWord c = true -> isSpace c = false.
Proof. char_cases c. Qed.

Lemma constant_is_word (c : ascii) : isConstantChar c = true -> isWord c = true.
Proof. char_cases c. Qed.

Lemma constant_upper_fixed (c : ascii) : isConstantChar c = true -> upperChar c = c.
Proof. char_cases c. Qed.

Lemma allChars_impl (p q : ascii -> bool) (s : string) :
  (forall c, p c = true -> q c = true) -> allChars p s = true -> allChars q s = true.
Proof.
  intros H. induction s as [ | c r IH]; simpl; [reflexivity | ].
  intros Hs. apply andb_true_iff in Hs as [Hc Hr].
  rewrite (H c Hc), (IH Hr). reflexivity.
Qed.

Lemma trimStart_no_space (s : string) :
  allChars (fun c => negb (isSpace c)) s = true -> trimStart s = s.
Proof.
  destruct s as [ | c r]; simpl; [reflexivity | ].
  intros H. apply andb_true_iff in H as [Hc _].
  destruct (isSpace c); [discriminate Hc | reflexivity].
Qed.

Lemma trimEnd_no_space (s : string) :
  allChars (fun c => negb (isSpace c)) s = true -> trimEnd s = s.
Proof.
  induction s as [ | c r IH]; [reflexivity | ].
  cbn [allChars trimEnd]. intros H. apply andb_true_iff in H as [Hc Hr].
  rewrite (IH Hr). destruct r; [ | reflexivity].
  destruct (isSpace c); [discriminate Hc | reflexivity].
Qed.

Lemma replaceSpaceRuns_no_space (s : string) :
  allChars (fun c => negb (isSpace c)) s = true ->
  forall inRun, replaceSpaceRunsFrom inRun s = s.
Proof.
  induction s as [ | c r IH]; intros H inRun; [reflexivity | ].
  cbn [allChars] in H. apply andb_true_iff in H as [Hc Hr].
  cbn [replaceSpaceRunsFrom].
  destruct (isSpace c); [discriminate Hc | ]. rewrite (IH Hr). reflexivity.
Qed.

Lemma filterChars_all (p : ascii -> bool) (s : string) :
  allChars p s = true -> filterChars p s = s.
Proof.
  induction s as [ | c r IH]; simpl; [reflexivity | ].
  intros H. apply andb_true_iff in H as [Hc Hr]. rewrite Hc, (IH Hr). reflexivity.
Qed.

Lemma filterChars_none (p : ascii -> bool) (s : string) :
  allChars (fun c => negb (p c)) s = true -> filterChars p s = "".
Proof.
  induction s as [ | c r IH]; simpl; [reflexivity | ].
  intros H. apply andb_true_iff in H as [Hc Hr].
  destruct (p c); [discriminate Hc | exact (IH Hr)].
Qed.

Lemma replaceOutside_all (p : ascii -> bool) (s : string) :
  allChars p s = true -> replaceOutside p s = s.
Proof.
  unfold replaceOutside. induction s as [ | c r IH]; simpl; [reflexivity | ].
  intros H. apply andb_true_iff in H as [Hc Hr]. rewrite Hc, (IH Hr). reflexivity.
Qed.

Lemma toUpperCase_constant (s : string) :
  allChars isConstantChar s = true -> toUpperCase s = s.
Proof.
  unfold toUpperCase. induction s as [ | c r IH]; simpl; [reflexivity | ].
  intros H. apply andb_true_iff in H as [Hc Hr].
  rewrite (constant_upper_fixed c Hc), (IH Hr). reflexivity.
Qed.

Lemma guardLeadingDigit_fixed (s : string) :
  startsWithClass isDigit s = false -> guardLeadingDigit s = s.
Proof.
  destruct s as [ | c r]; simpl; [reflexivity | ]. intros ->. reflexivity.
Qed.

Lemma defaultNamingTransform_fixed (s : string) :
  allChars isWord s = true -> defaultNamingTransform s = s.
Proof.
  intros H.
  assert (Hs : allChars (fun c => negb (isSpace c)) s = true).
  { apply (allChars_impl isWord); [ | exact H].
    intros c Hc. rewrite (word_not_space c Hc). reflexivity. }
  unfold defaultNamingTransform, removeOutside, replaceSpaceRuns, trim.
  rewrite (trimStart_no_space s Hs), (trimEnd_no_space s Hs),
    (replaceSpaceRuns_no_space s Hs).
  apply filterChars_all, H.
Qed.

(** Deriving a name twice changes nothing: the default naming transform
    is idempotent, and a constant key (default transform, no prefix or
    suffix) is its own constant key. *)
Theorem constant_key_derivation_is_idempotent :
  forall name : string,
    defaultNamingTransform (defaultNamingTransform name) = defaultNamingTransform name
    /\ formatConstantName (formatConstantName name "" "" defaultNamingTransform)
         "" "" defaultNamingTransform
       = formatConstantName name "" "" defaultNamingTransform.
Proof.
  intros name. split.
  - apply defaultNamingTransform_fixed, defaultNamingTransform_word.
  - rewrite !formatConstantName_default.
    set (k := toUpperCase (guardLeadingDigit
                (replaceOutside isWord (defaultNamingTransform name)))).
    assert (Hc : allChars isConstantChar k = true)
      by (apply allChars_toUpperCase, allChars_guardLeadingDigit, allChars_replaceOutside).
    assert (Hd : startsWithClass isDigit k = false)
      by (unfold k; rewrite toUpperCase_leading_digit; apply guardLeadingDigit_no_digit).
    assert (Hw : allChars isWord k = true)
      by (apply (allChars_impl isConstantChar); [apply constant_is_word | exact Hc]).
    rewrite (defaultNamingTransform_fixed k Hw), (replaceOutside_all isWord k Hw),
      (guardLeadingDigit_fixed k Hd).
    apply toUpperCase_constant, Hc.
Qed.

Lemma trimStart_all_space (s : string) :
  allChars isSpace s = true -> trimStart s = "".
Proof.
  induction s as [ | c r IH]; simpl; [reflexivity | ].
  intros H. apply andb_true_iff in H as [Hc Hr]. rewrite Hc. exact (IH Hr).
Qed.

(** A name that consists of white space only (the no-break space
    included), or only of characters that are neither white space nor in
    [[a-zA-Z0-9_]], derives the empty constant key: its table entry has
    no key before the colon. *)
Theorem blank_or_symbol_name_gives_empty_key :
  forall name : string,
    allChars isSpace name = true
    \/ allChars (fun c => negb (isWord c) && negb (isSpace c)) name = true ->
    formatConstantName name "" "" defaultNamingTransform = ""
    /\ forall (kind : string) (entityId : string),
         constantEntry kind DEFAULT_CONFIG {| id := entityId; name := name |}
         = "  /** " ++ kind ++ " ID for " ++ name ++ " */" ++ nl
           ++ "  : '" ++ entityId ++ "',".
Proof.
  intros name H.
  assert (E : defaultNamingTransform name = "").
  { unfold defaultNamingTransform, removeOutside, replaceSpaceRuns, trim.
    destruct H as [H | H].
    - rewrite (trimStart_all_space name H). reflexivity.
    - assert (Hs : allChars (fun c => negb (isSpace c)) name = true).
      { apply (allChars_impl (fun c => negb (isWord c) && negb (isSpace c)));
          [ | exact H].
        intros c Hc. apply andb_true_iff in Hc as [_ Hc]. exact Hc. }
      rewrite (trimStart_no_space name Hs), (trimEnd_no_space name Hs),
        (replaceSpaceRuns_no_space name Hs).
      apply filterChars_none.
      apply (allChars_impl (fun c => negb (isWord c) && negb (isSpace c)));
        [ | exact H].
      intros c Hc. apply andb_true_iff in Hc as [Hc _]. exact Hc. }
  assert (K : formatConstantName name "" "" defaultNamingTransform = "").
  { rewrite formatConstantName_default, E. reflexivity. }
  split; [exact K | ].
  intros kind entityId. unfold constantEntry.
  cbn [DEFAULT_CONFIG includeComments constantPrefix constantSuffix namingTransform
       transformOf truthy show Schema.name Schema.id].
  rewrite K, !append_assoc. reflexivity.
Qed.

Lemma blank_or_symbol_name_gives_empty_key_witness :
  formatConstantName "#!?" "" "" defaultNamingTransform = "".
Proof.
  apply (blank_or_symbol_name_gives_empty_key "#!?"). right. reflexivity.
Defined.

Lemma constants_section_of_booleans (o : InputConfig)
  (config : IDConstantsGenerationConfig) (b1 b2 : bool) :
  generateDatabaseConstantsFlag (merge DEFAULT_CONFIG config) = Some (Some b1) ->
  generateCollectionConstantsFlag (merge DEFAULT_CONFIG config) = Some (Some b2) ->
  generateIDConstants (ParsedObject o) config
  = Return (nl ++ "      " ++ showBool b1 ++ nl ++ nl
            ++ "      " ++ showBool b2 ++ nl ++ "    ").
Proof.
  intros H1 H2.
  unfold generateIDConstants. cbv zeta. cbn [validateInputConfig bind].
  rewrite H1, H2. reflexivity.
Qed.

(** Whenever neither constant flag of the merged configuration is
    nullish (each is [true], [false] or absent), the constants section
    is the two flags printed as text and nothing else.  This is so for
    the schema objects whose [databases] and [collections] entries are
    each missing or an array of records with a string [name], and for a
    naming transform that is absent or a function that returns a string;
    on these both tables are built without an error before the flags
    discard them (other inputs, which make building a table throw, are
    outside [InputConfig] and the configuration record).  So no database
    or collection identifier reaches the section, and a flag set to
    [false] prints [false] rather than leaving its table out. *)
Theorem constants_section_prints_boolean_flags :
  forall (o : InputConfig) (config : IDConstantsGenerationConfig) (b1 b2 : bool),
    generateDatabaseConstantsFlag (merge DEFAULT_CONFIG config) = Some (Some b1) ->
    generateCollectionConstantsFlag (merge DEFAULT_CONFIG config) = Some (Some b2) ->
    generateIDConstants (ParsedObject o) config
    = Return (nl ++ "      " ++ showBool b1 ++ nl ++ nl
              ++ "      " ++ showBool b2 ++ nl ++ "    ").
Proof.
  intros o config b1 b2 H1 H2. apply constants_section_of_booleans; assumption.
Qed.

Lemma constants_section_prints_boolean_flags_witness :
  generateIDConstants Samples.schema
    {| generateDatabaseConstantsFlag := Some (Some false);
       generateCollectionConstantsFlag := None;
       constantPrefix := None; constantSuffix := None;
       namingTransform := None; includeComments := None |}
  = Return (nl ++ "      false" ++ nl ++ nl ++ "      true" ++ nl ++ "    ").
Proof.
  refine (constants_section_prints_boolean_flags _ _ false true _ _); reflexivity.
Defined.

Lemma Includes_within (x y before after : string) :
  Includes x y -> Includes x (before ++ y ++ after).
Proof.
  intros (b & a & ->). exists (before ++ b), (a ++ after).
  rewrite !append_assoc. reflexivity.
Qed.

(** With a constant flag present and nullish, the table is emitted: the
    constants section then holds the entry of every database of the
    schema, and with the collection flag nullish the entry of every
    collection, those without attributes included. *)
Theorem nullish_flag_emits_every_entry :
  forall (o : InputConfig) (config : IDConstantsGenerationConfig),
    (generateDatabaseConstantsFlag (merge DEFAULT_CONFIG config) = Some None ->
     forall dbs d,
       databases o = Some dbs -> In d dbs ->
       outputIncludes (constantEntry "Database" (merge DEFAULT_CONFIG config) d)
         (generateIDConstants (ParsedObject o) config) = true)
    /\
    (generateCollectionConstantsFlag (merge DEFAULT_CONFIG config) = Some None ->
     forall cs c,
       collections o = Some cs -> In c cs ->
       outputIncludes (constantEntry "Collection" (merge DEFAULT_CONFIG config) (entity c))
         (generateIDConstants (ParsedObject o) config) = true).
Proof.
  intros o config. split.
  - intros Hf dbs d Hdbs Hin.
    unfold generateIDConstants. cbv zeta. cbn [validateInputConfig bind outputIncludes].
    rewrite Hf, Hdbs. cbn [nullishCoalesce].
    apply includes_spec.
    match goal with
    | |- Includes _ (?a ++ (?b ++ ?t ++ ?c) ++ ?d) =>
        apply (Includes_within _ (b ++ t ++ c) a d);
        apply (Includes_within _ t b c)
    end.
    unfold generateDatabaseConstants. apply includes_in_join, in_map, Hin.
  - intros Hf cs c Hcs Hin.
    unfold generateIDConstants. cbv zeta. cbn [validateInputConfig bind outputIncludes].
    rewrite Hf, Hcs.
    apply includes_spec.
    match goal with
    | |- Includes _ (?a ++ ?x ++ ?m ++ nullishCoalesce (Some None) (?b ++ ?t ++ ?c) ++ ?d) =>
        cbn [nullishCoalesce];
        rewrite <- (append_assoc a x), <- (append_assoc (a ++ x) m);
        apply (Includes_within _ (b ++ t ++ c) ((a ++ x) ++ m) d);
        apply (Includes_within _ t b c)
    end.
    unfold generateCollectionConstants. apply includes_in_join, in_map, in_map, Hin.
Qed.

Lemma nullish_flag_emits_every_entry_witness :
  outputIncludes
    (constantEntry "Database"
       (merge DEFAULT_CONFIG
          {| generateDatabaseConstantsFlag := Some None;
             generateCollectionConstantsFlag := None;
             constantPrefix := None; constantSuffix := None;
             namingTransform := None; includeComments := None |})
       Samples.mainDb)
    (generateIDConstants Samples.schema
       {| generateDatabaseConstantsFlag := Some None;
          generateCollectionConstantsFlag := None;
          constantPrefix := None; constantSuffix := None;
          namingTransform := None; includeComments := None |}) = true.
Proof.
  refine (proj1 (nullish_flag_emits_every_entry _ _) _ [Samples.mainDb] Samples.mainDb _ _).
  - reflexivity.
  - reflexivity.
  - left. reflexivity.
Defined.

End ConstantProperties.

(* ================================================================== *)
(** ** Further properties of the pipeline *)

Section PipelineProperties.
Import JS.
Import Schema.
Import TypesGenerator.

(** A run whose configuration lacks the input path, or has it and lacks
    the output path, fails with the [GeneratorError] that names the
    missing path, whatever the environment holds: nothing is loaded. *)
Theorem missing_path_fails_before_loading :
  forall (config : TypeGeneratorConfig) (env : Environment),
    (missing (inputPath config) = true ->
     generate config env
     = Throw (GeneratorError "Input path is required for type generation"))
    /\
    (missing (inputPath config) = false -> missing (outputPath config) = true ->
     generate config env
     = Throw (GeneratorError "Output path is required for type generation")).
Proof.
  intros config env. unfold generate, generateBody, validateConfiguration.
  cbn [constructor inputPath outputPath]. split.
  - intros ->. reflexivity.
  - intros -> ->. reflexivity.
Qed.

Lemma missing_path_fails_before_loading_witness :
  generate Index.emptyConfig (Samples.environment Samples.schema)
  = Throw (GeneratorError "Input path is required for type generation").
Proof.
  apply (proj1 (missing_path_fails_before_loading
                  Index.emptyConfig (Samples.environment Samples.schema))).
  reflexivity.
Defined.

Lemma generateBody_loaded (config : TypeGeneratorConfig) (env : Environment)
  (parsed : Parsed) :
  missing (inputPath config) = false ->
  missing (outputPath config) = false ->
  load env (show (inputPath config)) = Return parsed ->
  generateBody (constructor config) env
  = (processableCollections <- extractProcessableCollections parsed ;;
     generatedTypes <- generateInitialTypes (constructor config) env
                         processableCollections parsed ;;
     transformed <- applyCustomTransformations (constructor config) generatedTypes
                      processableCollections parsed ;;
     Return (formatGeneratedTypes transformed)).
Proof.
  intros Hi Ho Hl.
  unfold generateBody, validateConfiguration, readInputConfiguration.
  cbn [constructor inputPath outputPath]. rewrite Hi, Ho, Hl. reflexivity.
Qed.

(** A loaded document without a [collections] array fails the run with
    the [GeneratorError] "No collections found in input configuration";
    the document [null] fails it with the wrapped TypeError of reading
    [collections] of [null]. *)
Theorem document_without_collections_fails :
  forall (config : TypeGeneratorConfig) (env : Environment) (parsed : Parsed),
    missing (inputPath config) = false ->
    missing (outputPath config) = false ->
    load env (show (inputPath config)) = Return parsed ->
    (parsed = ParsedPrimitive
     \/ (exists o, parsed = ParsedObject o /\ collections o = None) ->
     generate config env
     = Throw (GeneratorError "No collections found in input configuration"))
    /\
    (parsed = ParsedNull ->
     generate config env
     = Throw (GeneratorError
                ("Unexpected error during type generation: " ++ nullCollectionsMessage))).
Proof.
  intros config env parsed Hi Ho Hl. unfold generate.
  rewrite (generateBody_loaded config env parsed Hi Ho Hl). split.
  - intros [-> | (o & -> & Hc)]; [reflexivity | ].
    cbn [extractProcessableCollections]. rewrite Hc. reflexivity.
  - intros ->. reflexivity.
Qed.

Lemma document_without_collections_fails_witness :
  generate Samples.defaultConfig (Samples.environment ParsedNull)
  = Throw (GeneratorError
             ("Unexpected error during type generation: " ++ nullCollectionsMessage)).
Proof.
  refine (proj2 (document_without_collections_fails
                   Samples.defaultConfig (Samples.environment ParsedNull) ParsedNull
                   _ _ _) _);
    reflexivity.
Defined.

(** *** The final formatting *)

Lemma collapse_fixed (s : string) :
  forall k, noTripleNewline k s = true -> collapseNewlinesFrom k s = s.
Proof.
  induction s as [ | c r IH]; intros k H; [reflexivity | ].
  cbn [noTripleNewline collapseNewlinesFrom] in *.
  destruct (isNewline c).
  - apply andb_true_iff in H as [Hk Hr]. rewrite Hk, (IH _ Hr). reflexivity.
  - rewrite (IH _ H). reflexivity.
Qed.

Lemma trimEnd_append_newline (b : string) :
  b <> "" -> endsWithClass isSpace b = false -> trimEnd (b ++ nl) = b.
Proof.
  induction b as [ | c r IH]; intros Hne He; [contradiction | ].
  destruct r as [ | c' r'].
  - simpl in He. cbn. rewrite He. reflexivity.
  - change (String c (String c' r') ++ nl) with (String c (String c' r' ++ nl)).
    cbn [trimEnd]. rewrite IH by (try discriminate; exact He). reflexivity.
Qed.

Lemma trim_append_newline (b : string) :
  startsWithClass isSpace b = false -> endsWithClass isSpace b = false ->
  trim (b ++ nl) = b.
Proof.
  intros Hs He. unfold trim. destruct b as [ | c r]; [reflexivity | ].
  assert (E : trimStart (String c r ++ nl) = String c r ++ nl).
  { cbn [String.append trimStart]. simpl in Hs. rewrite Hs. reflexivity. }
  rewrite E. apply trimEnd_append_newline; [discriminate | exact He].
Qed.

Lemma ends_newline_ends_space (b : string) :
  endsWithClass isSpace b = false -> endsWithClass isNewline b = false.
Proof.
  induction b as [ | c r IH]; [reflexivity | ].
  destruct r as [ | c' r'].
  - simpl. intros H. destruct (isNewline c) eqn:E; [ | reflexivity].
    rewrite (newline_is_space c E) in H. discriminate H.
  - exact IH.
Qed.

Lemma formatted_is_fixed (text : string) :
  formatGeneratedTypes (formatGeneratedTypes text) = formatGeneratedTypes text.
Proof.
  unfold formatGeneratedTypes.
  set (body := trim (collapseNewlines text)).
  assert (Hs : startsWithClass isSpace body = false)
    by apply trimEnd_keeps_leading, trimStart_no_leading_space.
  assert (He : endsWithClass isSpace body = false)
    by apply trimEnd_no_trailing_space.
  assert (Hf : noTripleNewline 0 body = true).
  { apply noTriple_trimEnd, noTriple_trimStart. exact (noTriple_collapse text 0). }
  assert (Hn : noTripleNewline 0 (body ++ nl) = true).
  { destruct body as [ | c r] eqn:Eb; [reflexivity | ].
    apply noTriple_append_newline;
      [discriminate | apply ends_newline_ends_space, He | exact Hf]. }
  unfold collapseNewlines at 1. rewrite (collapse_fixed _ _ Hn).
  rewrite (trim_append_newline body Hs He). reflexivity.
Qed.

(** Formatting is idempotent: formatting a formatted text again gives
    the same text. *)
Theorem formatGeneratedTypes_is_idempotent :
  forall generatedTypes : string,
    formatGeneratedTypes (formatGeneratedTypes generatedTypes)
    = formatGeneratedTypes generatedTypes.
Proof. exact formatted_is_fixed. Qed.

(** Whatever the transformers return, the text a successful run returns
    is formatted: formatting it again changes nothing, and it ends with a
    line feed. *)
Theorem returned_text_is_formatted :
  forall (config : TypeGeneratorConfig) (env : Environment) (out : string),
    generate config env = Return out ->
    formatGeneratedTypes out = out
    /\ exists body, out = body ++ nl.
Proof.
  intros config env out. unfold generate, tryCatch, generateBody.
  destruct (validateConfiguration (constructor config)); cbn [bind]; [ | discriminate].
  destruct (readInputConfiguration (constructor config) env) as [parsed | ];
    cbn [bind]; [ | discriminate].
  destruct (extractProcessableCollections parsed) as [cols | ]; cbn [bind]; [ | discriminate].
  destruct (generateInitialTypes (constructor config) env cols parsed) as [types | ];
    cbn [bind]; [ | discriminate].
  destruct (applyCustomTransformations (constructor config) types cols parsed)
    as [transformed | ]; cbn [bind]; [ | discriminate].
  intros H. injection H as <-. split.
  - apply formatted_is_fixed.
  - eexists. reflexivity.
Qed.

Lemma returned_text_is_formatted_witness :
  exists out,
    generate Samples.defaultConfig (Samples.environment Samples.schema) = Return out
    /\ formatGeneratedTypes out = out.
Proof.
  destruct (generate Samples.defaultConfig (Samples.environment Samples.schema))
    as [out | e] eqn:E.
  - exists out. split; [reflexivity | ].
    exact (proj1 (returned_text_is_formatted _ _ out E)).
  - exfalso. vm_compute in E. discriminate E.
Defined.

End PipelineProperties.

Section Noninterference.
Import JS.
Import Schema.
Import TypesGenerator.




End Noninterference.

(* ================================================================== *)
(** ** Reading, writing and [generateTypes] *)

Section FilesAndEntryPoint.
Import JS.
Import Schema.
Import TypesGenerator.
Import FileSystemUtils.
Import Index.

(** When the input file cannot be read, the run fails with
    "Failed to read or parse input configuration: File System Error:
    Unable to read file: <input path>": the message names the path and
    nothing of the cause, which [FileSystemUtils.readFile] drops.  When
    the file is read and parsing it fails, the message carries the
    parser's message instead. *)
Theorem unreadable_input_reports_path_not_cause :
  forall (config : TypeGeneratorConfig) (runtime : Runtime) (path : string),
    inputPath config = Some path ->
    path <> "" ->
    missing (outputPath config) = false ->
    (forall cause,
       fsReadFile (fileSystem runtime) (pathResolve (fileSystem runtime) path)
         = Throw cause ->
       generate config (environmentOf runtime)
       = Throw (GeneratorError
                  ("Failed to read or parse input configuration: "
                   ++ "File System Error: Unable to read file: " ++ path)))
    /\
    (forall content cause,
       fsReadFile (fileSystem runtime) (pathResolve (fileSystem runtime) path)
         = Return content ->
       jsonParse runtime content = Throw cause ->
       generate config (environmentOf runtime)
       = Throw (GeneratorError
                  ("Failed to read or parse input configuration: " ++ messageOf cause))).
Proof.
  intros config runtime path Hp Hne Ho.
  assert (Hi : missing (inputPath config) = false).
  { rewrite Hp. destruct path; [contradiction | reflexivity]. }
  unfold generate, generateBody, validateConfiguration, readInputConfiguration.
  cbn [constructor inputPath outputPath]. rewrite Hi, Ho. cbn [bind].
  rewrite Hp. cbn [show environmentOf load]. unfold readFile. split.
  - intros cause Hr. rewrite Hr. reflexivity.
  - intros content cause Hr Hj. rewrite Hr. cbn [bind]. rewrite Hj. reflexivity.
Qed.

Lemma unreadable_input_reports_path_not_cause_witness :
  generate Samples.defaultConfig
    (environmentOf (Fixtures.runtime Fixtures.unreadable Samples.schema))
  = Throw (GeneratorError
             ("Failed to read or parse input configuration: "
              ++ "File System Error: Unable to read file: appwrite.json")).
Proof.
  refine (proj1 (unreadable_input_reports_path_not_cause
                   Samples.defaultConfig
                   (Fixtures.runtime Fixtures.unreadable Samples.schema)
                   "appwrite.json" _ _ _) (JsError "ENOENT: no such file") _);
    solve [reflexivity | discriminate].
Defined.

Lemma generate_returns_needs_output_path (config : TypeGeneratorConfig)
  (env : Environment) (text : string) :
  generate config env = Return text -> missing (outputPath config) = false.
Proof.
  unfold generate, tryCatch, generateBody, validateConfiguration.
  cbn [constructor inputPath outputPath].
  destruct (missing (inputPath config)); cbn [bind]; [discriminate | ].
  destruct (missing (outputPath config)); cbn [bind]; [discriminate | reflexivity].
Qed.

Lemma generate_throws_GeneratorError (config : TypeGeneratorConfig)
  (env : Environment) (e : Thrown) :
  generate config env = Throw e -> exists m, e = GeneratorError m.
Proof.
  unfold generate, tryCatch.
  destruct (generateBody (constructor config) env) as [text | cause]; [discriminate | ].
  intros H. injection H as <-.
  destruct cause; eexists; reflexivity.
Qed.

(** [generateTypes] changes the disk only after a successful run: when
    the run fails it issues no [mkdir] and no write, and rethrows the
    run's [GeneratorError] unchanged.  When the run returns a text it always
    goes on to write (a run cannot succeed without an output path): it
    creates the directory of the output path; if that fails, nothing is
    written and the call fails with "File System Error: Unable to write
    file: <output path>"; otherwise it writes exactly the returned text
    to the output path, once, and returns the text if the write succeeds
    and fails with the same error if it does not. *)
Theorem generateTypes_writes_only_the_finished_text :
  forall (config : TypeGeneratorConfig) (runtime : Runtime),
    (forall e,
       generate config (environmentOf runtime) = Throw e ->
       generateTypes (Some config) runtime = (Throw e, []))
    /\
    (forall text,
       generate config (environmentOf runtime) = Return text ->
       let fs := fileSystem runtime in
       let target := pathResolve fs (show (outputPath config)) in
       let failure :=
         Throw (GeneratorError ("File System Error: Unable to write file: "
                                ++ show (outputPath config))) in
       (forall cause,
          fsMkdir fs (pathDirname fs target) = Throw cause ->
          generateTypes (Some config) runtime
          = (failure, [Mkdir (pathDirname fs target)]))
       /\
       (forall cause,
          fsMkdir fs (pathDirname fs target) = Return tt ->
          fsWriteFile fs target text = Throw cause ->
          generateTypes (Some config) runtime
          = (failure, [Mkdir (pathDirname fs target); WriteFile target text]))
       /\
       (fsMkdir fs (pathDirname fs target) = Return tt ->
        fsWriteFile fs target text = Return tt ->
        generateTypes (Some config) runtime
        = (Return text, [Mkdir (pathDirname fs target); WriteFile target text]))).
Proof.
  intros config runtime. split.
  - intros e H. unfold generateTypes. rewrite H.
    destruct (generate_throws_GeneratorError _ _ _ H) as [m ->]. reflexivity.
  - intros text H fs target failure. unfold generateTypes. rewrite H.
    rewrite (generate_returns_needs_output_path _ _ _ H).
    unfold writeFile. fold fs. cbv zeta. fold target.
    split; [ | split].
    + intros cause Em. rewrite Em. reflexivity.
    + intros cause Em Ew. rewrite Em, Ew. reflexivity.
    + intros Em Ew. rewrite Em, Ew. reflexivity.
Qed.

Lemma generateTypes_writes_only_the_finished_text_witness :
  generateTypes (Some Samples.defaultConfig)
    (Fixtures.runtime (Fixtures.disk "{}") Samples.schema)
  = (Return Fixtures.generatedText,
     [Mkdir "/work"; WriteFile "/work/types.ts" Fixtures.generatedText]).
Proof.
  refine (proj2 (proj2 (proj2 (generateTypes_writes_only_the_finished_text
                   Samples.defaultConfig
                   (Fixtures.runtime (Fixtures.disk "{}") Samples.schema))
                   Fixtures.generatedText _)) _ _).
  - vm_compute. reflexivity.
  - reflexivity.
  - reflexivity.
Defined.

End FilesAndEntryPoint.

(* ================================================================== *)
(** ** deepMerge *)

Section DeepMerge.
Import JS.
Import Values.
Import FileSystemUtils.

Lemma deepMerge_object (target : Fields) (sourceFields : list (string * JsValue)) :
  deepMerge target (VObject sourceFields) = mergeEntries target sourceFields target.
Proof.
  cbn [deepMerge]. generalize target at 2 4 as output.
  induction sourceFields as [ | [key sv] rest IH]; intros output; [reflexivity | ].
  cbn [mergeEntries mergeEntry].
  destruct (key =? "__proto__")%string; [reflexivity | ].
  destruct sv; try apply IH.
  destruct (getProperty key target) as [[ | | | | | | tf | ] | ]; try apply IH.
  destruct (deepMerge tf (VObject fields)); [apply IH | reflexivity].
Qed.

Lemma get_set_same (key : string) (v : JsValue) (o : Fields) :
  getProperty key (setProperty key v o) = Some v.
Proof.
  induction o as [ | [k0 v0] r IH]; simpl.
  - rewrite String.eqb_refl. reflexivity.
  - destruct (String.eqb_spec k0 key) as [-> | N]; simpl.
    + rewrite String.eqb_refl. reflexivity.
    + destruct (String.eqb_spec k0 key); [contradiction | exact IH].
Qed.

Lemma get_set_other (key key' : string) (v : JsValue) (o : Fields) :
  key' <> key -> getProperty key' (setProperty key v o) = getProperty key' o.
Proof.
  intros N. induction o as [ | [k0 v0] r IH]; simpl.
  - destruct (String.eqb_spec key key'); [subst; contradiction | reflexivity].
  - destruct (String.eqb_spec k0 key) as [-> | N0]; simpl.
    + destruct (String.eqb_spec key key'); [subst; contradiction | reflexivity].
    + destruct (String.eqb_spec k0 key'); [reflexivity | exact IH].
Qed.

Lemma set_keys_In (key : string) (v : JsValue) (o : Fields) (k : string) :
  In k (map fst (setProperty key v o)) <-> k = key \/ In k (map fst o).
Proof.
  induction o as [ | [k0 v0] r IH]; simpl.
  - intuition.
  - destruct (String.eqb_spec k0 key) as [-> | N]; simpl.
    + intuition.
    + rewrite IH. intuition.
Qed.

Lemma get_none_not_key (key : string) (o : Fields) :
  getProperty key o = None <-> ~ In key (map fst o).
Proof.
  induction o as [ | [k0 v0] r IH]; simpl; [tauto | ].
  destruct (String.eqb_spec k0 key) as [-> | N].
  - split; [discriminate | intros H; exfalso; apply H; left; reflexivity].
  - rewrite IH. intuition.
Qed.

Lemma mergeEntry_sets (target : Fields) (key : string) (sv : JsValue)
  (output output' : Fields) :
  mergeEntry target (key, sv) output = Some output' ->
  exists v, output' = setProperty key v output
            /\ (bothObjects sv (getProperty key target) = false -> v = sv)
            /\ (forall sf tf, sv = VObject sf -> getProperty key target = Some (VObject tf) ->
                  exists m, deepMerge tf (VObject sf) = Some m /\ v = VObject m).
Proof.
  cbn [mergeEntry]. destruct (key =? "__proto__")%string; [discriminate | ].
  destruct sv;
    try (intros H; injection H as <-; eexists; split; [reflexivity | ];
         split; [reflexivity | intros sf tf E; discriminate E]).
  destruct (getProperty key target) as [[ | | | | | | tf | ] | ];
    try (intros H; injection H as <-; eexists; split; [reflexivity | ];
         split; [reflexivity | intros sf tf' _ E; discriminate E]).
  destruct (deepMerge tf (VObject fields)) as [m | ] eqn:Em; [ | discriminate].
  intros H. injection H as <-. eexists. split; [reflexivity | ]. split.
  - cbn. discriminate.
  - intros sf tf' E1 E2. injection E1 as <-. injection E2 as <-.
    exists m. split; [exact Em | reflexivity].
Qed.

Lemma mergeEntries_untouched (target : Fields) (entries : list (string * JsValue))
  (key : string) :
  ~ In key (map fst entries) ->
  forall output merged,
    mergeEntries target entries output = Some merged ->
    getProperty key merged = getProperty key output.
Proof.
  induction entries as [ | [k sv] rest IH]; intros Hnot output merged; cbn [mergeEntries].
  - intros H. injection H as <-. reflexivity.
  - destruct (mergeEntry target (k, sv) output) as [output' | ] eqn:E; [ | discriminate].
    intros H. cbn [map fst In] in Hnot.
    rewrite (IH ltac:(tauto) _ _ H).
    destruct (mergeEntry_sets _ _ _ _ _ E) as (v & -> & _).
    apply get_set_other. intros ->. apply Hnot. left. reflexivity.
Qed.

Lemma mergeEntries_keys (target : Fields) (entries : list (string * JsValue)) :
  forall output merged,
    mergeEntries target entries output = Some merged ->
    forall k, In k (map fst merged) <-> In k (map fst output) \/ In k (map fst entries).
Proof.
  induction entries as [ | [k0 sv] rest IH]; intros output merged; cbn [mergeEntries].
  - intros H. injection H as <-. simpl. tauto.
  - destruct (mergeEntry target (k0, sv) output) as [output' | ] eqn:E; [ | discriminate].
    intros H k. rewrite (IH _ _ H k).
    destruct (mergeEntry_sets _ _ _ _ _ E) as (v & -> & _).
    rewrite set_keys_In. simpl. intuition.
Qed.

(** The merge of an object [target] with a source object of distinct
    keys, read key by key: a key the source lacks keeps the target's
    value; a key whose source value and target value are both objects
    holds their merge; for every other key of the source the source's
    value wins, be it a scalar, an array, [null] or an explicit
    [undefined]. *)
Theorem deepMerge_by_key :
  forall (target : Fields) (sourceFields : list (string * JsValue)) (merged : Fields),
    NoDup (map fst sourceFields) ->
    deepMerge target (VObject sourceFields) = Some merged ->
    forall key : string,
      (getProperty key sourceFields = None ->
       getProperty key merged = getProperty key target)
      /\
      (forall sourceValue,
         getProperty key sourceFields = Some sourceValue ->
         bothObjects sourceValue (getProperty key target) = false ->
         getProperty key merged = Some sourceValue)
      /\
      (forall sf tf,
         getProperty key sourceFields = Some (VObject sf) ->
         getProperty key target = Some (VObject tf) ->
         exists m, deepMerge tf (VObject sf) = Some m
                   /\ getProperty key merged = Some (VObject m)).
Proof.
  intros target sourceFields merged Hnd Hm key.
  rewrite deepMerge_object in Hm.
  assert (Hgen :
    forall output,
      mergeEntries target sourceFields output = Some merged ->
      (getProperty key sourceFields = None ->
       getProperty key merged = getProperty key output)
      /\ (forall sv, getProperty key sourceFields = Some sv ->
            exists v, getProperty key merged = Some v
              /\ (bothObjects sv (getProperty key target) = false -> v = sv)
              /\ (forall sf tf, sv = VObject sf ->
                    getProperty key target = Some (VObject tf) ->
                    exists m, deepMerge tf (VObject sf) = Some m /\ v = VObject m))).
  { clear Hm. induction sourceFields as [ | [k sv] rest IH]; intros output H.
    - cbn in H. injection H as <-. split; [reflexivity | discriminate].
    - inversion Hnd as [ | ? ? Hnot Hrest]; subst.
      cbn [mergeEntries] in H.
      destruct (mergeEntry target (k, sv) output) as [output' | ] eqn:E;
        [ | discriminate H].
      destruct (mergeEntry_sets _ _ _ _ _ E) as (v & -> & Hv1 & Hv2).
      cbn [getProperty].
      destruct (String.eqb_spec k key) as [-> | N].
      + split; [discriminate | ].
        intros sv' Esv. injection Esv as <-.
        exists v. split; [ | split; assumption].
        rewrite (mergeEntries_untouched target rest key Hnot _ _ H).
        apply get_set_same.
      + destruct (IH Hrest _ H) as [IH1 IH2]. split; [ | exact IH2].
        intros Hn. rewrite (IH1 Hn). apply get_set_other. intros ->. exact (N eq_refl). }
  destruct (Hgen target Hm) as [H1 H2]. split; [exact H1 | split].
  - intros sv Hs Hb. destruct (H2 sv Hs) as (v & Hv & Hsc & _).
    rewrite Hv, (Hsc Hb). reflexivity.
  - intros sf tf Hs Ht. destruct (H2 _ Hs) as (v & Hv & _ & Hobj).
    destruct (Hobj sf tf eq_refl Ht) as (m & Hm' & ->). exists m. split; assumption.
Qed.

Lemma deepMerge_by_key_witness :
  getProperty "list" [ ("theme", VObject [ ("color", VString "blue");
                                            ("size", VNumber (Integral 1)) ]);
                       ("debug", VBoolean false);
                       ("list", VArray []) ]
  = Some (VArray []).
Proof.
  refine (proj1 (proj2 (deepMerge_by_key Fixtures.baseOptions
            [ ("theme", VObject [ ("color", VString "blue") ]); ("list", VArray []) ]
            _ _ _ "list")) (VArray []) _ _).
  - repeat constructor; simpl; intuition discriminate.
  - reflexivity.
  - reflexivity.
  - reflexivity.
Defined.

Lemma JsValue_nested_ind (P : JsValue -> Prop) :
  P VUndefined -> P VNull -> (forall b, P (VBoolean b)) -> (forall n, P (VNumber n)) ->
  (forall s, P (VString s)) -> (forall items, P (VArray items)) ->
  (forall fields, Forall (fun entry => P (snd entry)) fields -> P (VObject fields)) ->
  P VFunction ->
  forall v, P v.
Proof.
  intros Hu Hn Hb Hnum Hs Ha Ho Hf.
  refine (fix IH (v : JsValue) : P v :=
            match v with
            | VUndefined => Hu
            | VNull => Hn
            | VBoolean b => Hb b
            | VNumber n => Hnum n
            | VString s => Hs s
            | VArray items => Ha items
            | VObject fields =>
                Ho fields
                  ((fix go (l : list (string * JsValue))
                      : Forall (fun entry => P (snd entry)) l :=
                      match l with
                      | [] => Forall_nil _
                      | entry :: r => Forall_cons entry (IH (snd entry)) (go r)
                      end) fields)
            | VFunction => Hf
            end).
Qed.

Lemma noProtoKey_object (fields : list (string * JsValue)) :
  noProtoKey (VObject fields)
  = forallb (fun entry => negb (fst entry =? "__proto__")%string && noProtoKey (snd entry))
      fields.
Proof.
  cbn [noProtoKey]. induction fields as [ | [k v] r IH]; [reflexivity | ].
  cbn [forallb fst snd]. rewrite <- IH. reflexivity.
Qed.

(** Away from the key "__proto__" the merge returns. *)
Lemma deepMerge_returns (source : JsValue) :
  noProtoKey source = true ->
  forall target, exists merged, deepMerge target source = Some merged.
Proof.
  induction source as [ | | b | n | s | items | fields IH | ] using JsValue_nested_ind;
    intros Hp target; try (eexists; reflexivity).
  rewrite deepMerge_object. rewrite noProtoKey_object in Hp.
  generalize target at 2 as output.
  induction fields as [ | [k v] r IHr]; intros output; [eexists; reflexivity | ].
  inversion IH as [ | ? ? Hv Hr]; subst.
  cbn [forallb fst snd] in Hp.
  apply andb_true_iff in Hp as [Hkv Hrest]. apply andb_true_iff in Hkv as [Hk Hvp].
  cbn [mergeEntries mergeEntry].
  destruct (k =? "__proto__")%string; [discriminate Hk | ].
  cbn [snd] in Hv.
  destruct v; try exact (IHr Hr Hrest _).
  destruct (getProperty k target) as [[ | | | | | | tf | ] | ]; try exact (IHr Hr Hrest _).
  destruct (Hv Hvp tf) as [m ->]. exact (IHr Hr Hrest _).
Qed.

(** For a source object that holds no key "__proto__" (neither itself
    nor in the objects nested in it), the merge returns, loses no key and
    invents none: the keys of the result are the keys of the target and
    the keys of the source. *)
Theorem deepMerge_keys :
  forall (target : Fields) (sourceFields : list (string * JsValue)),
    noProtoKey (VObject sourceFields) = true ->
    exists merged : Fields,
      deepMerge target (VObject sourceFields) = Some merged
      /\ forall key : string,
           In key (map fst merged)
           <-> In key (map fst target) \/ In key (map fst sourceFields).
Proof.
  intros target sourceFields Hp.
  destruct (deepMerge_returns _ Hp target) as [merged H].
  exists merged. split; [exact H | ]. intros key.
  rewrite deepMerge_object in H. exact (mergeEntries_keys _ _ _ _ H key).
Qed.

Lemma deepMerge_keys_witness :
  exists merged : Fields,
    deepMerge Fixtures.baseOptions Fixtures.overrides = Some merged
    /\ forall key : string,
         In key (map fst merged)
         <-> In key (map fst Fixtures.baseOptions)
             \/ In key (map fst [ ("theme", VObject [ ("color", VString "blue") ]);
                                  ("list", VArray []) ]).
Proof.
  apply (deepMerge_keys Fixtures.baseOptions
           [ ("theme", VObject [ ("color", VString "blue") ]); ("list", VArray []) ]).
  reflexivity.
Defined.

End DeepMerge.
